(** * rbc-ach: the Electron CPA-005 converter ([src/electron/ach-converter.js])

    A shallow embedding of [Formatter], the record classes ([ACHHeader],
    [Segment], [ACHBasicPayment], [ACHTrailer]) and [writeACHFile], followed
    by the properties of the encoding engine.

    Conventions of the embedding.
    - A JavaScript number is an IEEE-754 binary64 value: Rocq's primitive
      [float].  The counters [RECORD_COUNT] and [total_debit_records] only
      ever hold small non-negative integers, on which JavaScript arithmetic
      is exact; they are kept in [N] and turned into a number where the
      source hands them to [Formatter].
    - A JavaScript string is a [string]; one character stands for one
      UTF-16 code unit (code units below 256).
    - An exception is a value [Throw e] of the [result] type; [x <- c ;; k]
      is sequencing with propagation of the exception.
    - The worksheet is the list of its rows, a row the list of its cells
      (columns A, B, C, ...); an absent cell is [None]. *)

From Stdlib Require Import ZArith NArith List String Ascii Bool Lia.
From Stdlib Require Import Floats Uint63 DecimalString DecimalN.
Import ListNotations.

Set Warnings "-inexact-float".

Local Open Scope string_scope.
Local Open Scope Z_scope.

(** ** JavaScript values and built-ins used by the converter *)

Module JS.

(** The two exceptions the converter can raise: a property read on [null]
    or a call of a method the value does not have ([TypeError]), and
    [String.prototype.repeat] with a negative count ([RangeError]). *)
Inductive exn : Set := TypeError | RangeError.

Inductive result (A : Type) : Type :=
| Ok (a : A)
| Throw (e : exn).
Arguments Ok {A} a.
Arguments Throw {A} e.

Definition bind {A B : Type} (c : result A) (k : A -> result B) : result B :=
  match c with
  | Ok a => k a
  | Throw e => Throw e
  end.

Definition is_ok {A : Type} (c : result A) : bool :=
  match c with Ok _ => true | Throw _ => false end.

(** *** Strings *)

Fixpoint replicate (s : string) (n : nat) : string :=
  match n with
  | O => ""
  | S n' => s ++ replicate s n'
  end.

(** [s.repeat(count)]: a negative count is a [RangeError]. *)
Definition repeat (s : string) (count : Z) : result string :=
  if count <? 0 then Throw RangeError else Ok (replicate s (Z.to_nat count)).

(** [s.length] as a number. *)
Definition length (s : string) : Z := Z.of_nat (String.length s).

(** White space and line terminators (within the code units modelled):
    TAB, LF, VT, FF, CR, SP and NBSP. *)
Definition is_space (c : ascii) : bool :=
  let n := nat_of_ascii c in
  ((9 <=? n) && (n <=? 13))%nat || (n =? 32)%nat || (n =? 160)%nat.

Fixpoint trimStart (s : string) : string :=
  match s with
  | String c s' => if is_space c then trimStart s' else s
  | EmptyString => EmptyString
  end.

Fixpoint trimEnd (s : string) : string :=
  match s with
  | String c s' =>
      match trimEnd s' with
      | EmptyString => if is_space c then EmptyString else String c EmptyString
      | t => String c t
      end
  | EmptyString => EmptyString
  end.

(** [s.trim()] *)
Definition trim (s : string) : string := trimEnd (trimStart s).

(** [s.replace(".", "")]: only the first occurrence is removed. *)
Fixpoint remove_first_dot (s : string) : string :=
  match s with
  | String c s' => if Ascii.eqb c "."%char then s' else String c (remove_first_dot s')
  | EmptyString => EmptyString
  end.

(** [[f1, f2, ...].join("")] over fields that may each throw: the array
    literal evaluates its elements left to right, so the first exception
    wins; otherwise the strings are concatenated. *)
Fixpoint join (fields : list (result string)) : result string :=
  match fields with
  | [] => Ok ""
  | f :: rest =>
      match f with
      | Throw e => Throw e
      | Ok s =>
          match join rest with
          | Throw e => Throw e
          | Ok t => Ok (s ++ t)
          end
      end
  end.

(** *** Numbers *)

(** Decimal digits of a non-negative integer. *)
Definition digits (n : Z) : string := NilEmpty.string_of_uint (N.to_uint (Z.to_N n)).

(** An integer-valued counter as a number (exact below 2^53). *)
Definition of_N (n : N) : float := PrimFloat.of_uint63 (Uint63.of_Z (Z.of_N n)).

(** [a * 10^p] compared with [b * 2^q] (a, b >= 0, any p and q), exactly. *)
Definition cmp10_2 (a p b q : Z) : comparison :=
  (a * 10 ^ Z.max p 0 * 2 ^ Z.max (- q) 0 ?= b * 2 ^ Z.max q 0 * 10 ^ Z.max (- p) 0).

(** The least [n], from [n] on and within [fuel] steps, with
    [m * 2^e < 10^n]. *)
Fixpoint magnitude (fuel : nat) (m e n : Z) : Z :=
  match fuel with
  | O => n
  | S fuel' =>
      match cmp10_2 1 n m e with
      | Gt => n
      | _ => magnitude fuel' m e (n + 1)
      end
  end.

(** Does the decimal [s * 10^p] read back as the float [m * 2^e]
    (round to nearest, ties to even)?  The rounding interval of the float
    is given in units of [2^(e-2)]: from [4m - 2] (or [4m - 1] when the
    float is the least of its binade) to [4m + 2], its bounds included
    when [m] is even. *)
Definition reads_back (m e s p : Z) : bool :=
  let low := if (m =? 2 ^ 52) && (-1074 <? e) then 4 * m - 1 else 4 * m - 2 in
  let high := 4 * m + 2 in
  let even := Z.even m in
  match cmp10_2 s p low (e - 2), cmp10_2 s p high (e - 2) with
  | Gt, Lt => true
  | Eq, _ => even
  | _, Eq => even
  | _, _ => false
  end.

(** [|s * 10^p - m * 2^e|] in units of [10^min(p,0) * 2^min(e,0)]. *)
Definition distance (m e s p : Z) : Z :=
  Z.abs (s * 10 ^ Z.max p 0 * 2 ^ Z.max (- e) 0 - m * 2 ^ Z.max e 0 * 10 ^ Z.max (- p) 0).

(** The [k]-digit decimals [s * 10^p] that read back as [m * 2^e]: the two
    integers next to [m * 2^e / 10^p], for each exponent [p] that can give
    [k] digits. *)
Definition candidates (m e n0 k : Z) : list (Z * Z) :=
  flat_map
    (fun p =>
       let s := if 0 <=? p
                then (m * 2 ^ Z.max e 0) / (10 ^ p * 2 ^ Z.max (- e) 0)
                else (m * 2 ^ Z.max e 0 * 10 ^ (- p)) / 2 ^ Z.max (- e) 0 in
       filter
         (fun sp => (10 ^ (k - 1) <=? fst sp) && (fst sp <? 10 ^ k)
                    && reads_back m e (fst sp) (snd sp))
         [(s, p); (s + 1, p)])
    [n0 - k - 1; n0 - k; n0 - k + 1].

Definition closest (m e : Z) (cs : list (Z * Z)) : option (Z * Z) :=
  fold_left
    (fun best c =>
       match best with
       | None => Some c
       | Some b =>
           (* distances at different exponents are brought to one unit *)
           let q := Z.min (snd b) (snd c) in
           let db := distance m e (fst b * 10 ^ (snd b - q)) q in
           let dc := distance m e (fst c * 10 ^ (snd c - q)) q in
           if dc <? db then Some c
           else if (dc =? db) && Z.even (fst c) then Some c
           else Some b
       end)
    cs None.

(** The shortest decimal [s * 10^(n-k)] ([k] digits, [k] least) that reads
    back as the float, the closest to it among those (the even [s] of two
    equally close ones): [(s, k, n)]. *)
Fixpoint shortest (fuel : nat) (m e n0 k : Z) : Z * Z * Z :=
  match fuel with
  | O => (m, k, n0)
  | S fuel' =>
      match closest m e (candidates m e n0 k) with
      | Some (s, p) => (s, k, p + k)
      | None => shortest fuel' m e n0 (k + 1)
      end
  end.

Definition signed (z : Z) : string :=
  if z <? 0 then "-" ++ digits (- z) else "+" ++ digits z.

(** [Number::toString(x)] (radix 10) of ECMA-262. *)
Definition Number_toString (x : float) : string :=
  match Prim2SF x with
  | S754_nan => "NaN"
  | S754_zero _ => "0"
  | S754_infinity sign => if sign then "-Infinity" else "Infinity"
  | S754_finite sign mp e =>
      let m := Zpos mp in
      (* 10^(n0-1) <= m * 2^e < 10^n0; the search starts from a lower
         estimate of n0 by the binary logarithm, at most 4 below it *)
      let n0 := magnitude 8 m e ((Z.log2 m + e) * 30103 / 100000 - 1) in
      let '(s, k, n) := shortest 17 m e n0 1 in
      let ds := digits s in
      let body :=
        if (k <=? n) && (n <=? 21) then ds ++ replicate "0" (Z.to_nat (n - k))
        else if (0 <? n) && (n <=? 21) then
          substring 0 (Z.to_nat n) ds ++ "." ++ substring (Z.to_nat n) (Z.to_nat (k - n)) ds
        else if (-6 <? n) && (n <=? 0) then "0." ++ replicate "0" (Z.to_nat (- n)) ++ ds
        else if k =? 1 then ds ++ "e" ++ signed (n - 1)
        else substring 0 1 ds ++ "." ++ substring 1 (Z.to_nat (k - 1)) ds
             ++ "e" ++ signed (n - 1) in
      if sign then "-" ++ body else body
  end.

(** [x.toFixed(2)]: the integer [n] nearest to [100 * |x|] (the larger one on
    a tie), written with at least three digits and a point before the last
    two; a value of [10^21] or more, or one that is not finite, is written
    by [Number::toString]. *)
Definition Number_toFixed2 (x : float) : string :=
  match Prim2SF x with
  | S754_zero _ => "0.00"
  | S754_finite sign mp e =>
      let m := Zpos mp in
      match cmp10_2 1 21 m e with
      | Gt =>
          let n := if 0 <=? e then m * 2 ^ e * 100
                   else (2 * m * 100 + 2 ^ (- e)) / 2 ^ (1 - e) in
          let ds := digits n in
          let ds := replicate "0" (3 - String.length ds) ++ ds in
          let k := String.length ds in
          (if sign then "-" else "")
          ++ substring 0 (k - 2) ds ++ "." ++ substring (k - 2) 2 ds
      | _ => Number_toString x
      end
  | _ => Number_toString x
  end.

(** *** Values: [null], a number or a string *)

Inductive value : Set :=
| Null
| Num (x : float)
| Str (s : string).

(** [v.toString()]; reading the method off [null] is a [TypeError]. *)
Definition toString (v : value) : result string :=
  match v with
  | Null => Throw TypeError
  | Num x => Ok (Number_toString x)
  | Str s => Ok s
  end.

(** [v.toFixed(2)]; only a number has the method. *)
Definition toFixed2 (v : value) : result string :=
  match v with
  | Num x => Ok (Number_toFixed2 x)
  | Null | Str _ => Throw TypeError
  end.

(** [!v]: [null], the empty string, [0], [-0] and [NaN] are falsy. *)
Definition falsy (v : value) : bool :=
  match v with
  | Null => true
  | Num x => PrimFloat.is_zero x || PrimFloat.is_nan x
  | Str s => String.eqb s ""
  end.

(** [v == "y"]: [null] equals only [null] and [undefined]; a number is
    compared with [Number("y")], which is [NaN]; two strings are compared
    as strings. *)
Definition eq_y (v : value) : bool :=
  match v with
  | Str s => String.eqb s "y"
  | Null | Num _ => false
  end.

(** The abstract operation [ToString], applied by [+] to the operand
    that meets a string. *)
Definition ToString (v : value) : string :=
  match v with
  | Null => "null"
  | Num x => Number_toString x
  | Str s => s
  end.

(** [a + b]: concatenation as soon as one side is a string, addition of
    numbers otherwise ([null] counts as 0). *)
Definition add (a b : value) : value :=
  match a, b with
  | Str s, _ => Str (s ++ ToString b)
  | _, Str t => Str (ToString a ++ t)
  | Num x, Num y => Num (x + y)%float
  | Num x, Null => Num (x + 0)%float
  | Null, Num y => Num (0 + y)%float
  | Null, Null => Num (0 + 0)%float
  end.

End JS.

Notation "x <- c ;; k" := (JS.bind c (fun x => k))
  (at level 61, c at next level, right associativity).

Import JS (value, Null, Num, Str, result, Ok, Throw, exn, TypeError, RangeError).

(** ** The part of [moment] the converter uses

    A moment is kept as the calendar date it denotes (year, month, day of
    month; years are the non-negative ones the ["YYYY/MM/DD"] parser
    yields).  A moment whose fields are not a date of the calendar is an
    invalid moment, as the one [moment(input, format)] returns for an
    input it cannot read. *)

Module Moment.

Record t : Set := mk { year : N; month : N; date : N }.

Definition isLeapYear (y : N) : bool :=
  (((y mod 4 =? 0) && negb (y mod 100 =? 0)) || (y mod 400 =? 0))%N.

Definition daysInMonth (y m : N) : N :=
  (if m =? 2 then (if isLeapYear y then 29 else 28)
   else if (m =? 4) || (m =? 6) || (m =? 9) || (m =? 11) then 30
   else 31)%N.

Definition isValid (m : t) : bool :=
  ((1 <=? month m) && (month m <=? 12)
   && (1 <=? date m) && (date m <=? daysInMonth (year m) (month m)))%N.

(** Days of the year before the first of month [m]. *)
Definition daysBefore (y m : N) : N :=
  fold_right N.add 0%N (map (daysInMonth y) (map N.of_nat (seq 1 (N.to_nat m - 1)))).

Definition dayOfYear (m : t) : N := (daysBefore (year m) (month m) + date m)%N.

(** [zeroFill(number, targetLength)] for a non-negative number. *)
Definition zeroFill (number : N) (targetLength : nat) : string :=
  let absNumber := JS.digits (Z.of_N number) in
  JS.replicate "0" (targetLength - String.length absNumber) ++ absNumber.

(** [m.format("0YYDDDD")].  The format splits into the tokens ["0"]
    (no token of moment: copied), ["YY"] (the year modulo 100, filled to 2
    digits) and ["DDDD"] (the day of the year, filled to 3 digits); an
    invalid moment formats as the locale's ["Invalid date"]. *)
Definition format_0YYDDDD (m : t) : string :=
  if isValid m
  then "0" ++ zeroFill (year m mod 100) 2 ++ zeroFill (dayOfYear m) 3
  else "Invalid date".

End Moment.

(** ** [class Formatter] *)

Module Formatter.

(** [static alphanumeric(s, n)] *)
Definition alphanumeric (s : value) (n : Z) : result string :=
  w <- JS.toString s ;;
  pad <- JS.repeat " " (n - JS.length w) ;;
  Ok (w ++ pad).

(** [static money(amount, width)] *)
Definition money (amount : value) (width : Z) : result string :=
  fixed <- JS.toFixed2 amount ;;
  let flt := JS.remove_first_dot fixed in
  pad <- JS.repeat "0" (width - JS.length flt) ;;
  Ok (pad ++ flt).

(** [static numeric(n, width)] *)
Definition numeric (n : value) (width : Z) : result string :=
  w <- JS.toString n ;;
  pad <- JS.repeat "0" (width - JS.length w) ;;
  w' <- JS.toString n ;;
  Ok (pad ++ w').

End Formatter.

(** ** The record classes

    The fields of [ACHRecord] ([type], [count], [client_no], [file_no]) are
    repeated in each class that extends it. *)

Module ACHHeader.

Record t : Set := mk {
  type : string;
  count : N;
  client_no : value;
  file_no : N;
  file_date : Moment.t;
  processing_centre : value;
  currency_code : value
}.

(** [constructor(count, client_no, file_no, file_date, processing_centre,
    currency_code)] *)
Definition new (count : N) (client_no : value) (file_no : N) (file_date : Moment.t)
    (processing_centre currency_code : value) : t :=
  mk "A" count client_no file_no file_date processing_centre currency_code.

Definition fields (this : t) : list (result string) :=
  [ Formatter.alphanumeric (Str (type this)) 1;
    Formatter.numeric (Num (JS.of_N (count this))) 9;
    Formatter.alphanumeric (client_no this) 10;
    Formatter.alphanumeric (Num (JS.of_N (file_no this))) 4;
    Formatter.numeric (processing_centre this) 5;
    JS.repeat " " 20;
    Formatter.alphanumeric (currency_code this) 3 ].

Definition toString (this : t) : result string := JS.join (fields this).

End ACHHeader.

Module Segment.

Record t : Set := mk {
  transaction_code : value;
  amount : value;
  payment_date : Moment.t;
  transit : value;
  account_no : value;
  client_short_name : value;
  customer_name : value;
  client_long_name : value;
  client_no : value;
  customer_no : value;
  client_sundry_no : value
}.

Definition fields (this : t) : list (result string) :=
  [ Formatter.alphanumeric (transaction_code this) 3;
    Formatter.money (amount this) 10;
    Ok (Moment.format_0YYDDDD (payment_date this));
    Formatter.numeric (transit this) 9;
    Formatter.alphanumeric (account_no this) 12;
    JS.repeat "0" 22;
    JS.repeat "0" 3;
    Formatter.alphanumeric (client_short_name this) 15;
    Formatter.alphanumeric (customer_name this) 30;
    Formatter.alphanumeric (client_long_name this) 30;
    Formatter.alphanumeric (client_no this) 10;
    Formatter.alphanumeric (customer_no this) 19;
    JS.repeat "0" 9;
    JS.repeat " " 12;
    Formatter.alphanumeric (client_sundry_no this) 15;
    JS.repeat " " 22;
    JS.repeat " " 2;
    JS.repeat " " 11 ].

Definition toString (this : t) : result string := JS.join (fields this).

End Segment.

Module ACHBasicPayment.

Record t : Set := mk {
  type : string;
  count : N;
  client_no : value;
  file_no : N;
  segments : list Segment.t
}.

(** [constructor(type, count, client_no, file_no)] *)
Definition new (type : string) (count : N) (client_no : value) (file_no : N) : t :=
  mk type count client_no file_no [].

(** [add_segment(s)] *)
Definition add_segment (this : t) (s : Segment.t) : t :=
  mk (type this) (count this) (client_no this) (file_no this) (segments this ++ [s]).

Definition fields (this : t) : list (result string) :=
  [ Formatter.alphanumeric (Str (type this)) 1;
    Formatter.numeric (Num (JS.of_N (count this))) 9;
    Formatter.alphanumeric (client_no this) 10;
    Formatter.alphanumeric (Num (JS.of_N (file_no this))) 4 ].

Definition toString (this : t) : result string :=
  envelope <- JS.join (fields this) ;;
  payload <- JS.join (map Segment.toString (segments this)) ;;
  Ok (envelope ++ payload).

End ACHBasicPayment.

Module ACHTrailer.

Record t : Set := mk {
  type : string;
  count : N;
  client_no : value;
  file_no : N;
  debit_amount : value;
  debit_count : N
}.

(** [constructor(count, client_no, file_no, debit_amount, debit_count)] *)
Definition new (count : N) (client_no : value) (file_no : N) (debit_amount : value)
    (debit_count : N) : t :=
  mk "Z" count client_no file_no debit_amount debit_count.

Definition fields (this : t) : list (result string) :=
  [ Formatter.alphanumeric (Str (type this)) 1;
    Formatter.numeric (Num (JS.of_N (count this))) 9;
    Formatter.alphanumeric (client_no this) 10;
    Formatter.alphanumeric (Num (JS.of_N (file_no this))) 4;
    Formatter.money (debit_amount this) 14;
    Formatter.numeric (Num (JS.of_N (debit_count this))) 8;
    JS.repeat "0" 4;
    JS.repeat "0" 8;
    JS.repeat "0" 1396 ].

Definition toString (this : t) : result string := JS.join (fields this).

End ACHTrailer.

(** ** [function writeACHFile(xlFile, outFile, mode)] *)

(** The worksheet [xl.readFile] returns, at its boundary: the content [c.v]
    of a cell is a number or a string. *)
Inductive raw : Set :=
| RawNum (x : float)
| RawStr (s : string).

Definition row : Set := list (option raw).
Definition worksheet : Set := list row.

(** The cell of column [col] (from 1) in one row: [null] when the cell is
    absent, the number, or the trimmed string. *)
Definition row_cell (cells : row) (col : nat) : value :=
  match nth_error cells (col - 1) with
  | Some (Some (RawNum x)) => Num x
  | Some (Some (RawStr s)) => Str (JS.trim s)
  | Some None | None => Null
  end.

(** [cell(row, col)], rows and columns counted from 1; for the columns the
    converter reads (1 to 7) [xl_row_col] yields the addresses ["A<row>"] to
    ["G<row>"]. *)
Definition cell (ws : worksheet) (r col : nat) : value :=
  row_cell (nth (r - 1) ws []) col.

(** The variables the [while] loop updates; [r] is the position in the
    list of rows. *)
Record state : Set := mkState {
  RECORD_COUNT : N;
  total_debit_amount : value;
  total_debit_records : N;
  payment_records : list ACHBasicPayment.t
}.

Section Loop.

(** The locals of [writeACHFile] the loop reads. *)
Variables (mode : string) (client_name client_no transaction_code : value).
Variable payment_moment : Moment.t.

(** One turn of [while (true)] on the row at [r]: [None] is [break],
    [Some st'] goes on with row [r + 1]. *)
Definition iteration (cells : row) (st : state) : result (option state) :=
  let b := ACHBasicPayment.new mode (RECORD_COUNT st) client_no (RECORD_COUNT st) in
  let customer_no := row_cell cells 1 in
  let customer_name := row_cell cells 2 in
  let bank := row_cell cells 3 in
  let branch := row_cell cells 4 in
  let account := row_cell cells 5 in
  let amount := row_cell cells 6 in
  let suspend := row_cell cells 7 in
  if JS.falsy customer_no then Ok None
  else if JS.eq_y suspend then Ok (Some st)
  else
    bank4 <- Formatter.numeric bank 4 ;;
    branch5 <- Formatter.numeric branch 5 ;;
    let b := ACHBasicPayment.add_segment b
               (Segment.mk transaction_code amount payment_moment
                  (Str (bank4 ++ branch5)) account (Str "") customer_name
                  client_name client_no customer_no (Str "")) in
    Ok (Some (mkState (RECORD_COUNT st + 1)
                (JS.add (total_debit_amount st) amount)
                (total_debit_records st + 1)
                (payment_records st ++ [b])))%N.

(** The loop from row [r] on, [rows] being the rows from [r] to the last
    one of the sheet.  Past the last row every cell is absent, so
    [customer_no] is [null] and the loop breaks. *)
Fixpoint loop (rows : list row) (st : state) : result state :=
  match rows with
  | [] => Ok st
  | cells :: rest =>
      next <- iteration cells st ;;
      match next with
      | None => Ok st
      | Some st' => loop rest st'
      end
  end.

End Loop.

(** The header is built before the loop, from the cells B2, B3 and B4 and
    the time of the run [moment()]. *)
Definition build_header (now : Moment.t) (ws : worksheet) : ACHHeader.t :=
  let RECORD_COUNT := 1%N in
  ACHHeader.new RECORD_COUNT (cell ws 2 2) RECORD_COUNT now (cell ws 3 2) (cell ws 4 2).

(** The first part of [writeACHFile], up to [new ACHTrailer(...)]: the three
    kinds of records in memory.  [payment_moment] is the moment
    [moment(cell(5, 2), "YYYY/MM/DD")] and [now] the moment [moment()]. *)
Definition assemble (now payment_moment : Moment.t) (ws : worksheet) (mode : string)
  : result (ACHHeader.t * list ACHBasicPayment.t * ACHTrailer.t) :=
  let client_name := cell ws 1 2 in
  let client_no := cell ws 2 2 in
  let transaction_code := cell ws 6 2 in
  let header := build_header now ws in
  st <- loop mode client_name client_no transaction_code payment_moment
          (skipn 7 ws) (mkState 2 (Num 0) 0 []) ;;
  let t := ACHTrailer.new (RECORD_COUNT st) client_no (RECORD_COUNT st)
             (total_debit_amount st) (total_debit_records st) in
  Ok (header, payment_records st, t).

(** What a run leaves: the strings given to [fs.writeSync], in order, and
    the exception that ended the run, if any.  The calls of [fs]
    ([openSync], [writeSync], [closeSync]) are taken to succeed: the
    exceptions of a run are those of the converter's own code, and nothing
    is stated about a run in which the file system raises one. *)
Record run : Set := mkRun {
  written : list string;
  thrown : option exn
}.

(** The separator ["\n\n"]. *)
Definition newlines : string := String "010" (String "010" "").

(** [for (let rec of payment_records) { writeSync(rec.toString()); writeSync("\n\n") }] *)
Fixpoint write_records (recs : list ACHBasicPayment.t) (fd : list string) : run :=
  match recs with
  | [] => mkRun fd None
  | rec :: rest =>
      match ACHBasicPayment.toString rec with
      | Throw e => mkRun fd (Some e)
      | Ok s => write_records rest (fd ++ [s; newlines])
      end
  end.

Definition writeACHFile (now payment_moment : Moment.t) (ws : worksheet) (mode : string)
  : run :=
  match assemble now payment_moment ws mode with
  | Throw e => mkRun [] (Some e)
  | Ok (header, payment_records, t) =>
      match ACHHeader.toString header with
      | Throw e => mkRun [] (Some e)
      | Ok h =>
          let out := write_records payment_records [h; newlines] in
          match thrown out with
          | Some e => out
          | None =>
              match ACHTrailer.toString t with
              | Throw e => mkRun (written out) (Some e)
              | Ok z => mkRun (written out ++ [z]) None
              end
          end
      end
  end.

(** ** Vocabulary of the specification *)

Fixpoint takeWhile {A : Type} (p : A -> bool) (l : list A) : list A :=
  match l with
  | [] => []
  | x :: l' => if p x then x :: takeWhile p l' else []
  end.

(** A row signals the end of the data when its customer number (column 1)
    is falsy; it is suspended when its flag (column 7) is ["y"]. *)
Definition end_of_data (cells : row) : bool := JS.falsy (row_cell cells 1).
Definition suspended (cells : row) : bool := JS.eq_y (row_cell cells 7).

(** The rows before the first end-of-data row, and among them the accepted
    ones: those that are not suspended. *)
Definition consumed (rows : list row) : list row :=
  takeWhile (fun cells => negb (end_of_data cells)) rows.
Definition accepted (rows : list row) : list row :=
  filter (fun cells => negb (suspended cells)) (consumed rows).

(** The rows of data of a worksheet: from row 8 on. *)
Definition data_rows (ws : worksheet) : list row := skipn 7 ws.

(** [len] consecutive integers from [start]. *)
Definition Nseq (start : N) (len : nat) : list N :=
  map (fun i => start + N.of_nat i)%N (seq 0 len).

(** The sequence numbers of the records of a file, in the order in which
    they are written. *)
Definition sequence_numbers
    (file : ACHHeader.t * list ACHBasicPayment.t * ACHTrailer.t) : list N :=
  let '(header, recs, t) := file in
  (ACHHeader.count header :: map ACHBasicPayment.count recs ++ [ACHTrailer.count t])%list.

(** A finite number is [mantissa * 2^exponent], exactly (0 for a number
    that is not finite). *)
Definition mantissa (x : float) : Z :=
  match Prim2SF x with
  | S754_finite sign m _ => if sign then Zneg m else Zpos m
  | _ => 0
  end.
Definition exponent (x : float) : Z :=
  match Prim2SF x with
  | S754_finite _ _ e => e
  | _ => 0
  end.

(** The exact sum of the numbers [xs], in cents, rounded as [toFixed(2)]
    rounds (to the nearest cent, upwards on a tie).  With [emin] the least
    exponent (at most 0), the sum is [units * 2^emin] for the integer
    [units], and the result [floor ((200 * units + 2^-emin) / 2^(1-emin))]. *)
Definition exact_cents (xs : list float) : Z :=
  let emin := fold_right Z.min 0 (map exponent xs) in
  let units := fold_right Z.add 0
                 (map (fun x => Z.shiftl (mantissa x) (exponent x - emin)) xs) in
  Z.shiftr (200 * units + Z.shiftl 1 (- emin)) (1 - emin).

(** The amounts (column 6) that are numbers, among some rows. *)
Definition number_amounts (rows : list row) : list float :=
  flat_map (fun cells => match row_cell cells 6 with Num x => [x] | _ => [] end) rows.

(** The Detail record [b] is the one built from the row [cells]: the type
    is the mode, and the record carries one segment, with the payment
    moment of the file and the cells of the row. *)
Definition detail_of (mode : string) (payment_moment : Moment.t) (cells : row)
    (b : ACHBasicPayment.t) : Prop :=
  ACHBasicPayment.type b = mode /\
  exists seg,
    ACHBasicPayment.segments b = [seg] /\
    Segment.payment_date seg = payment_moment /\
    Segment.customer_no seg = row_cell cells 1 /\
    Segment.customer_name seg = row_cell cells 2 /\
    Segment.account_no seg = row_cell cells 5 /\
    Segment.amount seg = row_cell cells 6 /\
    exists bank4 branch5,
      Formatter.numeric (row_cell cells 3) 4 = Ok bank4 /\
      Formatter.numeric (row_cell cells 4) 5 = Ok branch5 /\
      Segment.transit seg = Str (bank4 ++ branch5).

(** Every field rendered for a file: those of the header, of each Detail
    record and of its segments, and of the trailer. *)
Definition all_fields (file : ACHHeader.t * list ACHBasicPayment.t * ACHTrailer.t)
  : list (result string) :=
  let '(header, recs, t) := file in
  (ACHHeader.fields header
   ++ flat_map (fun b => ACHBasicPayment.fields b
                         ++ flat_map Segment.fields (ACHBasicPayment.segments b)) recs
   ++ ACHTrailer.fields t)%list.

(** ** Sample worksheets *)

Module Sample.

Definition S (s : string) : option raw := Some (RawStr s).
Definition F (x : float) : option raw := Some (RawNum x).

(** Rows 1 to 7: the six cells of metadata in column B and the titles of
    the columns. *)
Definition top : list row :=
  [ [S "Client Name"; S "ACME LTD"];
    [S "Client Number"; F 1234567890];
    [S "Processing Centre"; F 320];
    [S "Currency"; S "CAD"];
    [S "Payment Date"; S "2021/02/14"];
    [S "Transaction Code"; F 430];
    [S "Customer Number"; S "Customer Name"; S "Bank"; S "Branch"; S "Account";
     S "Amount"; S "Suspend"] ].

(** The moment [moment("2021/02/14", "YYYY/MM/DD")] and a time of run. *)
Definition payment_moment : Moment.t := Moment.mk 2021 2 14.
Definition now : Moment.t := Moment.mk 2024 3 9.
Definition later : Moment.t := Moment.mk 2025 1 1.

Definition alice : row :=
  [F 1001; S "ALICE"; F 3; F 12345; S "5551234"; F 100].
Definition bob_suspended : row :=
  [F 1002; S "BOB"; F 3; F 12345; S "7771234"; F 50.25; S "y"].
Definition carol : row :=
  [F 1003; S "CAROL"; F 10; F 612; F 9081726; F 75.5].
Definition no_customer : row :=
  [None; None; None; None; None; F 0].
Definition empty_customer : row :=
  [S ""; None; None; None; None; F 0].
Definition blank_customer : row :=
  [S "  "; S "DAVE"; F 3; F 12345; S "5551234"; F 20].
Definition zero_customer : row :=
  [F 0; S "ERIN"; F 3; F 12345; S "5551234"; F 10].
Definition no_customer_suspended : row :=
  [None; S "FRANK"; F 3; F 12345; S "5551234"; F 30; S "y"].
Definition large : row :=
  [F 2001; S "GRACE"; S "003"; S "12345"; S "5551234"; F 99999999.99].

(** The scenario of the specification: an accepted row (customer 1001,
    100.00), a suspended row (customer 1002, 50.25, flag ["y"]), a row with
    an empty customer number. *)
Definition scenario : worksheet := (top ++ [alice; bob_suspended; empty_customer])%list.

(** 3000 payments of 99,999,999.99 each. *)
Definition many_large : worksheet := (top ++ List.repeat large 3000)%list.

(** A suspended row without customer number, before a row that would be
    accepted. *)
Definition suspended_end : worksheet := (top ++ [no_customer_suspended; alice])%list.
Definition only_alice : worksheet := (top ++ [alice])%list.

(** The records of the scenario in mode ["D"], and its Detail record in
    mode ["PAD"]. *)
Definition file_D : ACHHeader.t * list ACHBasicPayment.t * ACHTrailer.t :=
  match assemble now payment_moment scenario "D" with
  | Ok file => file
  | Throw _ => (build_header now scenario, [], ACHTrailer.new 0 Null 0 Null 0)
  end.
Definition header_D : ACHHeader.t := fst (fst file_D).
Definition records_D : list ACHBasicPayment.t := snd (fst file_D).
Definition trailer_D : ACHTrailer.t := snd file_D.
Definition alice_D : ACHBasicPayment.t :=
  nth 0 records_D (ACHBasicPayment.new "D" 0 Null 0).
Definition alice_PAD : ACHBasicPayment.t :=
  match assemble now payment_moment scenario "PAD" with
  | Ok (_, b :: _, _) => b
  | _ => ACHBasicPayment.new "PAD" 0 Null 0
  end.

End Sample.

(** ** [xl_row_col]: the address of a cell

    The worksheet of [xl.readFile] is an object keyed by the address of
    each cell (["A1"], ["B2"], ...); [cell] reads [worksheet[xl_row_col(row,
    col)]]. *)

Definition cols : list string :=
  [ "A"; "B"; "C"; "D"; "E"; "F"; "G"; "H"; "I"; "J"; "K"; "L"; "M";
    "N"; "O"; "P"; "Q"; "R"; "S"; "T"; "U"; "V"; "W"; "X"; "Y"; "Z" ]%list.

(** [cols[i] + addr]: an index that is not one of 0..25 reads [undefined],
    which [+] writes as ["undefined"]. *)
Definition cols_at (i : Z) : string :=
  if (0 <=? i) && (i <? 26) then nth (Z.to_nat i) cols "undefined" else "undefined".

(** The [while (true)] loop of [xl_row_col], [fuel] turns at most:
    [addr = cols[col % 27] + addr; col = Math.floor(col / 26);
    if (col == 0) break].  [None]: the loop has not ended within [fuel]
    turns.  ([%] takes the sign of the dividend: [Z.rem].)

    The definition stands for the columns from 1 on ([col - 1 >= 0] on
    entry), where the loop ends within [col] turns with a short string.
    For a column of 0 or less the column stays negative, the string grows
    at every turn, and the engine ends the loop with a [RangeError] once
    the string passes its greatest length; that limit belongs to the
    engine and this exit is left out, so nothing is stated for these
    columns. *)
Fixpoint xl_letters (fuel : nat) (col : Z) (addr : string) : option string :=
  match fuel with
  | O => None
  | S fuel' =>
      let addr := cols_at (Z.rem col 27) ++ addr in
      let col := col / 26 in
      if col =? 0 then Some addr else xl_letters fuel' col addr
  end.

(** [xl_row_col(row, col)]; the row is an integer counter, which
    [row.toFixed(0)] writes in decimal. *)
Definition xl_row_col (fuel : nat) (row : N) (col : Z) : option string :=
  match xl_letters fuel (col - 1) "" with
  | Some addr => Some (addr ++ JS.digits (Z.of_N row))
  | None => None
  end.

(** [cell(row, col)] on the worksheet as an object: [None] when
    [xl_row_col] has not returned. *)
Definition cell_at (fuel : nat) (sheet : string -> option raw) (row : N) (col : Z)
  : option value :=
  match xl_row_col fuel row col with
  | None => None
  | Some addr =>
      Some match sheet addr with
           | None => Null
           | Some (RawNum x) => Num x
           | Some (RawStr s) => Str (JS.trim s)
           end
  end.

(** The address of the cell in row [r] and column [c] of a sheet, for the
    columns A to Z: the letter of the column, then the row in decimal. *)
Definition address (r c : nat) : string :=
  (nth (c - 1) cols "" ++ JS.digits (Z.of_nat r))%string.

(** The object that holds the cells of a grid (of at most 26 columns)
    under their addresses. *)
Definition sheet_of (ws : worksheet) (addr : string) : option raw :=
  match find (fun rc => String.eqb (address (fst rc) (snd rc)) addr)
          (list_prod (seq 1 (List.length ws)) (seq 1 26)) with
  | Some (r, c) =>
      match nth_error (nth (r - 1) ws []%list) (c - 1) with
      | Some (Some v) => Some v
      | _ => None
      end
  | None => None
  end.

(** ** The Electron window ([src/electron/app.js]): the Convert button *)

Module ElectronApp.

(** [xl_basename.split(".")[0]]: the part before the first dot. *)
Fixpoint removed_extension (xl_basename : string) : string :=
  match xl_basename with
  | EmptyString => EmptyString
  | String c rest =>
      if Ascii.eqb c "."%char then EmptyString else String c (removed_extension rest)
  end.

(** The name of the output file inside the output directory:
    [xl_file_removed_extension + ".txt"]. *)
Definition out_name (xl_basename : string) : string :=
  (removed_extension xl_basename ++ ".txt")%string.

(** The name holds a dot. *)
Fixpoint has_dot (s : string) : bool :=
  match s with
  | EmptyString => false
  | String c rest => Ascii.eqb c "."%char || has_dot rest
  end.

(** One selected input file: its base name, and what the run reads of it
    (the worksheet, the payment moment, the time of the run). *)
Record input : Set := mkInput {
  xl_basename : string;
  sheet : worksheet;
  payment : Moment.t;
  time : Moment.t
}.

(** The files of the output directory, the latest written first: a name
    and the strings written into the file. *)
Definition directory : Set := list (string * list string).

Definition lookup (name : string) (dir : directory) : option (list string) :=
  match find (fun f => String.eqb (fst f) name) dir with
  | Some f => Some (snd f)
  | None => None
  end.

(** [for (let fpath of input_file_path) { ... writeACHFile(fpath, outPath,
    export_type) ... }]: [path.join] throws a [TypeError] when no output
    directory was chosen ([out_file_path[0]] is [undefined]);
    [writeACHFile] opens the output file (replacing a file of that name)
    once the records are assembled, and an exception ends the handler. *)
Fixpoint convert_files (out_file_path : list string) (export_type : string)
    (input_file_path : list input) (dir : directory) : directory * option exn :=
  match input_file_path with
  | []%list => (dir, None)
  | f :: rest =>
      match out_file_path with
      | []%list => (dir, Some TypeError)
      | _ :: _ =>
          match assemble (time f) (payment f) (sheet f) export_type with
          | Throw e => (dir, Some e)
          | Ok _ =>
              let r := writeACHFile (time f) (payment f) (sheet f) export_type in
              let dir := ((out_name (xl_basename f), written r) :: dir)%list in
              match thrown r with
              | Some e => (dir, Some e)
              | None => convert_files out_file_path export_type rest dir
              end
          end
      end
  end.

End ElectronApp.

(** ** The Tauri window ([src/tauri/src/App.tsx]) *)

Module TauriApp.

(** [removeDuplicates(L)]: [unique.indexOf(s) == -1] is the absence of [s]
    from [unique]. *)
Definition removeDuplicates (L : list string) : list string :=
  fold_left
    (fun unique s => if existsb (String.eqb s) unique then unique else (unique ++ [s])%list)
    L []%list.

(** [onInputSelect]: the dialog returns the selected paths, or [null] when
    it is dismissed, and spreading [null] is a [TypeError]; the result is
    the new [inputFiles]. *)
Definition onInputSelect (inputFiles : list string) (selected : option (list string))
  : result (list string) :=
  match selected with
  | None => Throw TypeError
  | Some selected => Ok (removeDuplicates (inputFiles ++ selected)%list)
  end.

(** [onRemoveInputFile(file)] *)
Definition onRemoveInputFile (inputFiles : list string) (file : string) : list string :=
  filter (fun v => negb (String.eqb v file)) inputFiles.

(** The state [inputFiles] through the clicks of a session: a selection
    (the answer of the file dialog) or the removal of a listed file.  A
    handler that throws sets no state. *)
Inductive event : Set :=
| Select (selected : option (list string))
| Remove (file : string).

Definition handle (inputFiles : list string) (e : event) : list string :=
  match e with
  | Select selected =>
      match onInputSelect inputFiles selected with
      | Ok files => files
      | Throw _ => inputFiles
      end
  | Remove file => onRemoveInputFile inputFiles file
  end.

(** [useState([])], then the events in order. *)
Definition inputFiles_after (events : list event) : list string :=
  fold_left handle events []%list.

(** The arguments of the backend command [convert]. *)
Record invocation : Set := mkInvocation {
  filename : list string;
  recordType : string;
  outputDirectory : string
}.

(** What [onConvert] does before the backend answers: the response it
    sets itself, if any (the last one set), and how it ends: with an
    exception, by returning ([None]), or by invoking the backend. *)
Record handled (R : Set) : Set := mkHandled {
  response : option R;
  ended : result (option invocation)
}.
Arguments mkHandled {R} response ended.
Arguments response {R} h.
Arguments ended {R} h.

(** [onConvert] (first version of the file); [outputDir] is [null] after
    the directory dialog was dismissed, and [null.trim()] is a [TypeError]. *)
Definition onConvert (inputFiles : list string) (recordType : string)
    (outputDir : option string) : handled (list string) :=
  let errorMessages :=
    if (List.length inputFiles =? 0)%nat then ["Must select at least 1 input file."]%list
    else []%list in
  match outputDir with
  | None => mkHandled None (Throw TypeError)
  | Some dir =>
      let errorMessages :=
        if JS.length (JS.trim dir) =? 0
        then (errorMessages ++ ["Must select an output directory."])%list
        else errorMessages in
      if (0 <? List.length errorMessages)%nat then mkHandled (Some errorMessages) (Ok None)
      else mkHandled None (Ok (Some (mkInvocation inputFiles recordType dir)))
  end.

(** [onConvert] (second version of the file): the response is one string,
    and only a missing input file counts as an error. *)
Definition onConvert_v2 (inputFiles : list string) (recordType : string)
    (outputDir : option string) : handled string :=
  let no_input := (List.length inputFiles =? 0)%nat in
  let response := if no_input
                  then Some ("Must select at least 1 input file." ++ String "010" "")
                  else None in
  let errorCount := if no_input then 1%nat else 0%nat in
  match outputDir with
  | None => mkHandled response (Throw TypeError)
  | Some dir =>
      let response :=
        if JS.length (JS.trim dir) =? 0
        then Some ("Must select an output directory." ++ String "010" "")
        else response in
      if (0 <? errorCount)%nat then mkHandled response (Ok None)
      else mkHandled response (Ok (Some (mkInvocation inputFiles recordType dir)))
  end.

End TauriApp.

(** Input files of a batch: two sheets whose names differ after the first
    dot, and a sheet without row of data. *)
Module Batch.

Definition pay_2021 : ElectronApp.input :=
  ElectronApp.mkInput "pay.2021.xlsx" Sample.only_alice Sample.payment_moment Sample.now.
Definition pay_2022 : ElectronApp.input :=
  ElectronApp.mkInput "pay.2022.xlsx" Sample.scenario Sample.payment_moment Sample.now.
Definition nothing : ElectronApp.input :=
  ElectronApp.mkInput "nothing.xlsx" Sample.top Sample.payment_moment Sample.now.

End Batch.

(** A sheet whose second row of data has a text for amount, between two
    rows that are in order. *)
Definition text_amount_sheet : worksheet :=
  (Sample.top
   ++ [ Sample.alice;
        [Sample.F 1002; Sample.S "BOB"; Sample.F 3; Sample.F 12345; Sample.S "7771234";
         Sample.S "fifty"];
        Sample.carol ])%list.

(** A value fits a field of [n] characters: it has a string form, of at
    most [n] characters. *)
Definition fits (v : value) (n : Z) : Prop :=
  exists w, JS.toString v = Ok w /\ JS.length w <= n.

(** The Detail record the loop builds for the accepted row [cells], with
    the counter at [count] and the bank and branch numbers formatted as
    [bank4] and [branch5]. *)
Definition detail_record (mode : string) (client_name client_no transaction_code : value)
    (payment_moment : Moment.t) (count : N) (cells : row) (bank4 branch5 : string)
  : ACHBasicPayment.t :=
  ACHBasicPayment.add_segment
    (ACHBasicPayment.new mode count client_no count)
    (Segment.mk transaction_code (row_cell cells 6) payment_moment
       (Str (bank4 ++ branch5)) (row_cell cells 5) (Str "") (row_cell cells 2)
       client_name client_no (row_cell cells 1) (Str "")).

(** The characters written into the output file: the strings given to
    [fs.writeSync], one after the other. *)
Definition file_text (r : run) : string := String.concat "" (written r).

(** The first and the last character of a string, and the strings of
    white space only. *)
Definition first_char (s : string) : option ascii :=
  match s with
  | String c _ => Some c
  | EmptyString => None
  end.

Fixpoint last_char (s : string) : option ascii :=
  match s with
  | EmptyString => None
  | String c EmptyString => Some c
  | String _ rest => last_char rest
  end.

Fixpoint all_space (s : string) : bool :=
  match s with
  | EmptyString => true
  | String c rest => JS.is_space c && all_space rest
  end.

(** No white space at this end of the string. *)
Definition not_space (c : option ascii) : Prop :=
  match c with
  | Some c => JS.is_space c = false
  | None => True
  end.

(** * Properties *)

(** ** Strings and exceptions *)

Lemma length_app (a b : string) :
  String.length (a ++ b) = (String.length a + String.length b)%nat.
Proof.
  induction a as [|c a IH]; simpl; [reflexivity | now rewrite IH].
Qed.

Lemma length_replicate1 (c : ascii) (n : nat) :
  String.length (JS.replicate (String c "") n) = n.
Proof.
  induction n as [|n IH]; simpl; [reflexivity | now rewrite IH].
Qed.

Lemma JS_length_app (a b : string) : JS.length (a ++ b) = JS.length a + JS.length b.
Proof. unfold JS.length. rewrite length_app. lia. Qed.

Lemma JS_length_nonneg (a : string) : 0 <= JS.length a.
Proof. unfold JS.length. lia. Qed.

(** [repeat] returns exactly when the count is not negative, and then a
    string of [count] characters (for a pattern of one character). *)
Lemma repeat_ok (c : ascii) (count : Z) (p : string) :
  JS.repeat (String c "") count = Ok p -> 0 <= count /\ JS.length p = count.
Proof.
  unfold JS.repeat. destruct (count <? 0) eqn:E; [discriminate|].
  intros H. injection H as <-. apply Z.ltb_ge in E.
  unfold JS.length. rewrite length_replicate1. lia.
Qed.

Lemma repeat_negative (s : string) (count : Z) :
  count < 0 -> JS.repeat s count = Throw RangeError.
Proof. intros H. unfold JS.repeat. apply Z.ltb_lt in H. now rewrite H. Qed.

Lemma repeat_width (c : ascii) (n : nat) (p : string) :
  JS.repeat (String c "") (Z.of_nat n) = Ok p -> JS.length p = Z.of_nat n.
Proof. intros H. now apply repeat_ok in H. Qed.

(** ** [Formatter]: a returned field has the width asked for, and a value
    longer than the width makes the field throw *)

Lemma alphanumeric_width (v : value) (n : Z) (s : string) :
  Formatter.alphanumeric v n = Ok s -> JS.length s = n.
Proof.
  unfold Formatter.alphanumeric, JS.bind.
  destruct (JS.toString v) as [w|e]; [|discriminate].
  destruct (JS.repeat " " (n - JS.length w)) as [pad|e] eqn:E; [|discriminate].
  intros H. injection H as <-. apply repeat_ok in E.
  rewrite JS_length_app. lia.
Qed.

Lemma alphanumeric_overflow (v : value) (n : Z) (w : string) :
  JS.toString v = Ok w -> n < JS.length w ->
  Formatter.alphanumeric v n = Throw RangeError.
Proof.
  intros Hw Hlt. unfold Formatter.alphanumeric, JS.bind. rewrite Hw.
  rewrite repeat_negative by lia. reflexivity.
Qed.

Lemma numeric_width (v : value) (n : Z) (s : string) :
  Formatter.numeric v n = Ok s -> JS.length s = n.
Proof.
  unfold Formatter.numeric, JS.bind.
  destruct (JS.toString v) as [w|e]; [|discriminate].
  destruct (JS.repeat "0" (n - JS.length w)) as [pad|e] eqn:E; [|discriminate].
  intros H. injection H as <-. apply repeat_ok in E.
  rewrite JS_length_app. lia.
Qed.

Lemma numeric_overflow (v : value) (n : Z) (w : string) :
  JS.toString v = Ok w -> n < JS.length w ->
  Formatter.numeric v n = Throw RangeError.
Proof.
  intros Hw Hlt. unfold Formatter.numeric, JS.bind. rewrite Hw.
  rewrite repeat_negative by lia. reflexivity.
Qed.

Lemma money_width (v : value) (n : Z) (s : string) :
  Formatter.money v n = Ok s -> JS.length s = n.
Proof.
  unfold Formatter.money, JS.bind.
  destruct (JS.toFixed2 v) as [w|e]; [|discriminate].
  destruct (JS.repeat "0" (n - JS.length (JS.remove_first_dot w))) as [pad|e] eqn:E;
    [|discriminate].
  intros H. injection H as <-. apply repeat_ok in E.
  rewrite JS_length_app. lia.
Qed.

Lemma money_overflow (v : value) (n : Z) (w : string) :
  JS.toFixed2 v = Ok w -> n < JS.length (JS.remove_first_dot w) ->
  Formatter.money v n = Throw RangeError.
Proof.
  intros Hw Hlt. unfold Formatter.money, JS.bind. rewrite Hw.
  rewrite repeat_negative by lia. reflexivity.
Qed.

(** ** [join]: the fields of a record *)

(** When every field, if it returns, has its declared width, the record, if
    it returns, has the sum of the widths. *)
Lemma join_widths (fields : list (result string)) (widths : list Z) (s : string) :
  Forall2 (fun f w => forall x, f = Ok x -> JS.length x = w) fields widths ->
  JS.join fields = Ok s ->
  JS.length s = fold_right Z.add 0 widths.
Proof.
  intros HF. revert s. induction HF as [|f w fields widths Hf HF IH]; intros s.
  - simpl. intros H. injection H as <-. reflexivity.
  - simpl. destruct f as [x|e]; [|discriminate].
    destruct (JS.join fields) as [t|e]; [|discriminate].
    intros H. injection H as <-.
    rewrite JS_length_app, (Hf x eq_refl), (IH t eq_refl). reflexivity.
Qed.

(** A field that throws makes the record throw; a record that returns had
    all its fields return. *)
Lemma join_throws (fields : list (result string)) (e : exn) :
  In (Throw e) fields -> exists e', JS.join fields = Throw e'.
Proof.
  induction fields as [|f fields IH]; simpl; [intros []|].
  intros [->|Hin]; [now exists e|].
  destruct f as [x|e0]; [|now exists e0].
  destruct (IH Hin) as [e' ->]. now exists e'.
Qed.

Lemma join_ok_fields (fields : list (result string)) (s : string) :
  JS.join fields = Ok s -> forall f, In f fields -> JS.is_ok f = true.
Proof.
  intros H f Hin. destruct f as [x|e]; [reflexivity|].
  destruct (join_throws fields e Hin) as [e' He']. congruence.
Qed.

(** ** [moment]: the width of a formatted date *)

(** The numbers below 1000 have at most 3 digits, those below 100 at most
    2 (checked on each of them). *)
Lemma digits_below_1000 :
  forallb (fun i => (String.length (JS.digits (Z.of_nat i)) <=? 3)%nat
                    && ((100 <=? i) || (String.length (JS.digits (Z.of_nat i)) <=? 2))%nat)
    (seq 0 1000) = true.
Proof. vm_compute. reflexivity. Qed.

Lemma digits_3 (n : N) :
  (n < 1000)%N -> (String.length (JS.digits (Z.of_N n)) <= 3)%nat.
Proof.
  intros H. pose proof digits_below_1000 as D. rewrite forallb_forall in D.
  specialize (D (N.to_nat n)). rewrite in_seq in D.
  assert (Hn : Z.of_nat (N.to_nat n) = Z.of_N n) by lia. rewrite Hn in D.
  assert (D' : (0 <= N.to_nat n < 0 + 1000)%nat) by lia.
  apply D in D'. apply andb_prop in D' as [D' _]. now apply Nat.leb_le in D'.
Qed.

Lemma digits_2 (n : N) :
  (n < 100)%N -> (String.length (JS.digits (Z.of_N n)) <= 2)%nat.
Proof.
  intros H. pose proof digits_below_1000 as D. rewrite forallb_forall in D.
  specialize (D (N.to_nat n)). rewrite in_seq in D.
  assert (Hn : Z.of_nat (N.to_nat n) = Z.of_N n) by lia. rewrite Hn in D.
  assert (D' : (0 <= N.to_nat n < 0 + 1000)%nat) by lia.
  apply D in D'. apply andb_prop in D' as [_ D'].
  apply orb_prop in D' as [D'|D']; [apply Nat.leb_le in D'; lia | now apply Nat.leb_le in D'].
Qed.

Lemma zeroFill_length (n : N) (target : nat) :
  (String.length (JS.digits (Z.of_N n)) <= target)%nat ->
  String.length (Moment.zeroFill n target) = target.
Proof.
  intros H. unfold Moment.zeroFill. rewrite length_app, length_replicate1. lia.
Qed.

(** The day of the year of a date of the calendar lies between 1 and 366. *)
Lemma dayOfYear_bounds (m : Moment.t) :
  Moment.isValid m = true -> (1 <= Moment.dayOfYear m <= 366)%N.
Proof.
  destruct m as [y mo d]. unfold Moment.isValid, Moment.dayOfYear.
  cbn [Moment.year Moment.month Moment.date].
  intros H. repeat (apply andb_prop in H as [H ?]).
  repeat match goal with
         | E : (_ <=? _)%N = true |- _ => apply N.leb_le in E
         end.
  assert (Hm : (mo = 1 \/ mo = 2 \/ mo = 3 \/ mo = 4 \/ mo = 5 \/ mo = 6 \/ mo = 7
                \/ mo = 8 \/ mo = 9 \/ mo = 10 \/ mo = 11 \/ mo = 12)%N) by lia.
  unfold Moment.daysBefore, Moment.daysInMonth in *.
  destruct (Moment.isLeapYear y);
    repeat (destruct Hm as [Hm | Hm]); subst mo;
    match goal with
    | |- context [fold_right ?f ?z ?l] =>
        let days := eval vm_compute in (fold_right f z l) in
        change (fold_right f z l) with days
    end;
    match goal with
    | E : (d <= ?n)%N |- _ =>
        let n' := eval vm_compute in n in change n with n' in E
    end;
    lia.
Qed.

Lemma format_valid (m : Moment.t) :
  Moment.isValid m = true ->
  Moment.format_0YYDDDD m
  = "0" ++ Moment.zeroFill (Moment.year m mod 100) 2 ++ Moment.zeroFill (Moment.dayOfYear m) 3.
Proof. intros H. unfold Moment.format_0YYDDDD. now rewrite H. Qed.

Lemma format_length (m : Moment.t) :
  Moment.isValid m = true -> String.length (Moment.format_0YYDDDD m) = 6%nat.
Proof.
  intros H. rewrite (format_valid m H). pose proof (dayOfYear_bounds m H) as B.
  simpl. rewrite length_app.
  rewrite !zeroFill_length; [reflexivity | apply digits_3; lia | apply digits_2].
  apply N.mod_lt. lia.
Qed.

(** ** The width of a rendered record *)

Ltac field_width :=
  let x := fresh "x" in
  let Hx := fresh "Hx" in
  intros x Hx;
  first
    [ eapply alphanumeric_width; exact Hx
    | eapply numeric_width; exact Hx
    | eapply money_width; exact Hx
    | apply repeat_ok in Hx; destruct Hx as [_ Hx]; exact Hx ].

Lemma header_width (h : ACHHeader.t) (s : string) :
  ACHHeader.toString h = Ok s -> JS.length s = 52.
Proof.
  intros H. change 52 with (fold_right Z.add 0 [1; 9; 10; 4; 5; 20; 3]).
  eapply join_widths; [|exact H].
  unfold ACHHeader.fields. repeat constructor; field_width.
Qed.

Lemma trailer_width (t : ACHTrailer.t) (s : string) :
  ACHTrailer.toString t = Ok s -> JS.length s = 1454.
Proof.
  intros H. change 1454 with (fold_right Z.add 0 [1; 9; 10; 4; 14; 8; 4; 8; 1396]).
  eapply join_widths; [|exact H].
  unfold ACHTrailer.fields. repeat constructor; field_width.
Qed.

(** A segment: 240 characters, of which 6 for a date of the calendar. *)
Lemma segment_width (seg : Segment.t) (s : string) :
  Moment.isValid (Segment.payment_date seg) = true ->
  Segment.toString seg = Ok s -> JS.length s = 240.
Proof.
  intros V H.
  change 240 with
    (fold_right Z.add 0 [3; 10; 6; 9; 12; 22; 3; 15; 30; 30; 10; 19; 9; 12; 15; 22; 2; 11]).
  eapply join_widths; [|exact H].
  unfold Segment.fields. repeat constructor; try field_width.
  intros x Hx. injection Hx as <-. unfold JS.length. now rewrite format_length.
Qed.

Lemma segments_width (segs : list Segment.t) (s : string) :
  Forall (fun seg => Moment.isValid (Segment.payment_date seg) = true) segs ->
  JS.join (map Segment.toString segs) = Ok s ->
  JS.length s = 240 * Z.of_nat (List.length segs).
Proof.
  intros V. revert s. induction V as [|seg segs Hv V IH]; intros s; simpl.
  - intros H. injection H as <-. reflexivity.
  - destruct (Segment.toString seg) as [x|e] eqn:Ex; [|discriminate].
    destruct (JS.join (map Segment.toString segs)) as [t|e]; [|discriminate].
    intros H. injection H as <-.
    rewrite JS_length_app, (segment_width seg x Hv Ex), (IH t eq_refl). lia.
Qed.

Lemma envelope_width (b : ACHBasicPayment.t) (s : string) :
  JS.join (ACHBasicPayment.fields b) = Ok s -> JS.length s = 24.
Proof.
  intros H. change 24 with (fold_right Z.add 0 [1; 9; 10; 4]).
  eapply join_widths; [|exact H].
  unfold ACHBasicPayment.fields. repeat constructor; field_width.
Qed.

Lemma payment_width (b : ACHBasicPayment.t) (s : string) :
  Forall (fun seg => Moment.isValid (Segment.payment_date seg) = true)
    (ACHBasicPayment.segments b) ->
  ACHBasicPayment.toString b = Ok s ->
  JS.length s = 24 + 240 * Z.of_nat (List.length (ACHBasicPayment.segments b)).
Proof.
  intros V. unfold ACHBasicPayment.toString, JS.bind.
  destruct (JS.join (ACHBasicPayment.fields b)) as [env|e] eqn:Eenv; [|discriminate].
  destruct (JS.join (map Segment.toString (ACHBasicPayment.segments b))) as [pay|e] eqn:Epay;
    [|discriminate].
  intros H. injection H as <-.
  rewrite JS_length_app, (envelope_width b env Eenv), (segments_width _ pay V Epay).
  reflexivity.
Qed.

(** The type field takes one character: a longer [type] makes the record
    throw. *)
Lemma payment_type_fits (b : ACHBasicPayment.t) (s : string) :
  ACHBasicPayment.toString b = Ok s -> (String.length (ACHBasicPayment.type b) <= 1)%nat.
Proof.
  unfold ACHBasicPayment.toString, JS.bind, ACHBasicPayment.fields. simpl JS.join.
  destruct (Formatter.alphanumeric (Str (ACHBasicPayment.type b)) 1) as [x|e] eqn:E;
    [|discriminate].
  intros _. unfold Formatter.alphanumeric, JS.bind in E. cbn [JS.toString] in E.
  destruct (JS.repeat " " (1 - JS.length (ACHBasicPayment.type b))) as [p|e] eqn:Ep;
    [|discriminate].
  apply repeat_ok in Ep. unfold JS.length in Ep. lia.
Qed.

(** ** The loop over the rows *)

Section LoopFacts.

Variables (mode : string) (client_name client_no transaction_code : value).
Variable payment_moment : Moment.t.

Local Abbreviation iteration :=
  (iteration mode client_name client_no transaction_code payment_moment).
Local Abbreviation loop := (loop mode client_name client_no transaction_code payment_moment).

Lemma iteration_end_of_data (cells : row) (st : state) :
  end_of_data cells = true -> iteration cells st = Ok None.
Proof.
  unfold end_of_data, iteration. now intros ->.
Qed.

Lemma iteration_suspended (cells : row) (st : state) :
  end_of_data cells = false -> suspended cells = true ->
  iteration cells st = Ok (Some st).
Proof.
  unfold end_of_data, suspended, iteration. now intros -> ->.
Qed.

(** An accepted row either throws (its bank or branch number does not
    format) or adds one record, numbered by the counter, and moves the
    counter and the totals. *)
Lemma iteration_accepted (cells : row) (st : state) (next : option state) :
  end_of_data cells = false -> suspended cells = false ->
  iteration cells st = Ok next ->
  exists b,
    next = Some (mkState (RECORD_COUNT st + 1) (JS.add (total_debit_amount st) (row_cell cells 6))
                   (total_debit_records st + 1) (payment_records st ++ [b])%list)%N
    /\ ACHBasicPayment.count b = RECORD_COUNT st
    /\ detail_of mode payment_moment cells b.
Proof.
  unfold end_of_data, suspended, iteration, JS.bind.
  intros -> ->.
  destruct (Formatter.numeric (row_cell cells 3) 4) as [bank4|e] eqn:Ebank; [|discriminate].
  destruct (Formatter.numeric (row_cell cells 4) 5) as [branch5|e] eqn:Ebranch;
    [|discriminate].
  intros H. injection H as <-. eexists. split; [reflexivity|]. split; [reflexivity|].
  split; [reflexivity|]. eexists. do 6 (split; [reflexivity|]).
  exists bank4, branch5. split; [exact Ebank|]. split; [exact Ebranch | reflexivity].
Qed.

Lemma loop_cons (cells : row) (rest : list row) (st : state) :
  loop (cells :: rest) st
  = match iteration cells st with
    | Throw e => Throw e
    | Ok None => Ok st
    | Ok (Some st') => loop rest st'
    end.
Proof. simpl. unfold JS.bind. now destruct iteration as [[?|]|]. Qed.

(** The loop stops at an end-of-data row: that row and the rows after it
    change nothing of the result, whatever the rows before it do. *)
Lemma loop_stops (pre post : list row) (term : row) (st : state) :
  end_of_data term = true -> loop (pre ++ term :: post) st = loop pre st.
Proof.
  intros Hend. revert st. induction pre as [|cells pre IH]; intros st.
  - simpl app. rewrite loop_cons, iteration_end_of_data by assumption. reflexivity.
  - simpl app. rewrite !loop_cons.
    destruct (iteration cells st) as [[st'|]|e]; [apply IH | reflexivity | reflexivity].
Qed.

Lemma accepted_end (cells : row) (rest : list row) :
  end_of_data cells = true -> accepted (cells :: rest) = [].
Proof. unfold accepted, consumed. simpl. now intros ->. Qed.

Lemma accepted_suspended (cells : row) (rest : list row) :
  end_of_data cells = false -> suspended cells = true ->
  accepted (cells :: rest) = accepted rest.
Proof.
  intros E1 E2. unfold accepted, consumed. simpl. rewrite E1. simpl. now rewrite E2.
Qed.

Lemma accepted_cons (cells : row) (rest : list row) :
  end_of_data cells = false -> suspended cells = false ->
  accepted (cells :: rest) = cells :: accepted rest.
Proof.
  intros E1 E2. unfold accepted, consumed. simpl. rewrite E1. simpl. now rewrite E2.
Qed.

Lemma Nseq_cons (start : N) (len : nat) :
  Nseq start (S len) = start :: Nseq (start + 1) len.
Proof.
  unfold Nseq. simpl. f_equal; [f_equal; lia|].
  rewrite <- seq_shift, map_map. apply map_ext. intros i. lia.
Qed.

(** What a loop that returns has done: one record for each accepted row, in
    order, numbered from the counter on; the counter and the count of
    records moved by the number of accepted rows; the amounts added up
    with [+=], from the first accepted row to the last. *)
Lemma loop_returns (rows : list row) (st st' : state) :
  loop rows st = Ok st' ->
  exists recs,
    payment_records st' = (payment_records st ++ recs)%list
    /\ Forall2 (detail_of mode payment_moment) (accepted rows) recs
    /\ map ACHBasicPayment.count recs = Nseq (RECORD_COUNT st) (List.length (accepted rows))
    /\ RECORD_COUNT st' = (RECORD_COUNT st + N.of_nat (List.length (accepted rows)))%N
    /\ total_debit_records st'
       = (total_debit_records st + N.of_nat (List.length (accepted rows)))%N
    /\ total_debit_amount st'
       = fold_left JS.add (map (fun cells => row_cell cells 6) (accepted rows))
           (total_debit_amount st).
Proof.
  revert st. induction rows as [|cells rest IH]; intros st.
  - simpl. intros H. injection H as <-. exists []. rewrite app_nil_r.
    repeat split; try constructor; simpl; try lia.
  - rewrite loop_cons. destruct (end_of_data cells) eqn:Eend.
    + rewrite iteration_end_of_data by assumption. intros H. injection H as <-.
      rewrite accepted_end by assumption. exists []. rewrite app_nil_r.
      repeat split; try constructor; simpl; try lia.
    + destruct (suspended cells) eqn:Esus.
      * rewrite iteration_suspended by assumption. intros H.
        rewrite accepted_suspended by assumption. now apply IH.
      * destruct (iteration cells st) as [next|e] eqn:Eit; [|discriminate].
        destruct (iteration_accepted cells st next Eend Esus Eit) as (b & -> & Hc & Hb).
        intros H. apply IH in H. cbn [RECORD_COUNT total_debit_amount total_debit_records
                                      payment_records] in H.
        destruct H as (recs & Hrecs & Hall & Hcounts & Hrc & Hn & Hamt).
        rewrite accepted_cons by assumption. exists (b :: recs).
        rewrite Hrecs, <- app_assoc. cbn [List.length map fold_left].
        rewrite Nseq_cons, Hc, Hcounts, Hrc, Hn, Hamt.
        repeat split; try reflexivity; try lia. now constructor.
Qed.

End LoopFacts.

(** ** The worksheet and the write-out *)

Local Open Scope list_scope.

Lemma data_rows_app (top rows : list row) :
  List.length top = 7%nat -> data_rows (top ++ rows) = rows.
Proof.
  intros H. unfold data_rows. rewrite skipn_app, H, Nat.sub_diag.
  rewrite skipn_all2 by lia. reflexivity.
Qed.

(** The cells of metadata (rows 1 to 7) do not depend on the rows of data. *)
Lemma cell_top (top rows : list row) (r col : nat) :
  List.length top = 7%nat -> (1 <= r <= 7)%nat ->
  cell (top ++ rows) r col = cell top r col.
Proof.
  intros H Hr. unfold cell. rewrite app_nth1 by lia. reflexivity.
Qed.

Lemma assemble_top (now payment_moment : Moment.t) (top rows : list row) (mode : string) :
  List.length top = 7%nat ->
  assemble now payment_moment (top ++ rows) mode
  = (st <- loop mode (cell top 1 2) (cell top 2 2) (cell top 6 2) payment_moment rows
             (mkState 2 (Num 0) 0 []) ;;
     Ok (ACHHeader.new 1 (cell top 2 2) 1 now (cell top 3 2) (cell top 4 2),
         payment_records st,
         ACHTrailer.new (RECORD_COUNT st) (cell top 2 2) (RECORD_COUNT st)
           (total_debit_amount st) (total_debit_records st))).
Proof.
  intros H. unfold assemble, build_header.
  fold (data_rows (top ++ rows)). rewrite data_rows_app by assumption.
  rewrite !cell_top by (assumption || lia). reflexivity.
Qed.

(** The records written before an exception, or all of them. *)
Lemma write_records_returns (recs : list ACHBasicPayment.t) (fd : list string) :
  thrown (write_records recs fd) = None ->
  Forall (fun b => JS.is_ok (ACHBasicPayment.toString b) = true) recs.
Proof.
  revert fd. induction recs as [|b recs IH]; intros fd; simpl; [constructor|].
  destruct (ACHBasicPayment.toString b) as [s|e] eqn:E; simpl; [|discriminate].
  intros H. constructor; [now rewrite E | now apply IH in H].
Qed.

Lemma write_records_prefix (recs : list ACHBasicPayment.t) (fd : list string) :
  exists more, written (write_records recs fd) = (fd ++ more)%list.
Proof.
  revert fd. induction recs as [|b recs IH]; intros fd; simpl.
  - exists []. now rewrite app_nil_r.
  - destruct (ACHBasicPayment.toString b) as [s|e]; simpl.
    + destruct (IH (fd ++ [s; newlines])%list) as [more ->].
      exists (s :: newlines :: more). now rewrite <- app_assoc.
    + exists []. now rewrite app_nil_r.
Qed.

(** A run that ends without exception has rendered the header, every
    Detail record and the trailer, and the trailer is what it wrote last. *)
Lemma run_completes (now payment_moment : Moment.t) (ws : worksheet) (mode : string) :
  thrown (writeACHFile now payment_moment ws mode) = None ->
  exists header recs t h z,
    assemble now payment_moment ws mode = Ok (header, recs, t)
    /\ ACHHeader.toString header = Ok h
    /\ Forall (fun b => JS.is_ok (ACHBasicPayment.toString b) = true) recs
    /\ ACHTrailer.toString t = Ok z
    /\ exists body, written (writeACHFile now payment_moment ws mode)
                    = ([h; newlines] ++ body ++ [z])%list.
Proof.
  unfold writeACHFile.
  destruct (assemble now payment_moment ws mode) as [[[header recs] t]|e]; [|discriminate].
  destruct (ACHHeader.toString header) as [h|e] eqn:Eh; [|discriminate].
  destruct (thrown (write_records recs [h; newlines])) as [e|] eqn:Ew.
  - intros H. rewrite Ew in H. discriminate.
  - destruct (ACHTrailer.toString t) as [z|e] eqn:Ez; [|discriminate].
    intros _. exists header, recs, t, h, z.
    split; [reflexivity|]. split; [exact Eh|].
    split; [now apply write_records_returns in Ew|]. split; [exact Ez|].
    destruct (write_records_prefix recs [h; newlines]) as [more Hm].
    exists more. cbn [written]. rewrite Hm. now rewrite <- app_assoc.
Qed.

(** What [assemble] returns: the header; one Detail record for each
    accepted row, in order, numbered from 2; the trailer, numbered after
    them, with the totals the loop accumulated. *)
Lemma assemble_returns (now payment_moment : Moment.t) (ws : worksheet) (mode : string)
    (header : ACHHeader.t) (recs : list ACHBasicPayment.t) (t : ACHTrailer.t) :
  assemble now payment_moment ws mode = Ok (header, recs, t) ->
  let n := N.of_nat (List.length (accepted (data_rows ws))) in
  header = build_header now ws
  /\ Forall2 (detail_of mode payment_moment) (accepted (data_rows ws)) recs
  /\ map ACHBasicPayment.count recs = Nseq 2 (List.length (accepted (data_rows ws)))
  /\ t = ACHTrailer.new (2 + n) (cell ws 2 2) (2 + n)
           (fold_left JS.add (map (fun cells => row_cell cells 6) (accepted (data_rows ws)))
              (Num 0))
           n.
Proof.
  unfold assemble, JS.bind. fold (data_rows ws).
  destruct (loop mode (cell ws 1 2) (cell ws 2 2) (cell ws 6 2) payment_moment
              (data_rows ws) (mkState 2 (Num 0) 0 [])) as [st|e] eqn:E; [|discriminate].
  intros H. injection H as <- <- <-.
  apply loop_returns in E. cbn [payment_records RECORD_COUNT total_debit_records
                                total_debit_amount] in E.
  destruct E as (recs & -> & Hall & Hcounts & -> & -> & ->).
  cbn zeta. simpl app.
  split; [reflexivity|]. split; [exact Hall|]. split; [exact Hcounts|].
  unfold ACHTrailer.new. f_equal; lia.
Qed.

(** * The claims *)

(** C1 (as amended).  In every run, the Detail records are those of the
    accepted rows, in order, and whenever the rendering of one of them
    returns a text, for a payment date of the calendar, the text has
    exactly 264 characters: 24 for the envelope (1+9+10+4) and 240 for the
    one segment (3+10+6+9+12+22+3+15+30+30+10+19+9+12+15+22+2+11), the date
    taking 6 characters; and the rendering returns only for a record mode
    of at most one character. *)
Theorem detail_record_length (now payment_moment : Moment.t) (ws : worksheet)
    (mode : string) (header : ACHHeader.t) (recs : list ACHBasicPayment.t)
    (t : ACHTrailer.t) :
  assemble now payment_moment ws mode = Ok (header, recs, t) ->
  Moment.isValid payment_moment = true ->
  Forall2 (detail_of mode payment_moment) (accepted (data_rows ws)) recs
  /\ forall b s, In b recs -> ACHBasicPayment.toString b = Ok s ->
       String.length s = 264%nat /\ (String.length mode <= 1)%nat.
Proof.
  intros H V. apply assemble_returns in H. destruct H as (_ & Hall & _).
  split; [exact Hall|]. intros b s Hin Hs.
  assert (Hb : exists cells, detail_of mode payment_moment cells b).
  { clear Hs. induction Hall as [|cells b' rows recs Hd Hall IH]; [destruct Hin|].
    destruct Hin as [->|Hin]; [now exists cells | now apply IH]. }
  destruct Hb as (cells & Hmode & seg & Hsegs & Hdate & _).
  split.
  - pose proof (payment_width b s) as W. rewrite Hsegs in W.
    assert (JS.length s = 264) as L.
    { apply W; [|exact Hs]. constructor; [|constructor]. now rewrite Hdate. }
    unfold JS.length in L. lia.
  - rewrite <- Hmode. now apply payment_type_fits with (s := s).
Qed.

(** Witness of C1: the scenario of the specification, in mode ["D"]. *)
Lemma detail_record_length_witness :
  Forall2 (detail_of "D" Sample.payment_moment) (accepted (data_rows Sample.scenario))
    Sample.records_D
  /\ forall b s, In b Sample.records_D -> ACHBasicPayment.toString b = Ok s ->
       String.length s = 264%nat /\ (String.length "D" <= 1)%nat.
Proof.
  apply (detail_record_length Sample.now Sample.payment_moment Sample.scenario "D"
           Sample.header_D Sample.records_D Sample.trailer_D).
  - vm_compute. reflexivity.
  - vm_compute. reflexivity.
Defined.

(** C1 as stated fails: no Detail record renders at all in the modes
    ["PAD"] and ["PDS"] (the type field has one character), so not the one
    of the accepted row of the scenario; in a mode of one character that
    record renders to 264 characters, not 265. *)
Lemma detail_record_length_counterexample :
  (forall b,
      ACHBasicPayment.type b = "PAD" \/ ACHBasicPayment.type b = "PDS" ->
      ACHBasicPayment.toString b = Throw RangeError)
  /\ (exists header t,
      assemble Sample.now Sample.payment_moment Sample.scenario "PAD"
      = Ok (header, [Sample.alice_PAD], t)
      /\ accepted (data_rows Sample.scenario) = [Sample.alice]
      /\ ACHBasicPayment.toString Sample.alice_PAD = Throw RangeError)
  /\ (exists s,
         assemble Sample.now Sample.payment_moment Sample.scenario "D"
         = Ok (Sample.header_D, [Sample.alice_D], Sample.trailer_D)
         /\ ACHBasicPayment.toString Sample.alice_D = Ok s
         /\ String.length s = 264%nat
         /\ String.length s <> 265%nat).
Proof.
  split; [|split].
  - intros [type count client_no file_no segments] H.
    cbn [ACHBasicPayment.type] in H. now destruct H as [-> | ->].
  - eexists. eexists. split; [vm_compute; reflexivity|].
    split; vm_compute; reflexivity.
  - eexists. split; [vm_compute; reflexivity|].
    split; [vm_compute; reflexivity|].
    split; [vm_compute; reflexivity|]. vm_compute. discriminate.
Qed.

(** C2 (as amended).  For every date of the calendar, the rendered payment
    date has exactly 6 characters: the flag ["0"], 2 digits of the year and
    3 digits of the day of the year. *)
Theorem payment_date_width (m : Moment.t) :
  Moment.isValid m = true ->
  String.length (Moment.format_0YYDDDD m) = 6%nat
  /\ exists yy ddd,
       Moment.format_0YYDDDD m = ("0" ++ yy ++ ddd)%string
       /\ yy = Moment.zeroFill (Moment.year m mod 100) 2
       /\ ddd = Moment.zeroFill (Moment.dayOfYear m) 3
       /\ String.length yy = 2%nat /\ String.length ddd = 3%nat.
Proof.
  intros V. split; [now apply format_length|].
  pose proof (dayOfYear_bounds m V) as B.
  do 2 eexists. split; [now apply format_valid|].
  split; [reflexivity|]. split; [reflexivity|].
  split; apply zeroFill_length; [apply digits_2 | apply digits_3; lia].
  apply N.mod_lt. lia.
Qed.

(** Witness of C2: 14 February 2021. *)
Lemma payment_date_width_witness :
  String.length (Moment.format_0YYDDDD Sample.payment_moment) = 6%nat
  /\ exists yy ddd,
       Moment.format_0YYDDDD Sample.payment_moment = ("0" ++ yy ++ ddd)%string
       /\ yy = Moment.zeroFill (Moment.year Sample.payment_moment mod 100) 2
       /\ ddd = Moment.zeroFill (Moment.dayOfYear Sample.payment_moment) 3
       /\ String.length yy = 2%nat /\ String.length ddd = 3%nat.
Proof.
  apply (payment_date_width Sample.payment_moment). vm_compute. reflexivity.
Defined.

(** C2 as stated fails: 14 February 2021 renders as ["021045"], 6
    characters and not 7; so does 31 December of a leap year. *)
Lemma payment_date_width_counterexample :
  Moment.format_0YYDDDD (Moment.mk 2021 2 14) = "021045"
  /\ Moment.format_0YYDDDD (Moment.mk 2024 12 31) = "024366"
  /\ String.length (Moment.format_0YYDDDD (Moment.mk 2021 2 14)) <> 7%nat.
Proof.
  split; [vm_compute; reflexivity|]. split; [vm_compute; reflexivity|].
  vm_compute. discriminate.
Qed.

Lemma Nseq_snoc (start : N) (len : nat) :
  Nseq start (len + 1) = Nseq start len ++ [(start + N.of_nat len)%N].
Proof.
  unfold Nseq. rewrite seq_app, map_app. reflexivity.
Qed.

(** C3.  In every run, the sequence numbers of the records, in the order
    in which they are written (header, Detail records, trailer), are the
    consecutive integers from 1: the header has 1, each Detail record one
    more than the record before it, and the trailer 2 plus the number of
    accepted rows. *)
Theorem sequence_numbers_consecutive (now payment_moment : Moment.t) (ws : worksheet)
    (mode : string) (header : ACHHeader.t) (recs : list ACHBasicPayment.t)
    (t : ACHTrailer.t) :
  assemble now payment_moment ws mode = Ok (header, recs, t) ->
  sequence_numbers (header, recs, t)
  = Nseq 1 (List.length (accepted (data_rows ws)) + 2)
  /\ ACHHeader.count header = 1%N
  /\ List.length recs = List.length (accepted (data_rows ws))
  /\ ACHTrailer.count t = (2 + N.of_nat (List.length (accepted (data_rows ws))))%N.
Proof.
  intros H. apply assemble_returns in H. cbn zeta in H.
  destruct H as (-> & Hall & Hcounts & ->).
  apply Forall2_length in Hall.
  repeat split; try reflexivity; [|now symmetry].
  unfold sequence_numbers. cbn [ACHHeader.count build_header ACHHeader.new ACHTrailer.count
                                ACHTrailer.new].
  rewrite Hcounts. set (n := List.length (accepted (data_rows ws))).
  replace (n + 2)%nat with (S (n + 1)) by lia.
  rewrite Nseq_cons, Nseq_snoc. reflexivity.
Qed.

(** Witness of C3: the scenario of the specification (one accepted row):
    the numbers are 1, 2, 3. *)
Lemma sequence_numbers_consecutive_witness :
  sequence_numbers (Sample.header_D, Sample.records_D, Sample.trailer_D)
  = Nseq 1 (List.length (accepted (data_rows Sample.scenario)) + 2)
  /\ ACHHeader.count Sample.header_D = 1%N
  /\ List.length Sample.records_D = List.length (accepted (data_rows Sample.scenario))
  /\ ACHTrailer.count Sample.trailer_D
     = (2 + N.of_nat (List.length (accepted (data_rows Sample.scenario))))%N.
Proof.
  apply (sequence_numbers_consecutive Sample.now Sample.payment_moment Sample.scenario "D").
  vm_compute. reflexivity.
Defined.

Lemma fold_add_numbers (xs : list float) (a : float) :
  fold_left JS.add (map Num xs) (Num a) = Num (fold_left PrimFloat.add xs a).
Proof.
  revert a. induction xs as [|x xs IH]; intros a; simpl; [reflexivity | apply IH].
Qed.

Lemma number_amounts_all (rows : list row) :
  Forall (fun cells => exists x, row_cell cells 6 = Num x) rows ->
  map (fun cells => row_cell cells 6) rows = map Num (number_amounts rows).
Proof.
  induction 1 as [|cells rows [x Hx] _ IH]; [reflexivity|].
  unfold number_amounts in *. simpl. rewrite Hx. simpl. now rewrite IH.
Qed.

(** C4 (as amended).  In every run, the trailer's count of records is the
    number of accepted rows, and its amount is the amounts of the accepted
    rows added one after the other with [+=], from 0: when the amounts are
    numbers, their sum in binary64 arithmetic, rounded at each addition
    (not their exact sum). *)
Theorem trailer_totals (now payment_moment : Moment.t) (ws : worksheet)
    (mode : string) (header : ACHHeader.t) (recs : list ACHBasicPayment.t)
    (t : ACHTrailer.t) :
  assemble now payment_moment ws mode = Ok (header, recs, t) ->
  ACHTrailer.debit_count t = N.of_nat (List.length (accepted (data_rows ws)))
  /\ ACHTrailer.debit_amount t
     = fold_left JS.add (map (fun cells => row_cell cells 6) (accepted (data_rows ws)))
         (Num 0)
  /\ (Forall (fun cells => exists x, row_cell cells 6 = Num x) (accepted (data_rows ws)) ->
      ACHTrailer.debit_amount t
      = Num (fold_left PrimFloat.add (number_amounts (accepted (data_rows ws))) 0%float)).
Proof.
  intros H. apply assemble_returns in H. cbn zeta in H.
  destruct H as (_ & _ & _ & ->). cbn [ACHTrailer.debit_count ACHTrailer.debit_amount
                                      ACHTrailer.new].
  split; [reflexivity|]. split; [reflexivity|].
  intros Hnum. rewrite (number_amounts_all _ Hnum). apply fold_add_numbers.
Qed.

(** Witness of C4: the scenario of the specification; the trailer counts
    1 record and 100.00. *)
Lemma trailer_totals_witness :
  ACHTrailer.debit_count Sample.trailer_D = 1%N
  /\ ACHTrailer.debit_amount Sample.trailer_D = Num 100
  /\ Formatter.money (ACHTrailer.debit_amount Sample.trailer_D) 14 = Ok "00000000010000".
Proof.
  pose proof (trailer_totals Sample.now Sample.payment_moment Sample.scenario "D"
                Sample.header_D Sample.records_D Sample.trailer_D) as T.
  destruct T as (Hc & Ha & _); [vm_compute; reflexivity|].
  split; [exact Hc|]. split; [rewrite Ha; vm_compute; reflexivity|].
  rewrite Ha. vm_compute. reflexivity.
Defined.

(** The loop returns when the bank and branch numbers of every accepted
    row format; so does [assemble]. *)
Lemma loop_total (mode : string) (client_name client_no transaction_code : value)
    (payment_moment : Moment.t) (rows : list row) (st : state) :
  Forall (fun cells => JS.is_ok (Formatter.numeric (row_cell cells 3) 4) = true
                       /\ JS.is_ok (Formatter.numeric (row_cell cells 4) 5) = true)
    (accepted rows) ->
  exists st', loop mode client_name client_no transaction_code payment_moment rows st = Ok st'.
Proof.
  revert st. induction rows as [|cells rest IH]; intros st Hall; [now exists st|].
  rewrite loop_cons. destruct (end_of_data cells) eqn:Eend.
  - rewrite iteration_end_of_data by assumption. now exists st.
  - destruct (suspended cells) eqn:Esus.
    + rewrite iteration_suspended by assumption. apply IH.
      now rewrite accepted_suspended in Hall.
    + rewrite accepted_cons in Hall by assumption.
      apply Forall_cons_iff in Hall as [[Hbank Hbranch] Hall].
      unfold iteration, JS.bind. unfold end_of_data in Eend. unfold suspended in Esus.
      rewrite Eend, Esus.
      destruct (Formatter.numeric (row_cell cells 3) 4) as [bank4|e]; [|discriminate].
      destruct (Formatter.numeric (row_cell cells 4) 5) as [branch5|e]; [|discriminate].
      now apply IH.
Qed.

Lemma assemble_total (now payment_moment : Moment.t) (ws : worksheet) (mode : string) :
  Forall (fun cells => JS.is_ok (Formatter.numeric (row_cell cells 3) 4) = true
                       /\ JS.is_ok (Formatter.numeric (row_cell cells 4) 5) = true)
    (accepted (data_rows ws)) ->
  exists header recs t, assemble now payment_moment ws mode = Ok (header, recs, t).
Proof.
  intros Hall. unfold assemble, JS.bind. fold (data_rows ws).
  destruct (loop_total mode (cell ws 1 2) (cell ws 2 2) (cell ws 6 2) payment_moment
              (data_rows ws) (mkState 2 (Num 0) 0 []) Hall) as [st ->].
  now do 3 eexists.
Qed.

(** Rows that are all the same accepted row are all accepted. *)
Lemma accepted_repeat (cells : row) (n : nat) :
  end_of_data cells = false -> suspended cells = false ->
  accepted (List.repeat cells n) = List.repeat cells n.
Proof.
  intros Eend Esus. induction n as [|n IH]; [reflexivity|].
  simpl List.repeat. rewrite accepted_cons by assumption. now rewrite IH.
Qed.

Lemma number_amounts_repeat (cells : row) (x : float) (n : nat) :
  row_cell cells 6 = Num x -> number_amounts (List.repeat cells n) = List.repeat x n.
Proof.
  intros Hx. induction n as [|n IH]; [reflexivity|].
  unfold number_amounts in *. simpl. now rewrite Hx, IH.
Qed.

(** C4 as stated fails: for 3000 accepted rows of 99,999,999.99 each, the
    trailer's amount renders as 299,999,999,969.99 (in cents
    29999999996999), while the exact sum of the amounts is
    299,999,999,970.00 to the cent. *)
Lemma trailer_totals_counterexample :
  exists header recs t,
    assemble Sample.now Sample.payment_moment Sample.many_large "D" = Ok (header, recs, t)
    /\ accepted (data_rows Sample.many_large) = List.repeat Sample.large 3000
    /\ ACHTrailer.debit_count t = 3000%N
    /\ Formatter.money (ACHTrailer.debit_amount t) 14 = Ok "29999999996999"
    /\ exact_cents (number_amounts (accepted (data_rows Sample.many_large)))
       = 29999999997000.
Proof.
  assert (Hacc : accepted (data_rows Sample.many_large) = List.repeat Sample.large 3000).
  { unfold Sample.many_large. rewrite data_rows_app by reflexivity.
    apply accepted_repeat; reflexivity. }
  assert (Hamounts : number_amounts (List.repeat Sample.large 3000)
                     = List.repeat 99999999.99%float 3000).
  { apply number_amounts_repeat. reflexivity. }
  destruct (assemble_total Sample.now Sample.payment_moment Sample.many_large "D")
    as (header & recs & t & Ha).
  { rewrite Hacc. apply Forall_forall. intros cells ->%repeat_spec.
    split; vm_compute; reflexivity. }
  exists header, recs, t. split; [exact Ha|]. split; [exact Hacc|].
  pose proof (assemble_returns _ _ _ _ _ _ _ Ha) as R. cbn zeta in R.
  destruct R as (_ & _ & _ & ->).
  cbn [ACHTrailer.debit_count ACHTrailer.debit_amount ACHTrailer.new].
  rewrite Hacc, repeat_length, Hamounts.
  split; [reflexivity|]. split; [|vm_compute; reflexivity].
  rewrite number_amounts_all, Hamounts, fold_add_numbers.
  - vm_compute. reflexivity.
  - apply Forall_forall. intros cells ->%repeat_spec. now exists 99999999.99%float.
Qed.

(** C5 (as amended).  For every string longer than the declared width,
    [alphanumeric] makes no check of its own, and the padding
    [" ".repeat(n - w.length)], asked for a negative count, throws
    [RangeError]: no string is returned. *)
Theorem alphanumeric_too_long (s : string) (n : Z) :
  n < JS.length s -> Formatter.alphanumeric (Str s) n = Throw RangeError.
Proof. intros H. now apply alphanumeric_overflow with (w := s). Qed.

(** Witness of C5. *)
Lemma alphanumeric_too_long_witness :
  Formatter.alphanumeric (Str "ACME HOLDINGS") 10 = Throw RangeError.
Proof. apply alphanumeric_too_long. vm_compute. reflexivity. Defined.

(** C5 as stated fails: ["ABCD"] in a field of 3 characters is not
    returned unpadded; the call throws. *)
Lemma alphanumeric_too_long_counterexample :
  Formatter.alphanumeric (Str "ABCD") 3 = Throw RangeError
  /\ Formatter.alphanumeric (Str "ABCD") 3 <> Ok "ABCD".
Proof. split; [reflexivity | discriminate]. Qed.

(** ** Exceptions end the run *)

(** A record that returns had every field of its envelope and of its
    segments return. *)
Lemma payment_ok_fields (b : ACHBasicPayment.t) :
  JS.is_ok (ACHBasicPayment.toString b) = true ->
  forall f,
    In f (ACHBasicPayment.fields b ++ flat_map Segment.fields (ACHBasicPayment.segments b)) ->
    JS.is_ok f = true.
Proof.
  unfold ACHBasicPayment.toString, JS.bind.
  destruct (JS.join (ACHBasicPayment.fields b)) as [env|e] eqn:Eenv; [|discriminate].
  destruct (JS.join (map Segment.toString (ACHBasicPayment.segments b))) as [pay|e] eqn:Epay;
    [|discriminate].
  intros _ f Hin. apply in_app_or in Hin as [Hin|Hin].
  - now apply (join_ok_fields _ env Eenv).
  - apply in_flat_map in Hin as (seg & Hseg & Hf).
    assert (Hs : JS.is_ok (Segment.toString seg) = true).
    { apply (join_ok_fields _ pay Epay). now apply in_map. }
    unfold Segment.toString in Hs.
    destruct (JS.join (Segment.fields seg)) as [x|e] eqn:Ex; [|discriminate].
    now apply (join_ok_fields _ x Ex).
Qed.

(** A run that ends without exception had every field of every record
    return. *)
Lemma run_completes_fields (now payment_moment : Moment.t) (ws : worksheet) (mode : string)
    (file : ACHHeader.t * list ACHBasicPayment.t * ACHTrailer.t) :
  assemble now payment_moment ws mode = Ok file ->
  thrown (writeACHFile now payment_moment ws mode) = None ->
  forall f, In f (all_fields file) -> JS.is_ok f = true.
Proof.
  intros Ha Hrun f Hin.
  apply run_completes in Hrun as (header & recs & t & h & z & Ha' & Hh & Hrecs & Hz & _).
  rewrite Ha in Ha'. injection Ha' as ->. unfold all_fields in Hin.
  apply in_app_or in Hin as [Hin|Hin]; [now apply (join_ok_fields _ h Hh)|].
  apply in_app_or in Hin as [Hin|Hin]; [|now apply (join_ok_fields _ z Hz)].
  apply in_flat_map in Hin as (b & Hb & Hf).
  rewrite Forall_forall in Hrecs. now apply (payment_ok_fields b (Hrecs b Hb)).
Qed.

(** A bank or branch number that does not format ends the run inside the
    loop, before anything is written. *)
Lemma loop_throws_run (now payment_moment : Moment.t) (ws : worksheet) (mode : string)
    (e : exn) :
  assemble now payment_moment ws mode = Throw e ->
  writeACHFile now payment_moment ws mode = mkRun [] (Some e).
Proof. unfold writeACHFile. now intros ->. Qed.

Lemma accepted_row_formats (now payment_moment : Moment.t) (ws : worksheet) (mode : string)
    (file : ACHHeader.t * list ACHBasicPayment.t * ACHTrailer.t) (cells : row) :
  assemble now payment_moment ws mode = Ok file ->
  In cells (accepted (data_rows ws)) ->
  JS.is_ok (Formatter.numeric (row_cell cells 3) 4) = true
  /\ JS.is_ok (Formatter.numeric (row_cell cells 4) 5) = true.
Proof.
  destruct file as [[header recs] t]. intros Ha Hin.
  apply assemble_returns in Ha as (_ & Hall & _).
  induction Hall as [|cells' b rows recs Hd Hall IH]; [destruct Hin|].
  destruct Hin as [->|Hin]; [|now apply IH].
  destruct Hd as (_ & seg & _ & _ & _ & _ & _ & _ & bank4 & branch5 & -> & -> & _).
  now split.
Qed.

(** C6 (as amended).  For the three renderers of [Formatter]: a value
    whose rendering is longer than the declared width makes the field
    throw (the error is the [RangeError] of the padding) instead of
    returning a string; every string such a field returns has exactly the
    declared width; and the exception ends the run: thrown in the loop
    (bank and branch numbers), nothing is written; thrown by a field of
    any record, the run ends with an exception.  The payment date of a
    segment is the one field [Formatter] does not render: [format] never
    throws, and its text has the 6 characters of the field for a date of
    the calendar only; any other moment is written ["Invalid date"], 12
    characters. *)
Theorem field_overflow_aborts :
  (forall v w rep, JS.toString v = Ok rep -> w < JS.length rep ->
     Formatter.alphanumeric v w = Throw RangeError
     /\ Formatter.numeric v w = Throw RangeError)
  /\ (forall v w rep, JS.toFixed2 v = Ok rep -> w < JS.length (JS.remove_first_dot rep) ->
        Formatter.money v w = Throw RangeError)
  /\ (forall v w s,
        Formatter.alphanumeric v w = Ok s \/ Formatter.numeric v w = Ok s
        \/ Formatter.money v w = Ok s ->
        JS.length s = w)
  /\ (forall now payment_moment ws mode cells e,
        In cells (accepted (data_rows ws)) ->
        Formatter.numeric (row_cell cells 3) 4 = Throw e
        \/ Formatter.numeric (row_cell cells 4) 5 = Throw e ->
        exists e', writeACHFile now payment_moment ws mode = mkRun [] (Some e'))
  /\ (forall now payment_moment ws mode file f e,
        assemble now payment_moment ws mode = Ok file ->
        In f (all_fields file) -> f = Throw e ->
        exists e', thrown (writeACHFile now payment_moment ws mode) = Some e')
  /\ (forall seg,
        nth_error (Segment.fields seg) 2
        = Some (Ok (Moment.format_0YYDDDD (Segment.payment_date seg))))
  /\ (forall m,
        (Moment.isValid m = true -> String.length (Moment.format_0YYDDDD m) = 6%nat)
        /\ (Moment.isValid m = false -> Moment.format_0YYDDDD m = "Invalid date")).
Proof.
  split; [|split; [|split; [|split; [|split; [|split]]]]].
  - intros v w rep Hrep Hlt. split;
      [now apply alphanumeric_overflow with (w := rep)
      | now apply numeric_overflow with (w := rep)].
  - intros v w rep Hrep Hlt. now apply money_overflow with (w := rep).
  - intros v w s [H|[H|H]];
      [now apply alphanumeric_width with (v := v)
      | now apply numeric_width with (v := v)
      | now apply money_width with (v := v)].
  - intros now payment_moment ws mode cells e Hin Hthrow.
    destruct (assemble now payment_moment ws mode) as [file|e'] eqn:Ha.
    + destruct (accepted_row_formats _ _ _ _ file cells Ha Hin) as [Hbank Hbranch].
      destruct Hthrow as [Ht|Ht]; rewrite Ht in *; discriminate.
    + exists e'. now apply loop_throws_run.
  - intros now payment_moment ws mode file f e Ha Hin ->.
    destruct (thrown (writeACHFile now payment_moment ws mode)) as [e'|] eqn:Hrun;
      [now exists e'|].
    pose proof (run_completes_fields _ _ _ _ file Ha Hrun _ Hin) as Hok. discriminate.
  - reflexivity.
  - intros m. split; [apply format_length|].
    intros H. unfold Moment.format_0YYDDDD. now rewrite H.
Qed.

(** Witness of C6: a client number of 13 characters in the field of 10;
    a branch number of 6 digits in the loop; the fields of the scenario. *)
Lemma field_overflow_aborts_witness :
  Formatter.alphanumeric (Str "ACME HOLDINGS") 10 = Throw RangeError
  /\ Formatter.money (Num 123456789.5) 10 = Throw RangeError
  /\ (exists e',
         writeACHFile Sample.now Sample.payment_moment
           (Sample.top ++ [[Sample.F 1001; Sample.S "ALICE"; Sample.F 3; Sample.F 123456;
                            Sample.S "5551234"; Sample.F 100]]) "D"
         = mkRun [] (Some e'))
  /\ (exists e',
         thrown (writeACHFile Sample.now Sample.payment_moment Sample.scenario "PAD")
         = Some e').
Proof.
  destruct field_overflow_aborts as (Hover & Hmoney & _ & Hloop & Hrun & _).
  split; [apply (Hover (Str "ACME HOLDINGS") 10 "ACME HOLDINGS"); vm_compute; reflexivity|].
  split; [apply (Hmoney (Num 123456789.5) 10 "123456789.50"); vm_compute; reflexivity|].
  split.
  - apply (Hloop _ _ _ _ [Sample.F 1001; Sample.S "ALICE"; Sample.F 3; Sample.F 123456;
                          Sample.S "5551234"; Sample.F 100] RangeError).
    + vm_compute. left. reflexivity.
    + right. vm_compute. reflexivity.
  - apply (Hrun _ _ _ _ (build_header Sample.now Sample.scenario, [Sample.alice_PAD],
                         ACHTrailer.new 3 (Num 1234567890) 3 (Num 100) 1)
             (Formatter.alphanumeric (Str "PAD") 1) RangeError).
    + vm_compute. reflexivity.
    + vm_compute. right. right. right. right. right. right. right. left. reflexivity.
    + vm_compute. reflexivity.
Defined.

(** C6 as stated fails for the payment date: 30 February 2021 is no date
    of the calendar, its field is the text ["Invalid date"] of 12
    characters in a field of 6, no exception is thrown, and the run on the
    scenario ends without exception, with a Detail record of 270
    characters between a header of 52 and a trailer of 1454. *)
Lemma field_overflow_aborts_counterexample :
  Moment.isValid (Moment.mk 2021 2 30) = false
  /\ Moment.format_0YYDDDD (Moment.mk 2021 2 30) = "Invalid date"
  /\ String.length (Moment.format_0YYDDDD (Moment.mk 2021 2 30)) = 12%nat
  /\ thrown (writeACHFile Sample.now (Moment.mk 2021 2 30) Sample.scenario "D") = None
  /\ map String.length
       (written (writeACHFile Sample.now (Moment.mk 2021 2 30) Sample.scenario "D"))
     = [52; 2; 270; 2; 1454]%nat.
Proof. repeat split; vm_compute; reflexivity. Qed.

(** ** End of data and suspended rows *)

Lemma accepted_stops (pre post : list row) (term : row) :
  end_of_data term = true -> accepted (pre ++ term :: post) = accepted pre.
Proof.
  intros Hend. unfold accepted, consumed. f_equal.
  induction pre as [|cells pre IH]; simpl.
  - now rewrite Hend.
  - destruct (end_of_data cells); simpl; [reflexivity | now rewrite IH].
Qed.

(** The run on a sheet with an end-of-data row is the run on the sheet cut
    before that row. *)
Lemma run_stops (now payment_moment : Moment.t) (top pre post : list row) (term : row)
    (mode : string) :
  List.length top = 7%nat -> end_of_data term = true ->
  assemble now payment_moment (top ++ pre ++ term :: post) mode
  = assemble now payment_moment (top ++ pre) mode
  /\ writeACHFile now payment_moment (top ++ pre ++ term :: post) mode
     = writeACHFile now payment_moment (top ++ pre) mode.
Proof.
  intros Htop Hend.
  assert (Ha : assemble now payment_moment (top ++ pre ++ term :: post) mode
               = assemble now payment_moment (top ++ pre) mode).
  { rewrite !assemble_top by assumption. now rewrite loop_stops. }
  split; [exact Ha|]. unfold writeACHFile. now rewrite Ha.
Qed.

(** When a run on a sheet with an end-of-data row ends without exception,
    its Detail records are those of the accepted rows before that row, and
    the last string written is the text of the trailer, numbered and
    totalled for those rows. *)
Lemma run_stops_trailer (now payment_moment : Moment.t) (top pre post : list row)
    (term : row) (mode : string) :
  List.length top = 7%nat -> end_of_data term = true ->
  thrown (writeACHFile now payment_moment (top ++ pre ++ term :: post) mode) = None ->
  exists header recs t z before,
    assemble now payment_moment (top ++ pre ++ term :: post) mode = Ok (header, recs, t)
    /\ Forall2 (detail_of mode payment_moment) (accepted pre) recs
    /\ ACHTrailer.count t = (2 + N.of_nat (List.length (accepted pre)))%N
    /\ ACHTrailer.debit_count t = N.of_nat (List.length (accepted pre))
    /\ ACHTrailer.toString t = Ok z
    /\ written (writeACHFile now payment_moment (top ++ pre ++ term :: post) mode)
       = before ++ [z].
Proof.
  intros Htop Hend Hrun.
  apply run_completes in Hrun as (header & recs & t & h & z & Ha & _ & _ & Hz & body & Hw).
  exists header, recs, t, z, ([h; newlines] ++ body).
  pose proof (assemble_returns _ _ _ _ _ _ _ Ha) as R. cbn zeta in R.
  rewrite data_rows_app, accepted_stops in R by assumption.
  destruct R as (_ & Hall & _ & ->).
  split; [exact Ha|]. split; [exact Hall|]. split; [reflexivity|]. split; [reflexivity|].
  split; [exact Hz|]. rewrite Hw. now rewrite <- app_assoc.
Qed.

(** C7 (as amended).  A row whose suspend flag is ["y"] produces no Detail
    record and leaves the total amount, the count of records and the
    sequence counter as they are; the conversion goes on with the next row
    when the customer number of the row is present (truthy), and stops
    when it is not (end of data). *)
Theorem suspended_row_skipped (mode : string) (client_name client_no transaction_code : value)
    (payment_moment : Moment.t) (cells : row) (st : state) :
  suspended cells = true ->
  iteration mode client_name client_no transaction_code payment_moment cells st
  = Ok (if end_of_data cells then None else Some st)
  /\ forall rest,
       loop mode client_name client_no transaction_code payment_moment (cells :: rest) st
       = if end_of_data cells then Ok st
         else loop mode client_name client_no transaction_code payment_moment rest st.
Proof.
  intros Hsus.
  assert (Hit : iteration mode client_name client_no transaction_code payment_moment cells st
                = Ok (if end_of_data cells then None else Some st)).
  { destruct (end_of_data cells) eqn:Eend;
      [now apply iteration_end_of_data | now apply iteration_suspended]. }
  split; [exact Hit|]. intros rest. rewrite loop_cons, Hit.
  now destruct (end_of_data cells).
Qed.

(** Witness of C7: the suspended row of the scenario, met with the counter
    at 3 and a total of 100. *)
Lemma suspended_row_skipped_witness :
  iteration "D" (Str "ACME LTD") (Num 1234567890) (Num 430) Sample.payment_moment
    Sample.bob_suspended (mkState 3 (Num 100) 1 [Sample.alice_D])
  = Ok (Some (mkState 3 (Num 100) 1 [Sample.alice_D]))
  /\ loop "D" (Str "ACME LTD") (Num 1234567890) (Num 430) Sample.payment_moment
       [Sample.bob_suspended; Sample.no_customer] (mkState 3 (Num 100) 1 [Sample.alice_D])
     = Ok (mkState 3 (Num 100) 1 [Sample.alice_D]).
Proof.
  destruct (suspended_row_skipped "D" (Str "ACME LTD") (Num 1234567890) (Num 430)
              Sample.payment_moment Sample.bob_suspended
              (mkState 3 (Num 100) 1 [Sample.alice_D])) as [Hit Hloop];
    [vm_compute; reflexivity|].
  split; [exact Hit|]. rewrite Hloop. vm_compute. reflexivity.
Defined.

(** C7 as stated fails: a row with the flag ["y"] and no customer number
    ends the data; the row after it, accepted when it comes first, is not
    processed. *)
Lemma suspended_row_skipped_counterexample :
  suspended Sample.no_customer_suspended = true
  /\ (exists header t,
         assemble Sample.now Sample.payment_moment Sample.suspended_end "D"
         = Ok (header, [], t)
         /\ ACHTrailer.debit_count t = 0%N)
  /\ (exists header b t,
         assemble Sample.now Sample.payment_moment Sample.only_alice "D"
         = Ok (header, [b], t)
         /\ ACHTrailer.debit_count t = 1%N).
Proof.
  split; [vm_compute; reflexivity|]. split.
  - do 2 eexists. split; vm_compute; reflexivity.
  - do 3 eexists. split; vm_compute; reflexivity.
Qed.

(** C8.  The first row whose customer number is absent or empty ends the
    consumption of rows: whatever the rows before it, the loop, the records
    assembled and the whole run are those of the sheet cut before that row
    (no Detail record for it, nothing read after it); and the run goes on
    to the trailer: when it ends without exception, the last string written
    is the text of the trailer, numbered and totalled for the accepted rows
    before that row. *)
Theorem absent_customer_terminates (now payment_moment : Moment.t)
    (top pre post : list row) (term : row) (mode : string) :
  List.length top = 7%nat ->
  row_cell term 1 = Null \/ row_cell term 1 = Str "" ->
  (forall client_name client_no transaction_code st,
      loop mode client_name client_no transaction_code payment_moment
        (pre ++ term :: post) st
      = loop mode client_name client_no transaction_code payment_moment pre st)
  /\ accepted (pre ++ term :: post) = accepted pre
  /\ assemble now payment_moment (top ++ pre ++ term :: post) mode
     = assemble now payment_moment (top ++ pre) mode
  /\ writeACHFile now payment_moment (top ++ pre ++ term :: post) mode
     = writeACHFile now payment_moment (top ++ pre) mode
  /\ (thrown (writeACHFile now payment_moment (top ++ pre ++ term :: post) mode) = None ->
      exists header recs t z before,
        assemble now payment_moment (top ++ pre ++ term :: post) mode
        = Ok (header, recs, t)
        /\ Forall2 (detail_of mode payment_moment) (accepted pre) recs
        /\ ACHTrailer.count t = (2 + N.of_nat (List.length (accepted pre)))%N
        /\ ACHTrailer.debit_count t = N.of_nat (List.length (accepted pre))
        /\ ACHTrailer.toString t = Ok z
        /\ written (writeACHFile now payment_moment (top ++ pre ++ term :: post) mode)
           = before ++ [z]).
Proof.
  intros Htop Hcust.
  assert (Hend : end_of_data term = true).
  { unfold end_of_data. now destruct Hcust as [-> | ->]. }
  split; [intros; now apply loop_stops|].
  split; [now apply accepted_stops|].
  split; [now apply run_stops|]. split; [now apply run_stops|].
  now apply run_stops_trailer.
Qed.

(** Witness of C8: the scenario of the specification, followed by a row
    that would be accepted. *)
Lemma absent_customer_terminates_witness :
  writeACHFile Sample.now Sample.payment_moment
    (Sample.top ++ [Sample.alice; Sample.bob_suspended] ++ Sample.no_customer :: [Sample.carol])
    "D"
  = writeACHFile Sample.now Sample.payment_moment
      (Sample.top ++ [Sample.alice; Sample.bob_suspended]) "D".
Proof.
  assert (Htop : List.length Sample.top = 7%nat) by reflexivity.
  assert (Habsent : row_cell Sample.no_customer 1 = Null
                    \/ row_cell Sample.no_customer 1 = Str "") by (left; reflexivity).
  destruct (absent_customer_terminates Sample.now Sample.payment_moment Sample.top
              [Sample.alice; Sample.bob_suspended] [Sample.carol] Sample.no_customer "D"
              Htop Habsent)
    as (_ & _ & _ & Hrun & _).
  exact Hrun.
Defined.

(** C9.  A row whose customer number is the number 0 ends the consumption
    of rows exactly as a row without customer number does: the run is the
    run on the sheet cut before that row, and the run on the sheet where
    that row has no cell at all. *)
Theorem zero_customer_terminates (now payment_moment : Moment.t)
    (top pre post : list row) (term : row) (mode : string) :
  List.length top = 7%nat ->
  row_cell term 1 = Num 0 ->
  end_of_data term = true
  /\ accepted (pre ++ term :: post) = accepted pre
  /\ writeACHFile now payment_moment (top ++ pre ++ term :: post) mode
     = writeACHFile now payment_moment (top ++ pre) mode
  /\ (forall absent post',
        row_cell absent 1 = Null ->
        assemble now payment_moment (top ++ pre ++ term :: post) mode
        = assemble now payment_moment (top ++ pre ++ absent :: post') mode
        /\ writeACHFile now payment_moment (top ++ pre ++ term :: post) mode
           = writeACHFile now payment_moment (top ++ pre ++ absent :: post') mode)
  /\ (thrown (writeACHFile now payment_moment (top ++ pre ++ term :: post) mode) = None ->
      exists header recs t z before,
        assemble now payment_moment (top ++ pre ++ term :: post) mode
        = Ok (header, recs, t)
        /\ Forall2 (detail_of mode payment_moment) (accepted pre) recs
        /\ ACHTrailer.count t = (2 + N.of_nat (List.length (accepted pre)))%N
        /\ ACHTrailer.debit_count t = N.of_nat (List.length (accepted pre))
        /\ ACHTrailer.toString t = Ok z
        /\ written (writeACHFile now payment_moment (top ++ pre ++ term :: post) mode)
           = before ++ [z]).
Proof.
  intros Htop Hzero.
  assert (Hend : end_of_data term = true).
  { unfold end_of_data. rewrite Hzero. reflexivity. }
  split; [exact Hend|]. split; [now apply accepted_stops|].
  split; [now apply run_stops|]. split; [|now apply run_stops_trailer].
  intros absent post' Habsent.
  assert (Hend' : end_of_data absent = true).
  { unfold end_of_data. rewrite Habsent. reflexivity. }
  destruct (run_stops now payment_moment top pre post term mode Htop Hend) as [-> ->].
  destruct (run_stops now payment_moment top pre post' absent mode Htop Hend') as [-> ->].
  split; reflexivity.
Qed.

(** Witness of C9: a row with customer number 0 after the accepted row of
    the scenario, before a row that would be accepted. *)
Lemma zero_customer_terminates_witness :
  writeACHFile Sample.now Sample.payment_moment
    (Sample.top ++ [Sample.alice] ++ Sample.zero_customer :: [Sample.carol]) "D"
  = writeACHFile Sample.now Sample.payment_moment (Sample.top ++ [Sample.alice]) "D".
Proof.
  assert (Htop : List.length Sample.top = 7%nat) by reflexivity.
  assert (Hzero : row_cell Sample.zero_customer 1 = Num 0) by reflexivity.
  destruct (zero_customer_terminates Sample.now Sample.payment_moment Sample.top
              [Sample.alice] [Sample.carol] Sample.zero_customer "D" Htop Hzero)
    as (_ & _ & Hrun & _).
  exact Hrun.
Defined.

(** C10.  The text of the header does not depend on the file date: two
    headers that differ only in [file_date] render alike; the header of a
    run is a function of the cells B2 (client number), B3 (processing
    centre) and B4 (currency code) only; and nothing a run writes depends
    on the time of the run. *)
Theorem header_ignores_file_date :
  (forall count client_no file_no date1 date2 processing_centre currency_code,
      ACHHeader.toString
        (ACHHeader.new count client_no file_no date1 processing_centre currency_code)
      = ACHHeader.toString
          (ACHHeader.new count client_no file_no date2 processing_centre currency_code))
  /\ (forall now1 now2 ws1 ws2,
         cell ws1 2 2 = cell ws2 2 2 -> cell ws1 3 2 = cell ws2 3 2 ->
         cell ws1 4 2 = cell ws2 4 2 ->
         ACHHeader.toString (build_header now1 ws1)
         = ACHHeader.toString (build_header now2 ws2))
  /\ (forall now1 now2 payment_moment ws mode,
         writeACHFile now1 payment_moment ws mode
         = writeACHFile now2 payment_moment ws mode).
Proof.
  split; [reflexivity|]. split.
  - intros now1 now2 ws1 ws2 H2 H3 H4.
    unfold build_header, ACHHeader.toString, ACHHeader.fields, ACHHeader.new.
    cbn [ACHHeader.type ACHHeader.count ACHHeader.client_no ACHHeader.file_no
         ACHHeader.processing_centre ACHHeader.currency_code].
    now rewrite H2, H3, H4.
  - intros now1 now2 payment_moment ws mode. unfold writeACHFile, assemble, JS.bind.
    destruct (loop mode (cell ws 1 2) (cell ws 2 2) (cell ws 6 2) payment_moment
                (skipn 7 ws) (mkState 2 (Num 0) 0 [])) as [st|e]; reflexivity.
Qed.

(** Witness of C10: the scenario, run at two different times. *)
Lemma header_ignores_file_date_witness :
  ACHHeader.toString (build_header Sample.now Sample.scenario)
  = ACHHeader.toString (build_header Sample.later Sample.only_alice)
  /\ ACHHeader.toString (build_header Sample.now Sample.scenario)
     = Ok "A00000000112345678901   00320                    CAD".
Proof.
  destruct header_ignores_file_date as (_ & Hcells & _).
  split; [|vm_compute; reflexivity].
  apply (Hcells Sample.now Sample.later Sample.scenario Sample.only_alice); reflexivity.
Defined.

(** ** The examples of the specification *)

(** Money: 1234.5 in 10 characters, 0 in 14; numeric: 7 and 12345 in 5;
    alphanumeric: ["ABC"] in 6. *)
Example formatter_examples :
  Formatter.money (Num 1234.5) 10 = Ok "0000123450"
  /\ Formatter.money (Num 0) 14 = Ok "00000000000000"
  /\ Formatter.numeric (Num 7) 5 = Ok "00007"
  /\ Formatter.numeric (Num 12345) 5 = Ok "12345"
  /\ Formatter.alphanumeric (Str "ABC") 6 = Ok "ABC   ".
Proof. repeat split; vm_compute; reflexivity. Qed.

(** End to end: of the three rows (customer 1001 of 100.00; customer 1002
    of 50.25, suspended; empty customer number) the file has one Detail
    record, for customer 1001, and a trailer of 100.00 for 1 record. *)
Example scenario_output :
  writeACHFile Sample.now Sample.payment_moment Sample.scenario "D"
  = mkRun
      [ "A00000000112345678901   00320                    CAD";
        newlines;
        ("D" ++ "000000002" ++ "1234567890" ++ "2   "
         ++ "430" ++ "0000010000" ++ "021045" ++ "000312345" ++ "5551234     "
         ++ JS.replicate "0" 25 ++ JS.replicate " " 15
         ++ "ALICE" ++ JS.replicate " " 25 ++ "ACME LTD" ++ JS.replicate " " 22
         ++ "1234567890" ++ "1001" ++ JS.replicate " " 15
         ++ "000000000" ++ JS.replicate " " 62)%string;
        newlines;
        ("Z" ++ "000000003" ++ "1234567890" ++ "3   "
         ++ "00000000010000" ++ "00000001" ++ JS.replicate "0" 1408)%string ]
      None.
Proof. vm_compute. reflexivity. Qed.

(** The scenario of the specification returns from its first phase. *)
Lemma assemble_total_witness :
  exists header recs t,
    assemble Sample.now Sample.payment_moment Sample.scenario "D" = Ok (header, recs, t).
Proof.
  apply (assemble_total Sample.now Sample.payment_moment Sample.scenario "D").
  assert (Hacc : accepted (data_rows Sample.scenario) = [Sample.alice])
    by (vm_compute; reflexivity).
  rewrite Hacc. constructor; [|constructor]. split; vm_compute; reflexivity.
Defined.

(** * Further properties of the code *)

(** ** [xl_row_col] *)

Lemma digits_inj (a b : Z) : 0 <= a -> 0 <= b -> JS.digits a = JS.digits b -> a = b.
Proof.
  unfold JS.digits. intros Ha Hb H.
  assert (Hu : N.to_uint (Z.to_N a) = N.to_uint (Z.to_N b)).
  { pose proof (NilEmpty.usu (N.to_uint (Z.to_N a))) as U. rewrite H in U.
    rewrite NilEmpty.usu in U. now injection U as <-. }
  apply DecimalN.Unsigned.to_uint_inj in Hu. lia.
Qed.

(** The letter of a column from 1 to 26 is the one character of code
    64 + column. *)
Lemma cols_letter (c : nat) :
  (1 <= c <= 26)%nat -> nth (c - 1) cols "" = String (ascii_of_nat (64 + c)) "".
Proof.
  intros H.
  assert (Hin : In c (seq 1 26)) by (apply in_seq; lia).
  clear H. simpl in Hin.
  repeat (destruct Hin as [<- | Hin]; [reflexivity|]). destruct Hin.
Qed.

Lemma address_inj (r c r' c' : nat) :
  (1 <= c <= 26)%nat -> (1 <= c' <= 26)%nat ->
  address r c = address r' c' -> r = r' /\ c = c'.
Proof.
  intros Hc Hc'. unfold address. rewrite (cols_letter c Hc), (cols_letter c' Hc').
  assert (Hcons : forall a d, (String a "" ++ d)%string = String a d) by reflexivity.
  rewrite !Hcons. intros H.
  pose proof (f_equal (fun s => match s with String a _ => nat_of_ascii a | _ => O end) H)
    as Hletter.
  pose proof (f_equal (fun s => match s with String _ d => d | _ => "" end) H) as Hdigits.
  cbv beta iota in Hletter, Hdigits.
  apply digits_inj in Hdigits; [|lia|lia].
  rewrite !nat_ascii_embedding in Hletter by lia. lia.
Qed.

Lemma append_empty_r (s : string) : (s ++ "")%string = s.
Proof. induction s as [|c s IH]; simpl; [reflexivity | now rewrite IH]. Qed.

Lemma xl_letters_first_turn (fuel : nat) (col : Z) (addr : string) :
  0 <= col < 26 ->
  xl_letters (S fuel) col addr = Some (nth (Z.to_nat col) cols "undefined" ++ addr)%string.
Proof.
  intros H. simpl. rewrite Z.div_small by lia. simpl.
  rewrite Z.rem_small by lia. unfold cols_at.
  replace ((0 <=? col) && (col <? 26)) with true; [reflexivity|].
  symmetry. apply andb_true_intro. split; [apply Z.leb_le | apply Z.ltb_lt]; lia.
Qed.

Lemma xl_row_col_address (fuel : nat) (row : N) (col : Z) :
  1 <= col <= 26 ->
  xl_row_col (S fuel) row col = Some (address (N.to_nat row) (Z.to_nat col)).
Proof.
  intros H. unfold xl_row_col. rewrite xl_letters_first_turn by lia.
  unfold address. rewrite N_nat_Z.
  replace (Z.to_nat (col - 1)) with (Z.to_nat col - 1)%nat by lia.
  rewrite (nth_indep cols "undefined" "").
  - now rewrite append_empty_r.
  - simpl. lia.
Qed.

(** X1.  For the columns 1 to 26, [xl_row_col] returns at the first turn
    of its loop the letter of the column followed by the row in decimal,
    and two cells of these columns have the same address only when they
    are the same cell. *)
Theorem xl_row_col_columns_A_to_Z (fuel fuel' : nat) (row row' : N) (col col' : Z) :
  1 <= col <= 26 -> 1 <= col' <= 26 ->
  xl_row_col (S fuel) row col
  = Some (nth (Z.to_nat col - 1) cols "" ++ JS.digits (Z.of_N row))%string
  /\ (xl_row_col (S fuel) row col = xl_row_col (S fuel') row' col' ->
      row = row' /\ col = col').
Proof.
  intros H H'. rewrite !xl_row_col_address by assumption. split.
  - unfold address. now rewrite N_nat_Z.
  - intros E. injection E as E. apply address_inj in E; lia.
Qed.

(** Witness of X1: the cells G8 and A9. *)
Lemma xl_row_col_columns_A_to_Z_witness :
  xl_row_col 1 8 7 = Some "G8"
  /\ (xl_row_col 1 8 7 = xl_row_col 1 9 1 -> 8%N = 9%N /\ 7 = 1).
Proof.
  apply (xl_row_col_columns_A_to_Z 0 0 8 9 7 1); lia.
Defined.

Lemma xl_letters_returns (fuel : nat) (col : Z) (addr : string) :
  0 <= col < Z.of_nat fuel -> exists s, xl_letters fuel col addr = Some s.
Proof.
  revert col addr. induction fuel as [|fuel IH]; intros col addr H; [lia|].
  simpl. destruct (col / 26 =? 0) eqn:E; [now eexists|].
  apply IH. apply Z.eqb_neq in E.
  assert (0 <= col / 26) by (apply Z.div_pos; lia).
  assert (col <> 0) by (intros ->; now apply E).
  assert (col / 26 < col) by (apply Z.div_lt; lia). lia.
Qed.

Lemma xl_letters_more_fuel (fuel fuel' : nat) (col : Z) (addr s : string) :
  xl_letters fuel col addr = Some s -> (fuel <= fuel')%nat ->
  xl_letters fuel' col addr = Some s.
Proof.
  revert fuel' col addr. induction fuel as [|fuel IH]; intros fuel' col addr; [discriminate|].
  intros H Hle. destruct fuel' as [|fuel']; [lia|]. simpl in *.
  destruct (col / 26 =? 0); [exact H|]. apply IH; [exact H | lia].
Qed.

(** X2.  [xl_row_col] returns an address for every column from 1 on: its
    loop ends within as many turns as the column number, and the address
    is the text the loop built followed by the row in decimal. *)
Theorem xl_row_col_termination (row : N) (col : Z) :
  1 <= col ->
  exists letters,
    forall fuel, (Z.to_nat col <= fuel)%nat ->
      xl_row_col fuel row col = Some (letters ++ JS.digits (Z.of_N row))%string.
Proof.
  intros H.
  destruct (xl_letters_returns (Z.to_nat col) (col - 1) "") as [s Hs]; [lia|].
  exists s. intros fuel Hfuel. unfold xl_row_col.
  now rewrite (xl_letters_more_fuel _ fuel _ _ _ Hs Hfuel).
Qed.

(** Witness of X2: column 30 of row 8. *)
Lemma xl_row_col_termination_witness :
  (exists letters,
     forall fuel, (30 <= fuel)%nat ->
       xl_row_col fuel 8 30 = Some (letters ++ JS.digits 8)%string)
  /\ xl_row_col 2 8 30 = Some "BC8".
Proof.
  split; [|reflexivity].
  apply (xl_row_col_termination 8 30). lia.
Defined.

Lemma append_assoc (a b c : string) : ((a ++ b) ++ c = a ++ (b ++ c))%string.
Proof. induction a as [|x a IH]; simpl; [reflexivity | now rewrite IH]. Qed.

Lemma xl_letters_suffix (fuel : nat) (col : Z) (addr s : string) :
  xl_letters fuel col addr = Some s ->
  exists prefix, s = (prefix ++ cols_at (Z.rem col 27) ++ addr)%string.
Proof.
  revert col addr s. induction fuel as [|fuel IH]; intros col addr s; [discriminate|].
  simpl. destruct (col / 26 =? 0).
  - intros H. injection H as <-. now exists "".
  - intros H. apply IH in H as [prefix ->].
    exists (prefix ++ cols_at (Z.rem (col / 26) 27))%string. now rewrite append_assoc.
Qed.

(** X3.  Past column Z the addresses are not those of a spreadsheet: the
    loop indexes the 26 letters modulo 27, so for a column [col] with
    [(col - 1) % 27 = 26] (27, 54, ...) [xl_row_col] returns, within [col]
    turns, an address that ends in the text ["undefined"] followed by the
    row. *)
Theorem xl_row_col_undefined (row : N) (col : Z) :
  Z.rem (col - 1) 27 = 26 ->
  exists prefix,
    forall fuel, (Z.to_nat col <= fuel)%nat ->
      xl_row_col fuel row col
      = Some (prefix ++ "undefined" ++ JS.digits (Z.of_N row))%string.
Proof.
  intros Hrem.
  assert (Hcol : 0 <= col - 1).
  { destruct (Z.le_gt_cases 0 (col - 1)) as [H|H]; [exact H|].
    pose proof (Z.rem_nonpos (col - 1) 27). lia. }
  destruct (xl_letters_returns (Z.to_nat col) (col - 1) "") as [s Hs]; [lia|].
  destruct (xl_letters_suffix _ _ _ _ Hs) as [prefix Hform].
  rewrite Hrem in Hform. change (cols_at 26) with "undefined" in Hform.
  rewrite append_empty_r in Hform. subst s.
  exists prefix. intros fuel Hfuel. unfold xl_row_col.
  rewrite (xl_letters_more_fuel _ fuel _ _ _ Hs Hfuel). now rewrite append_assoc.
Qed.

(** Witness of X3: column 27 (AA in a spreadsheet) of row 8, whose
    address is ["Bundefined8"]. *)
Lemma xl_row_col_undefined_witness :
  (exists prefix,
     forall fuel, (27 <= fuel)%nat ->
       xl_row_col fuel 8 27 = Some (prefix ++ "undefined" ++ JS.digits 8)%string)
  /\ xl_row_col 2 8 27 = Some "Bundefined8".
Proof.
  split; [|reflexivity].
  apply (xl_row_col_undefined 8 27). reflexivity.
Defined.

(** X4.  Reading a cell through its address agrees with reading it by row
    and column in the grid: for the object that holds the cells of a grid
    under their addresses, [cell(row, col)] is the cell of that row and
    column (absent cells and cells outside the grid are [null]), for the
    columns 1 to 26 and every row from 1 on. *)
Theorem cell_at_grid (fuel : nat) (ws : worksheet) (r c : nat) :
  (1 <= r)%nat -> (1 <= c <= 26)%nat ->
  cell_at (S fuel) (sheet_of ws) (N.of_nat r) (Z.of_nat c) = Some (cell ws r c).
Proof.
  intros Hr Hc. unfold cell_at. rewrite xl_row_col_address by lia.
  rewrite Nat2N.id, Nat2Z.id. f_equal. unfold sheet_of, cell, row_cell.
  destruct (find _ _) as [[r' c']|] eqn:F.
  - apply find_some in F as [Hin Heq]. apply in_prod_iff in Hin as [_ Hc'].
    apply in_seq in Hc'. cbn [fst snd] in Heq. apply String.eqb_eq in Heq.
    apply address_inj in Heq as [-> ->]; [|lia|lia].
    destruct (nth_error (nth (r - 1) ws []) (c - 1)) as [[[x|s]|]|]; reflexivity.
  - destruct (Nat.le_gt_cases r (List.length ws)) as [Hle|Hgt].
    + pose proof (find_none _ _ F (r, c)) as N. cbn [fst snd] in N.
      rewrite String.eqb_refl in N. discriminate N.
      apply in_prod_iff. split; apply in_seq; lia.
    + rewrite nth_overflow by lia. now destruct (c - 1)%nat.
Qed.

(** Witness of X4: the cell G9 of the scenario (the flag of the suspended
    row), through the address and by row and column. *)
Lemma cell_at_grid_witness :
  cell_at 1 (sheet_of Sample.scenario) 9 7 = Some (cell Sample.scenario 9 7)
  /\ cell Sample.scenario 9 7 = Str "y".
Proof.
  split; [|reflexivity].
  apply (cell_at_grid 0 Sample.scenario 9 7); lia.
Defined.

(** ** What a field returns *)

Lemma repeat_form (s : string) (count : Z) (p : string) :
  JS.repeat s count = Ok p -> 0 <= count /\ p = JS.replicate s (Z.to_nat count).
Proof.
  unfold JS.repeat. destruct (count <? 0) eqn:E; [discriminate|].
  intros H. injection H as <-. apply Z.ltb_ge in E. now split.
Qed.

Lemma repeat_nonnegative (s : string) (count : Z) :
  0 <= count -> JS.repeat s count = Ok (JS.replicate s (Z.to_nat count)).
Proof.
  intros H. unfold JS.repeat. destruct (count <? 0) eqn:E; [|reflexivity].
  apply Z.ltb_lt in E. lia.
Qed.

(** [alphanumeric] returns exactly for a value that fits, and then the
    string form of the value followed by spaces. *)
Lemma alphanumeric_form (v : value) (n : Z) (s : string) :
  Formatter.alphanumeric v n = Ok s <->
  exists w, JS.toString v = Ok w /\ JS.length w <= n
            /\ s = (w ++ JS.replicate " " (Z.to_nat (n - JS.length w)))%string.
Proof.
  unfold Formatter.alphanumeric, JS.bind. split.
  - destruct (JS.toString v) as [w|e]; [|discriminate].
    destruct (JS.repeat " " (n - JS.length w)) as [pad|e] eqn:E; [|discriminate].
    intros H. injection H as <-. apply repeat_form in E as [Hn ->].
    exists w. split; [reflexivity|]. split; [lia | reflexivity].
  - intros (w & -> & Hn & ->). now rewrite repeat_nonnegative by lia.
Qed.

(** [numeric] returns exactly for a value that fits, and then zeros
    followed by the string form of the value. *)
Lemma numeric_form (v : value) (n : Z) (s : string) :
  Formatter.numeric v n = Ok s <->
  exists w, JS.toString v = Ok w /\ JS.length w <= n
            /\ s = (JS.replicate "0" (Z.to_nat (n - JS.length w)) ++ w)%string.
Proof.
  unfold Formatter.numeric, JS.bind. split.
  - destruct (JS.toString v) as [w|e]; [|discriminate].
    destruct (JS.repeat "0" (n - JS.length w)) as [pad|e] eqn:E; [|discriminate].
    intros H. injection H as <-. apply repeat_form in E as [Hn ->].
    exists w. split; [reflexivity|]. split; [lia | reflexivity].
  - intros (w & -> & Hn & ->). now rewrite repeat_nonnegative by lia.
Qed.

Lemma alphanumeric_ok_fits (v : value) (n : Z) :
  JS.is_ok (Formatter.alphanumeric v n) = true <-> fits v n.
Proof.
  split.
  - destruct (Formatter.alphanumeric v n) as [s|e] eqn:E; [|discriminate].
    intros _. apply alphanumeric_form in E as (w & Hw & Hn & _). now exists w.
  - intros (w & Hw & Hn).
    assert (E : Formatter.alphanumeric v n
                = Ok (w ++ JS.replicate " " (Z.to_nat (n - JS.length w)))%string)
      by (apply alphanumeric_form; now exists w).
    now rewrite E.
Qed.

Lemma numeric_ok_fits (v : value) (n : Z) :
  JS.is_ok (Formatter.numeric v n) = true <-> fits v n.
Proof.
  split.
  - destruct (Formatter.numeric v n) as [s|e] eqn:E; [|discriminate].
    intros _. apply numeric_form in E as (w & Hw & Hn & _). now exists w.
  - intros (w & Hw & Hn).
    assert (E : Formatter.numeric v n
                = Ok (JS.replicate "0" (Z.to_nat (n - JS.length w)) ++ w)%string)
      by (apply numeric_form; now exists w).
    now rewrite E.
Qed.

Lemma money_ok_number (v : value) (n : Z) :
  JS.is_ok (Formatter.money v n) = true -> exists x, v = Num x.
Proof.
  destruct v as [|x|s]; [discriminate | now exists x | discriminate].
Qed.

(** X5.  The transit number of a Detail record: the bank number filled to
    4 characters and the branch number filled to 5 make 9 characters, so
    the transit field takes them as they are, without padding and without
    exception. *)
Theorem transit_field (bank branch : value) (bank4 branch5 : string) :
  Formatter.numeric bank 4 = Ok bank4 ->
  Formatter.numeric branch 5 = Ok branch5 ->
  Formatter.numeric (Str (bank4 ++ branch5)) 9 = Ok (bank4 ++ branch5)%string
  /\ JS.length bank4 = 4 /\ JS.length branch5 = 5.
Proof.
  intros Hbank Hbranch.
  pose proof (numeric_width _ _ _ Hbank) as L4.
  pose proof (numeric_width _ _ _ Hbranch) as L5.
  split; [|now split].
  apply numeric_form. exists (bank4 ++ branch5)%string.
  rewrite JS_length_app, L4, L5. split; [reflexivity|]. split; [lia | reflexivity].
Qed.

(** Witness of X5: bank 3 and branch 12345. *)
Lemma transit_field_witness :
  Formatter.numeric (Str ("0003" ++ "12345")) 9 = Ok ("0003" ++ "12345")%string
  /\ JS.length "0003" = 4 /\ JS.length "12345" = 5.
Proof.
  apply (transit_field (Num 3) (Num 12345) "0003" "12345"); vm_compute; reflexivity.
Defined.

(** ** The records of a run, exactly *)

Section ExactRecords.

Variables (mode : string) (client_name client_no transaction_code : value).
Variable payment_moment : Moment.t.

Local Abbreviation iteration :=
  (iteration mode client_name client_no transaction_code payment_moment).
Local Abbreviation loop := (loop mode client_name client_no transaction_code payment_moment).
Local Abbreviation detail_record :=
  (detail_record mode client_name client_no transaction_code payment_moment).

Lemma iteration_accepted_exact (cells : row) (st : state) (next : option state) :
  end_of_data cells = false -> suspended cells = false ->
  iteration cells st = Ok next ->
  exists bank4 branch5,
    Formatter.numeric (row_cell cells 3) 4 = Ok bank4
    /\ Formatter.numeric (row_cell cells 4) 5 = Ok branch5
    /\ next = Some (mkState (RECORD_COUNT st + 1)
                      (JS.add (total_debit_amount st) (row_cell cells 6))
                      (total_debit_records st + 1)
                      (payment_records st
                       ++ [detail_record (RECORD_COUNT st) cells bank4 branch5]))%N.
Proof.
  unfold end_of_data, suspended, iteration, JS.bind.
  intros -> ->.
  destruct (Formatter.numeric (row_cell cells 3) 4) as [bank4|e]; [|discriminate].
  destruct (Formatter.numeric (row_cell cells 4) 5) as [branch5|e]; [|discriminate].
  intros H. injection H as <-. now exists bank4, branch5.
Qed.

Lemma loop_records_exact (rows : list row) (st st' : state) :
  loop rows st = Ok st' ->
  exists recs,
    payment_records st' = payment_records st ++ recs
    /\ Forall2
         (fun cells b =>
            exists count bank4 branch5,
              Formatter.numeric (row_cell cells 3) 4 = Ok bank4
              /\ Formatter.numeric (row_cell cells 4) 5 = Ok branch5
              /\ b = detail_record count cells bank4 branch5)
         (accepted rows) recs.
Proof.
  revert st. induction rows as [|cells rest IH]; intros st.
  - simpl. intros H. injection H as <-. exists []. rewrite app_nil_r. split; constructor.
  - rewrite loop_cons. destruct (end_of_data cells) eqn:Eend.
    + rewrite iteration_end_of_data by assumption. intros H. injection H as <-.
      rewrite accepted_end by assumption. exists []. rewrite app_nil_r. split; constructor.
    + destruct (suspended cells) eqn:Esus.
      * rewrite iteration_suspended by assumption. intros H.
        rewrite accepted_suspended by assumption. now apply IH.
      * destruct (iteration cells st) as [next|e] eqn:Eit; [|discriminate].
        destruct (iteration_accepted_exact cells st next Eend Esus Eit)
          as (bank4 & branch5 & Hbank & Hbranch & ->).
        intros H. apply IH in H as (recs & Hrecs & Hall). cbn [payment_records] in Hrecs.
        rewrite accepted_cons by assumption.
        exists (detail_record (RECORD_COUNT st) cells bank4 branch5 :: recs).
        rewrite Hrecs, <- app_assoc. split; [reflexivity|].
        constructor; [|exact Hall]. now exists (RECORD_COUNT st), bank4, branch5.
Qed.

(** Without accepted row the loop changes nothing and cannot throw. *)
Lemma loop_no_accepted (rows : list row) (st : state) :
  accepted rows = [] -> loop rows st = Ok st.
Proof.
  induction rows as [|cells rest IH]; [reflexivity|].
  rewrite loop_cons. destruct (end_of_data cells) eqn:Eend.
  - now rewrite iteration_end_of_data.
  - destruct (suspended cells) eqn:Esus.
    + rewrite iteration_suspended, accepted_suspended by assumption. exact IH.
    + rewrite accepted_cons by assumption. discriminate.
Qed.

End ExactRecords.

Lemma assemble_records_exact (now payment_moment : Moment.t) (ws : worksheet) (mode : string)
    (header : ACHHeader.t) (recs : list ACHBasicPayment.t) (t : ACHTrailer.t) :
  assemble now payment_moment ws mode = Ok (header, recs, t) ->
  Forall2
    (fun cells b =>
       exists count bank4 branch5,
         Formatter.numeric (row_cell cells 3) 4 = Ok bank4
         /\ Formatter.numeric (row_cell cells 4) 5 = Ok branch5
         /\ b = detail_record mode (cell ws 1 2) (cell ws 2 2) (cell ws 6 2) payment_moment
                  count cells bank4 branch5)
    (accepted (data_rows ws)) recs.
Proof.
  unfold assemble, JS.bind. fold (data_rows ws).
  destruct (loop mode (cell ws 1 2) (cell ws 2 2) (cell ws 6 2) payment_moment
              (data_rows ws) (mkState 2 (Num 0) 0 [])) as [st|e] eqn:E; [|discriminate].
  intros H. injection H as <- <- <-.
  apply loop_records_exact in E as (recs & -> & Hall). exact Hall.
Qed.

(** ** The output of a run *)

Lemma header_length (header : ACHHeader.t) (s : string) :
  ACHHeader.toString header = Ok s -> String.length s = 52%nat.
Proof. intros H. apply header_width in H. unfold JS.length in H. lia. Qed.

Lemma trailer_length (t : ACHTrailer.t) (s : string) :
  ACHTrailer.toString t = Ok s -> String.length s = 1454%nat.
Proof. intros H. apply trailer_width in H. unfold JS.length in H. lia. Qed.

(** The Detail records of a run have 264 characters (helper of the
    layout theorem). *)
Lemma detail_text_length (now payment_moment : Moment.t) (ws : worksheet) (mode : string)
    (header : ACHHeader.t) (recs : list ACHBasicPayment.t) (t : ACHTrailer.t) :
  assemble now payment_moment ws mode = Ok (header, recs, t) ->
  Moment.isValid payment_moment = true ->
  forall b s, In b recs -> ACHBasicPayment.toString b = Ok s -> String.length s = 264%nat.
Proof.
  intros H V b s Hin Hs. apply assemble_returns in H as (_ & Hall & _).
  assert (Hb : exists cells, detail_of mode payment_moment cells b).
  { clear Hs. induction Hall as [|cells b' rows recs Hd Hall IH]; [destruct Hin|].
    destruct Hin as [->|Hin]; [now exists cells | now apply IH]. }
  destruct Hb as (cells & _ & seg & Hsegs & Hdate & _).
  pose proof (payment_width b s) as W. rewrite Hsegs in W.
  assert (JS.length s = 264) as L.
  { apply W; [|exact Hs]. constructor; [|constructor]. now rewrite Hdate. }
  unfold JS.length in L. lia.
Qed.

(** X6.  The widths of the records.  Whenever it renders, the header has 52
    characters and the trailer 1454; a Detail record with [k] segments,
    for payment dates of the calendar, has 24 + 240 k characters (1464,
    the length of a CPA-005 record, for six segments). *)
Theorem record_widths :
  (forall header s, ACHHeader.toString header = Ok s -> String.length s = 52%nat)
  /\ (forall t s, ACHTrailer.toString t = Ok s -> String.length s = 1454%nat)
  /\ (forall b s,
         Forall (fun seg => Moment.isValid (Segment.payment_date seg) = true)
           (ACHBasicPayment.segments b) ->
         ACHBasicPayment.toString b = Ok s ->
         String.length s = (24 + 240 * List.length (ACHBasicPayment.segments b))%nat).
Proof.
  split; [|split].
  - exact header_length.
  - exact trailer_length.
  - intros b s V H. apply payment_width in H; [|exact V]. unfold JS.length in H. lia.
Qed.

(** Witness of X6: the records of the scenario. *)
Lemma record_widths_witness :
  (exists s, ACHHeader.toString Sample.header_D = Ok s /\ String.length s = 52%nat)
  /\ (exists s, ACHTrailer.toString Sample.trailer_D = Ok s /\ String.length s = 1454%nat)
  /\ (exists s, ACHBasicPayment.toString Sample.alice_D = Ok s /\ String.length s = 264%nat).
Proof.
  destruct record_widths as (Hh & Ht & Hb).
  split; [|split].
  - destruct (ACHHeader.toString Sample.header_D) as [s|e] eqn:E;
      [|vm_compute in E; discriminate E].
    exists s. split; [reflexivity | now apply (Hh Sample.header_D)].
  - destruct (ACHTrailer.toString Sample.trailer_D) as [s|e] eqn:E;
      [|vm_compute in E; discriminate E].
    exists s. split; [reflexivity | now apply (Ht Sample.trailer_D)].
  - destruct (ACHBasicPayment.toString Sample.alice_D) as [s|e] eqn:E;
      [|vm_compute in E; discriminate E].
    exists s. split; [reflexivity|].
    apply (Hb Sample.alice_D s); [|exact E].
    vm_compute. repeat constructor.
Defined.

Lemma write_records_layout (recs : list ACHBasicPayment.t) (fd : list string) :
  thrown (write_records recs fd) = None ->
  exists texts,
    Forall2 (fun b s => ACHBasicPayment.toString b = Ok s) recs texts
    /\ written (write_records recs fd) = fd ++ flat_map (fun s => [s; newlines]) texts.
Proof.
  revert fd. induction recs as [|b recs IH]; intros fd; simpl.
  - intros _. exists []. split; [constructor | now rewrite app_nil_r].
  - destruct (ACHBasicPayment.toString b) as [s|e] eqn:E; simpl; [|discriminate].
    intros H. apply IH in H as (texts & Hall & ->).
    exists (s :: texts). split; [now constructor|]. now rewrite <- app_assoc.
Qed.

Lemma write_records_all_ok (recs : list ACHBasicPayment.t) (fd : list string) :
  Forall (fun b => JS.is_ok (ACHBasicPayment.toString b) = true) recs ->
  thrown (write_records recs fd) = None.
Proof.
  intros Hall. revert fd. induction Hall as [|b recs Hb Hall IH]; intros fd; simpl.
  - reflexivity.
  - destruct (ACHBasicPayment.toString b) as [s|e]; [apply IH | discriminate].
Qed.

Lemma rendered_all (P : string -> Prop) (recs : list ACHBasicPayment.t)
    (texts : list string) :
  Forall2 (fun b s => ACHBasicPayment.toString b = Ok s) recs texts ->
  (forall b s, In b recs -> ACHBasicPayment.toString b = Ok s -> P s) ->
  Forall P texts.
Proof.
  induction 1 as [|b s recs texts Hb Hall IH]; intros HP; constructor.
  - apply (HP b s); [now left | exact Hb].
  - apply IH. intros b' s' Hin. apply HP. now right.
Qed.

Lemma length_concat (chunks : list string) :
  String.length (String.concat "" chunks) = list_sum (map String.length chunks).
Proof.
  induction chunks as [|s chunks IH]; [reflexivity|].
  destruct chunks as [|s' chunks].
  - simpl. lia.
  - change (String.concat "" (s :: s' :: chunks))
      with (s ++ "" ++ String.concat "" (s' :: chunks))%string.
    rewrite length_app. cbn [append]. rewrite IH. reflexivity.
Qed.

(** The texts written for the Detail records are those of the records
    built from the accepted rows, in order, with their sequence numbers. *)
Lemma rendered_rows (mode : string) (client_name client_no transaction_code : value)
    (payment_moment : Moment.t) (rows : list row) (recs : list ACHBasicPayment.t) :
  Forall2
    (fun cells b =>
       exists count bank4 branch5,
         Formatter.numeric (row_cell cells 3) 4 = Ok bank4
         /\ Formatter.numeric (row_cell cells 4) 5 = Ok branch5
         /\ b = detail_record mode client_name client_no transaction_code payment_moment
                  count cells bank4 branch5)
    rows recs ->
  forall texts,
    Forall2 (fun b s => ACHBasicPayment.toString b = Ok s) recs texts ->
    Forall2
      (fun (numbered : N * row) s =>
         exists bank4 branch5,
           Formatter.numeric (row_cell (snd numbered) 3) 4 = Ok bank4
           /\ Formatter.numeric (row_cell (snd numbered) 4) 5 = Ok branch5
           /\ ACHBasicPayment.toString
                (detail_record mode client_name client_no transaction_code payment_moment
                   (fst numbered) (snd numbered) bank4 branch5) = Ok s)
      (combine (map ACHBasicPayment.count recs) rows) texts.
Proof.
  induction 1 as [|cells b rows recs (count & bank4 & branch5 & Hb & Hr & ->) _ IH];
    intros texts Htexts; inversion Htexts as [|b' s recs' texts' Hs Hrest]; subst.
  - constructor.
  - cbn [map combine]. constructor; [|now apply IH].
    exists bank4, branch5. cbn [fst snd]. split; [exact Hb|]. split; [exact Hr|].
    exact Hs.
Qed.

(** X7.  The file of a run that ends without exception, for a payment
    date of the calendar: the text of the header built from the sheet (52
    characters), two newlines, then for each accepted row, in the order
    of the sheet, the text of its Detail record (264 characters; the
    record of the row, with the sequence numbers 2, 3, ...) and two
    newlines, then the text of the trailer with the count and the running
    total of the accepted rows (1454 characters), and nothing after it;
    1508 + 266 n characters in all for n accepted rows. *)
Theorem completed_run_layout (now payment_moment : Moment.t) (ws : worksheet)
    (mode : string) :
  thrown (writeACHFile now payment_moment ws mode) = None ->
  Moment.isValid payment_moment = true ->
  exists h texts z,
    written (writeACHFile now payment_moment ws mode)
    = [h; newlines] ++ flat_map (fun s => [s; newlines]) texts ++ [z]
    /\ ACHHeader.toString (build_header now ws) = Ok h
    /\ Forall2
         (fun (numbered : N * row) s =>
            exists bank4 branch5,
              Formatter.numeric (row_cell (snd numbered) 3) 4 = Ok bank4
              /\ Formatter.numeric (row_cell (snd numbered) 4) 5 = Ok branch5
              /\ ACHBasicPayment.toString
                   (detail_record mode (cell ws 1 2) (cell ws 2 2) (cell ws 6 2)
                      payment_moment (fst numbered) (snd numbered) bank4 branch5) = Ok s)
         (combine (Nseq 2 (List.length (accepted (data_rows ws))))
            (accepted (data_rows ws)))
         texts
    /\ ACHTrailer.toString
         (ACHTrailer.new (2 + N.of_nat (List.length (accepted (data_rows ws))))
            (cell ws 2 2) (2 + N.of_nat (List.length (accepted (data_rows ws))))
            (fold_left JS.add
               (map (fun cells => row_cell cells 6) (accepted (data_rows ws))) (Num 0))
            (N.of_nat (List.length (accepted (data_rows ws))))) = Ok z
    /\ String.length h = 52%nat
    /\ List.length texts = List.length (accepted (data_rows ws))
    /\ Forall (fun s => String.length s = 264%nat) texts
    /\ String.length z = 1454%nat
    /\ String.length (file_text (writeACHFile now payment_moment ws mode))
       = (1508 + 266 * List.length (accepted (data_rows ws)))%nat.
Proof.
  intros Hrun V.
  assert (Hrun' := Hrun). unfold writeACHFile in Hrun' |- *. unfold file_text, writeACHFile.
  destruct (assemble now payment_moment ws mode) as [[[header recs] t]|e] eqn:Ha;
    [|discriminate].
  destruct (ACHHeader.toString header) as [h|e] eqn:Eh; [|discriminate].
  destruct (thrown (write_records recs [h; newlines])) as [e|] eqn:Ew.
  { rewrite Ew in Hrun'. discriminate. }
  destruct (ACHTrailer.toString t) as [z|e] eqn:Ez; [|discriminate].
  apply write_records_layout in Ew as (texts & Hall & Hw).
  cbn [written]. rewrite Hw.
  pose proof (detail_text_length now payment_moment ws mode header recs t Ha V) as Hlen.
  assert (Htexts : Forall (fun s => String.length s = 264%nat) texts)
    by (apply (rendered_all _ recs texts Hall); exact Hlen).
  pose proof (assemble_records_exact _ _ _ _ _ _ _ Ha) as Hexact.
  pose proof (assemble_returns _ _ _ _ _ _ _ Ha) as R. cbn zeta in R.
  destruct R as (Hheader & Hrecs & Hcounts & Ht).
  assert (Hn : List.length texts = List.length (accepted (data_rows ws))).
  { apply Forall2_length in Hrecs, Hall. lia. }
  exists h, texts, z. rewrite <- app_assoc.
  split; [reflexivity|]. split; [now rewrite <- Hheader|].
  split; [rewrite <- Hcounts; now apply rendered_rows with (recs := recs)|].
  split; [now rewrite <- Ht|].
  split; [now apply (header_length header)|]. split; [exact Hn|].
  split; [exact Htexts|]. split; [now apply (trailer_length t)|].
  assert (Hsum : list_sum (map String.length (flat_map (fun s => [s; newlines]) texts))
                 = (266 * List.length texts)%nat).
  { clear Hall Hw Hn. induction Htexts as [|s texts Hs _ IH]; [reflexivity|].
    change (flat_map (fun s => [s; newlines]) (s :: texts))
      with ([s; newlines] ++ flat_map (fun s => [s; newlines]) texts).
    rewrite map_app, list_sum_app, IH. cbn [map list_sum fold_right List.length].
    rewrite Hs.
    change (String.length newlines) with 2%nat. lia. }
  rewrite length_concat, !map_app, !list_sum_app, Hsum. cbn [map list_sum fold_right].
  rewrite (header_length header h Eh), (trailer_length t z Ez), <- Hn.
  change (String.length newlines) with 2%nat. lia.
Qed.

(** Witness of X7: the scenario of the specification (one accepted row):
    the header, the record of customer 1001 with the sequence number 2,
    the trailer of 100.00 for one record; 1774 characters. *)
Lemma completed_run_layout_witness :
  exists h texts z,
    written (writeACHFile Sample.now Sample.payment_moment Sample.scenario "D")
    = [h; newlines] ++ flat_map (fun s => [s; newlines]) texts ++ [z]
    /\ ACHHeader.toString (build_header Sample.now Sample.scenario) = Ok h
    /\ Forall2
         (fun (numbered : N * row) s =>
            exists bank4 branch5,
              Formatter.numeric (row_cell (snd numbered) 3) 4 = Ok bank4
              /\ Formatter.numeric (row_cell (snd numbered) 4) 5 = Ok branch5
              /\ ACHBasicPayment.toString
                   (detail_record "D" (cell Sample.scenario 1 2) (cell Sample.scenario 2 2)
                      (cell Sample.scenario 6 2) Sample.payment_moment
                      (fst numbered) (snd numbered) bank4 branch5) = Ok s)
         (combine (Nseq 2 (List.length (accepted (data_rows Sample.scenario))))
            (accepted (data_rows Sample.scenario)))
         texts
    /\ ACHTrailer.toString
         (ACHTrailer.new
            (2 + N.of_nat (List.length (accepted (data_rows Sample.scenario))))
            (cell Sample.scenario 2 2)
            (2 + N.of_nat (List.length (accepted (data_rows Sample.scenario))))
            (fold_left JS.add
               (map (fun cells => row_cell cells 6) (accepted (data_rows Sample.scenario)))
               (Num 0))
            (N.of_nat (List.length (accepted (data_rows Sample.scenario))))) = Ok z
    /\ String.length h = 52%nat
    /\ List.length texts = List.length (accepted (data_rows Sample.scenario))
    /\ Forall (fun s => String.length s = 264%nat) texts
    /\ String.length z = 1454%nat
    /\ String.length
         (file_text (writeACHFile Sample.now Sample.payment_moment Sample.scenario "D"))
       = (1508 + 266 * List.length (accepted (data_rows Sample.scenario)))%nat.
Proof.
  apply (completed_run_layout Sample.now Sample.payment_moment Sample.scenario "D");
    vm_compute; reflexivity.
Defined.

Lemma write_records_stops (pre : list ACHBasicPayment.t) (b : ACHBasicPayment.t)
    (post : list ACHBasicPayment.t) (texts : list string) (e : exn) :
  Forall2 (fun b s => ACHBasicPayment.toString b = Ok s) pre texts ->
  ACHBasicPayment.toString b = Throw e ->
  forall fd,
    write_records (pre ++ b :: post) fd
    = mkRun (fd ++ flat_map (fun s => [s; newlines]) texts) (Some e).
Proof.
  intros Hpre Hb. induction Hpre as [|b' s pre texts Hs _ IH]; intros fd.
  - cbn. rewrite Hb. now rewrite app_nil_r.
  - cbn [app write_records]. rewrite Hs, IH. cbn [flat_map]. now rewrite <- app_assoc.
Qed.

Lemma write_records_all (recs : list ACHBasicPayment.t) (texts : list string) :
  Forall2 (fun b s => ACHBasicPayment.toString b = Ok s) recs texts ->
  forall fd,
    write_records recs fd = mkRun (fd ++ flat_map (fun s => [s; newlines]) texts) None.
Proof.
  intros H. induction H as [|b s recs texts Hs _ IH]; intros fd.
  - cbn. now rewrite app_nil_r.
  - cbn [write_records]. rewrite Hs, IH. cbn [flat_map]. now rewrite <- app_assoc.
Qed.

(** X8.  What a run leaves when the converter throws.  An exception of
    the loop over the rows ends the run before the output file is opened:
    nothing is written.  Once the records are assembled, the first record
    that does not render ends the run, and what is written is what came
    before it: nothing for the header; the header and the Detail records
    before it, each followed by two newlines, for a Detail record (the
    later records and the trailer are not written); the header and all
    the Detail records for the trailer.  So a run that ends without
    exception has rendered every field of every record. *)
Theorem failed_run_output (now payment_moment : Moment.t) (ws : worksheet) (mode : string) :
  (forall e, assemble now payment_moment ws mode = Throw e ->
     writeACHFile now payment_moment ws mode = mkRun [] (Some e))
  /\ (forall header recs t,
        assemble now payment_moment ws mode = Ok (header, recs, t) ->
        (forall e, ACHHeader.toString header = Throw e ->
           writeACHFile now payment_moment ws mode = mkRun [] (Some e))
        /\ (forall h pre b post texts e,
              ACHHeader.toString header = Ok h ->
              recs = pre ++ b :: post ->
              Forall2 (fun b s => ACHBasicPayment.toString b = Ok s) pre texts ->
              ACHBasicPayment.toString b = Throw e ->
              writeACHFile now payment_moment ws mode
              = mkRun ([h; newlines] ++ flat_map (fun s => [s; newlines]) texts) (Some e))
        /\ (forall h texts e,
              ACHHeader.toString header = Ok h ->
              Forall2 (fun b s => ACHBasicPayment.toString b = Ok s) recs texts ->
              ACHTrailer.toString t = Throw e ->
              writeACHFile now payment_moment ws mode
              = mkRun ([h; newlines] ++ flat_map (fun s => [s; newlines]) texts) (Some e))
        /\ (thrown (writeACHFile now payment_moment ws mode) = None ->
            forall f, In f (all_fields (header, recs, t)) -> JS.is_ok f = true)).
Proof.
  split; [intros e; apply loop_throws_run|].
  intros header recs t Ha. split; [|split; [|split]].
  - intros e He. unfold writeACHFile. now rewrite Ha, He.
  - intros h pre b post texts e Hh -> Hpre Hb. unfold writeACHFile. rewrite Ha, Hh.
    now rewrite (write_records_stops pre b post texts e Hpre Hb).
  - intros h texts e Hh Hrecs Ht. unfold writeACHFile. rewrite Ha, Hh.
    rewrite (write_records_all recs texts Hrecs). cbn [thrown written]. now rewrite Ht.
  - now apply run_completes_fields.
Qed.

(** Witness of X8: the second of three rows has the text ["fifty"] for
    amount; the run writes the header and the record of the first row, and
    ends with the [TypeError] of [toFixed]. *)
Lemma failed_run_output_witness :
  exists h s,
    writeACHFile Sample.now Sample.payment_moment text_amount_sheet "D"
    = mkRun [h; newlines; s; newlines] (Some TypeError).
Proof.
  destruct (failed_run_output Sample.now Sample.payment_moment text_amount_sheet "D")
    as [_ H].
  destruct (assemble Sample.now Sample.payment_moment text_amount_sheet "D")
    as [[[header recs] t]|e] eqn:Ha; [|vm_compute in Ha; discriminate Ha].
  destruct (H header recs t eq_refl) as (_ & Hrec & _).
  assert (Hrecs : exists b1 b2 b3 h s,
             recs = [b1] ++ b2 :: [b3]
             /\ ACHHeader.toString header = Ok h
             /\ ACHBasicPayment.toString b1 = Ok s
             /\ ACHBasicPayment.toString b2 = Throw TypeError).
  { vm_compute in Ha. injection Ha as <- <- <-. do 5 eexists.
    split; [reflexivity|]. split; [vm_compute; reflexivity|].
    split; vm_compute; reflexivity. }
  destruct Hrecs as (b1 & b2 & b3 & h & s & -> & Hh & Hs & Hb2).
  exists h, s.
  apply (Hrec h [b1] b2 [b3] [s] TypeError Hh eq_refl); [|exact Hb2].
  constructor; [exact Hs | constructor].
Defined.

(** X9.  What the sheet of a run that ends without exception satisfies:
    the client number (B2), the processing centre (B3) and the currency
    code (B4) are present and fit 10, 5 and 3 characters; and for every
    accepted row the mode has at most one character, the transaction code
    (B6) and the client name (B1) fit 3 and 30 characters, the amount is a
    number, and the account number, customer name, customer number, bank
    and branch numbers fit 12, 30, 19, 4 and 5 characters. *)
Theorem completed_run_inputs (now payment_moment : Moment.t) (ws : worksheet)
    (mode : string) :
  thrown (writeACHFile now payment_moment ws mode) = None ->
  fits (cell ws 2 2) 10 /\ fits (cell ws 3 2) 5 /\ fits (cell ws 4 2) 3
  /\ forall cells, In cells (accepted (data_rows ws)) ->
       (String.length mode <= 1)%nat
       /\ fits (cell ws 6 2) 3 /\ fits (cell ws 1 2) 30
       /\ (exists x, row_cell cells 6 = Num x)
       /\ fits (row_cell cells 5) 12 /\ fits (row_cell cells 2) 30
       /\ fits (row_cell cells 1) 19
       /\ fits (row_cell cells 3) 4 /\ fits (row_cell cells 4) 5.
Proof.
  intros Hrun.
  destruct (assemble now payment_moment ws mode) as [[[header recs] t]|e] eqn:Ha;
    [|unfold writeACHFile in Hrun; rewrite Ha in Hrun; discriminate].
  pose proof (run_completes_fields _ _ _ _ _ Ha Hrun) as Hok. unfold all_fields in Hok.
  pose proof (assemble_returns _ _ _ _ _ _ _ Ha) as (-> & _).
  pose proof (assemble_records_exact _ _ _ _ _ _ _ Ha) as Hexact.
  assert (Hheader : forall f, In f (ACHHeader.fields (build_header now ws)) ->
                              JS.is_ok f = true)
    by (intros f Hf; apply Hok, in_or_app; now left).
  split; [apply alphanumeric_ok_fits, Hheader; simpl; tauto|].
  split; [apply numeric_ok_fits, Hheader; simpl; tauto|].
  split; [apply alphanumeric_ok_fits, Hheader; simpl; tauto|].
  intros cells Hin.
  assert (Hb : exists b count bank4 branch5,
             In b recs
             /\ Formatter.numeric (row_cell cells 3) 4 = Ok bank4
             /\ Formatter.numeric (row_cell cells 4) 5 = Ok branch5
             /\ b = detail_record mode (cell ws 1 2) (cell ws 2 2) (cell ws 6 2)
                      payment_moment count cells bank4 branch5).
  { clear Hok Ha Hrun. induction Hexact as [|cells' b rows recs Hd Hall IH]; [destruct Hin|].
    destruct Hin as [->|Hin].
    - destruct Hd as (count & bank4 & branch5 & Hbank & Hbranch & ->).
      eexists. exists count, bank4, branch5. split; [now left | now repeat split].
    - destruct (IH Hin) as (b' & count & bank4 & branch5 & Hb' & Hrest).
      exists b', count, bank4, branch5. split; [now right | exact Hrest]. }
  destruct Hb as (b & count & bank4 & branch5 & Hb & Hbank & Hbranch & ->).
  assert (Hfield : forall f,
             In f (ACHBasicPayment.fields
                     (detail_record mode (cell ws 1 2) (cell ws 2 2) (cell ws 6 2)
                        payment_moment count cells bank4 branch5)
                   ++ Segment.fields
                        (Segment.mk (cell ws 6 2) (row_cell cells 6) payment_moment
                           (Str (bank4 ++ branch5)) (row_cell cells 5) (Str "")
                           (row_cell cells 2) (cell ws 1 2) (cell ws 2 2)
                           (row_cell cells 1) (Str ""))) ->
             JS.is_ok f = true).
  { intros f Hf. apply Hok, in_or_app. right. apply in_or_app. left.
    apply in_flat_map. eexists. split; [exact Hb|].
    apply in_app_or in Hf as [Hf|Hf]; apply in_or_app; [now left|right].
    unfold detail_record, ACHBasicPayment.add_segment, ACHBasicPayment.new.
    cbn [ACHBasicPayment.segments app flat_map]. rewrite app_nil_r. exact Hf. }
  split.
  { assert (Htype : JS.is_ok (Formatter.alphanumeric (Str mode) 1) = true)
      by (apply Hfield; simpl; tauto).
    apply alphanumeric_ok_fits in Htype as (w & Hw & Hlen).
    injection Hw as <-. unfold JS.length in Hlen. lia. }
  split; [apply alphanumeric_ok_fits, Hfield; simpl; tauto|].
  split; [apply alphanumeric_ok_fits, Hfield; simpl; tauto|].
  split; [apply (money_ok_number _ 10), Hfield; simpl; tauto|].
  split; [apply alphanumeric_ok_fits, Hfield; simpl; tauto|].
  split; [apply alphanumeric_ok_fits, Hfield; simpl; tauto|].
  split; [apply alphanumeric_ok_fits, Hfield; simpl; tauto|].
  split; apply numeric_ok_fits; [now rewrite Hbank | now rewrite Hbranch].
Qed.

(** Witness of X9: the scenario of the specification, in mode ["D"]. *)
Lemma completed_run_inputs_witness :
  fits (cell Sample.scenario 2 2) 10 /\ fits (cell Sample.scenario 3 2) 5
  /\ fits (cell Sample.scenario 4 2) 3
  /\ forall cells, In cells (accepted (data_rows Sample.scenario)) ->
       (String.length "D" <= 1)%nat
       /\ fits (cell Sample.scenario 6 2) 3 /\ fits (cell Sample.scenario 1 2) 30
       /\ (exists x, row_cell cells 6 = Num x)
       /\ fits (row_cell cells 5) 12 /\ fits (row_cell cells 2) 30
       /\ fits (row_cell cells 1) 19
       /\ fits (row_cell cells 3) 4 /\ fits (row_cell cells 4) 5.
Proof.
  apply (completed_run_inputs Sample.now Sample.payment_moment Sample.scenario "D").
  vm_compute. reflexivity.
Defined.

Lemma long_type_throws (b : ACHBasicPayment.t) :
  (1 < String.length (ACHBasicPayment.type b))%nat ->
  ACHBasicPayment.toString b = Throw RangeError.
Proof.
  intros H. unfold ACHBasicPayment.toString, ACHBasicPayment.fields, JS.bind.
  cbn [JS.join].
  rewrite (alphanumeric_overflow (Str (ACHBasicPayment.type b)) 1 (ACHBasicPayment.type b));
    [reflexivity | reflexivity | unfold JS.length; lia].
Qed.

(** X10.  With a mode of more than one character (["PAD"], ["PDS"]) and at
    least one accepted row, no run ends without exception: when the records
    are assembled and the header renders, the run writes the header and
    two newlines and throws [RangeError] at the first Detail record. *)
Theorem long_mode_fails (now payment_moment : Moment.t) (ws : worksheet) (mode : string) :
  (1 < String.length mode)%nat ->
  accepted (data_rows ws) <> [] ->
  (exists e, thrown (writeACHFile now payment_moment ws mode) = Some e)
  /\ (forall file h,
         assemble now payment_moment ws mode = Ok file ->
         ACHHeader.toString (fst (fst file)) = Ok h ->
         writeACHFile now payment_moment ws mode = mkRun [h; newlines] (Some RangeError)).
Proof.
  intros Hmode Hacc.
  assert (Hsecond : forall file h,
             assemble now payment_moment ws mode = Ok file ->
             ACHHeader.toString (fst (fst file)) = Ok h ->
             writeACHFile now payment_moment ws mode
             = mkRun [h; newlines] (Some RangeError)).
  { intros [[header recs] t] h Ha Hh. cbn [fst] in Hh. unfold writeACHFile.
    rewrite Ha, Hh. apply assemble_returns in Ha as (_ & Hall & _).
    destruct Hall as [|cells b rows recs Hd Hall]; [contradiction|].
    destruct Hd as [Htype _]. simpl.
    rewrite long_type_throws by (rewrite Htype; exact Hmode). reflexivity. }
  split; [|exact Hsecond].
  destruct (assemble now payment_moment ws mode) as [file|e] eqn:Ha.
  - destruct (ACHHeader.toString (fst (fst file))) as [h|e] eqn:Hh.
    + rewrite (Hsecond file h eq_refl Hh). now eexists.
    + unfold writeACHFile. rewrite Ha. destruct file as [[header recs] t].
      cbn [fst] in Hh. rewrite Hh. now eexists.
  - unfold writeACHFile. rewrite Ha. now eexists.
Qed.

(** Witness of X10: the scenario of the specification in mode ["PDS"]. *)
Lemma long_mode_fails_witness :
  writeACHFile Sample.now Sample.payment_moment Sample.scenario "PDS"
  = mkRun ["A00000000112345678901   00320                    CAD"; newlines]
      (Some RangeError).
Proof.
  assert (Hmode : (1 < String.length "PDS")%nat) by (simpl; lia).
  assert (Hacc : accepted (data_rows Sample.scenario) <> [])
    by (vm_compute; discriminate).
  destruct (long_mode_fails Sample.now Sample.payment_moment Sample.scenario "PDS"
              Hmode Hacc) as [_ H].
  destruct (assemble Sample.now Sample.payment_moment Sample.scenario "PDS")
    as [file|e] eqn:Ha; [|vm_compute in Ha; discriminate Ha].
  apply (H file); [reflexivity|].
  vm_compute in Ha. injection Ha as <-. vm_compute. reflexivity.
Defined.

(** X11.  Without accepted row (no row of data, or only suspended rows
    before the end of the data) the loop cannot throw, and the file is
    the header and the trailer only: the trailer has the sequence number
    2, an amount of 0 and a count of 0, and the mode and the payment date
    play no part. *)
Theorem no_accepted_row (now payment_moment : Moment.t) (ws : worksheet) (mode : string) :
  accepted (data_rows ws) = [] ->
  assemble now payment_moment ws mode
  = Ok (build_header now ws, [], ACHTrailer.new 2 (cell ws 2 2) 2 (Num 0) 0)
  /\ (forall payment_moment' mode',
         writeACHFile now payment_moment' ws mode'
         = writeACHFile now payment_moment ws mode)
  /\ (forall h z,
         ACHHeader.toString (build_header now ws) = Ok h ->
         ACHTrailer.toString (ACHTrailer.new 2 (cell ws 2 2) 2 (Num 0) 0) = Ok z ->
         writeACHFile now payment_moment ws mode = mkRun [h; newlines; z] None).
Proof.
  intros Hacc.
  assert (Ha : forall payment_moment' mode',
             assemble now payment_moment' ws mode'
             = Ok (build_header now ws, [], ACHTrailer.new 2 (cell ws 2 2) 2 (Num 0) 0)).
  { intros payment_moment' mode'. unfold assemble, JS.bind. fold (data_rows ws).
    now rewrite loop_no_accepted. }
  split; [apply Ha|]. split.
  - intros payment_moment' mode'. unfold writeACHFile. now rewrite !Ha.
  - intros h z Hh Hz. unfold writeACHFile. rewrite Ha, Hh. simpl. now rewrite Hz.
Qed.

(** Witness of X11: a sheet whose only row of data is suspended. *)
Lemma no_accepted_row_witness :
  assemble Sample.now Sample.payment_moment (Sample.top ++ [Sample.bob_suspended]) "PAD"
  = Ok (build_header Sample.now (Sample.top ++ [Sample.bob_suspended]), [],
        ACHTrailer.new 2 (cell (Sample.top ++ [Sample.bob_suspended]) 2 2) 2 (Num 0) 0).
Proof.
  apply (no_accepted_row Sample.now Sample.payment_moment
           (Sample.top ++ [Sample.bob_suspended]) "PAD").
  vm_compute. reflexivity.
Defined.

(** ** [trim] and the cells *)

Lemma trimStart_decomposition (s : string) :
  exists a, all_space a = true /\ s = (a ++ JS.trimStart s)%string.
Proof.
  induction s as [|c s IH]; [now exists ""|].
  simpl. destruct (JS.is_space c) eqn:E; [|now exists ""].
  destruct IH as (a & Ha & Hs). exists (String c a). simpl. rewrite E, Ha.
  split; [reflexivity | now rewrite <- Hs].
Qed.

Lemma trimEnd_decomposition (s : string) :
  exists b, all_space b = true /\ s = (JS.trimEnd s ++ b)%string.
Proof.
  induction s as [|c s IH]; [now exists ""|].
  destruct IH as (b & Hb & Hs). simpl.
  destruct (JS.trimEnd s) as [|c' t] eqn:E.
  - destruct (JS.is_space c) eqn:Ec.
    + exists (String c b). simpl. rewrite Ec, Hb. split; [reflexivity|].
      simpl in Hs. now rewrite <- Hs.
    + exists b. split; [exact Hb|]. simpl in *. now rewrite <- Hs.
  - exists b. split; [exact Hb|]. simpl in *. now rewrite <- Hs.
Qed.

Lemma trimStart_spaces (a s : string) :
  all_space a = true -> JS.trimStart (a ++ s) = JS.trimStart s.
Proof.
  induction a as [|c a IH]; [reflexivity|].
  simpl. intros [-> Ha]%andb_prop. now apply IH.
Qed.

Lemma trimEnd_all_space (b : string) : all_space b = true -> JS.trimEnd b = "".
Proof.
  induction b as [|c b IH]; [reflexivity|].
  simpl. intros [Hc Hb]%andb_prop. now rewrite (IH Hb), Hc.
Qed.

Lemma trimEnd_spaces (s b : string) :
  all_space b = true -> JS.trimEnd (s ++ b) = JS.trimEnd s.
Proof.
  intros Hb. induction s as [|c s IH]; [now apply trimEnd_all_space|].
  simpl. now rewrite IH.
Qed.

Lemma trimStart_first (s : string) : not_space (first_char (JS.trimStart s)).
Proof.
  induction s as [|c s IH]; [exact I|].
  simpl. destruct (JS.is_space c) eqn:E; [exact IH | exact E].
Qed.

Lemma trimEnd_last (s : string) : not_space (last_char (JS.trimEnd s)).
Proof.
  induction s as [|c s IH]; [exact I|].
  simpl. destruct (JS.trimEnd s) as [|c' t] eqn:E.
  - destruct (JS.is_space c) eqn:Ec; [exact I | exact Ec].
  - exact IH.
Qed.

(** [trimEnd] keeps a first character that is not white space. *)
Lemma trimEnd_first (s : string) :
  not_space (first_char s) -> first_char (JS.trimEnd s) = first_char s.
Proof.
  destruct s as [|c s]; [reflexivity|]. simpl. intros Hc.
  destruct (JS.trimEnd s); [now rewrite Hc | reflexivity].
Qed.

Lemma trimStart_fixed (s : string) : not_space (first_char s) -> JS.trimStart s = s.
Proof. destruct s as [|c s]; [reflexivity|]. simpl. now intros ->. Qed.

Lemma trimEnd_fixed (s : string) : not_space (last_char s) -> JS.trimEnd s = s.
Proof.
  induction s as [|c s IH]; [reflexivity|].
  intros H. simpl. destruct s as [|c' s'].
  - simpl in *. now rewrite H.
  - rewrite IH by exact H. reflexivity.
Qed.

Lemma trim_ends (s : string) :
  not_space (first_char (JS.trim s)) /\ not_space (last_char (JS.trim s)).
Proof.
  unfold JS.trim. split; [|apply trimEnd_last].
  rewrite trimEnd_first; apply trimStart_first.
Qed.

Lemma trim_fixed (s : string) :
  not_space (first_char s) -> not_space (last_char s) -> JS.trim s = s.
Proof.
  intros Hf Hl. unfold JS.trim. rewrite trimStart_fixed by exact Hf.
  now apply trimEnd_fixed.
Qed.

Lemma trim_empty_iff (s : string) : JS.trim s = "" <-> all_space s = true.
Proof.
  split.
  - intros H. destruct (trimStart_decomposition s) as (a & Ha & Hs).
    destruct (trimEnd_decomposition (JS.trimStart s)) as (b & Hb & Ht).
    unfold JS.trim in H. rewrite H in Ht. simpl in Ht. rewrite Ht in Hs. rewrite Hs.
    clear Hs. induction a as [|c a IH]; [exact Hb|].
    simpl in *. apply andb_prop in Ha as [-> Ha]. now apply IH.
  - intros H. unfold JS.trim.
    destruct (trimStart_decomposition s) as (a & Ha & Hs).
    assert (Ht : all_space (JS.trimStart s) = true).
    { rewrite Hs in H. clear Hs. induction a as [|c a IH]; [exact H|].
      simpl in *. apply andb_prop in H as [_ H]. apply andb_prop in Ha as [_ Ha].
      now apply IH. }
    now apply trimEnd_all_space.
Qed.

(** [trim] takes white space off both ends and nothing else: the
    string is its trimmed form between two runs of white space; the
    trimmed form neither starts nor ends with white space; it is empty
    exactly for a string of white space only; and trimming twice is
    trimming once. *)
Lemma trim_spec (s : string) :
  (exists a b, all_space a = true /\ all_space b = true
               /\ s = (a ++ JS.trim s ++ b)%string)
  /\ not_space (first_char (JS.trim s)) /\ not_space (last_char (JS.trim s))
  /\ (JS.trim s = "" <-> all_space s = true)
  /\ JS.trim (JS.trim s) = JS.trim s.
Proof.
  destruct (trim_ends s) as [Hf Hl].
  split; [|split; [exact Hf|split; [exact Hl|split; [apply trim_empty_iff|]]]].
  - destruct (trimStart_decomposition s) as (a & Ha & Hs).
    destruct (trimEnd_decomposition (JS.trimStart s)) as (b & Hb & Ht).
    exists a, b. split; [exact Ha|]. split; [exact Hb|].
    unfold JS.trim. now rewrite <- Ht.
  - now apply trim_fixed.
Qed.

Lemma all_space_replicate (k : nat) : all_space (JS.replicate " " k) = true.
Proof. induction k as [|k IH]; [reflexivity|]. simpl. exact IH. Qed.

Lemma trim_y (a b : string) :
  all_space a = true -> all_space b = true -> JS.trim (a ++ "y" ++ b) = "y".
Proof.
  intros Ha Hb. unfold JS.trim. rewrite trimStart_spaces by exact Ha.
  rewrite trimStart_fixed by reflexivity.
  now rewrite (trimEnd_spaces "y" b Hb).
Qed.

Lemma row_cell_text (cells : row) (col : nat) (w : string) :
  row_cell cells col = Str w ->
  exists s, nth_error cells (col - 1) = Some (Some (RawStr s)) /\ w = JS.trim s.
Proof.
  unfold row_cell. destruct (nth_error cells (col - 1)) as [[[x|s]|]|]; try discriminate.
  intros H. injection H as <-. now exists s.
Qed.

(** X13.  The end of the data: a row stops the conversion exactly when its
    customer cell (column A) is absent, holds a text of white space only
    (the empty text included), or holds the number 0, -0 or NaN.  Any
    other customer cell, the text ["0"] included, lets the loop go on. *)
Theorem end_of_data_iff (cells : row) :
  end_of_data cells = true <->
  match nth_error cells 0 with
  | Some (Some (RawStr s)) => all_space s = true
  | Some (Some (RawNum x)) => PrimFloat.is_zero x = true \/ PrimFloat.is_nan x = true
  | Some None | None => True
  end.
Proof.
  unfold end_of_data, row_cell. cbn [Nat.sub].
  destruct (nth_error cells 0) as [[[x|s]|]|]; cbn [JS.falsy].
  - apply orb_true_iff.
  - rewrite <- trim_empty_iff. apply String.eqb_eq.
  - tauto.
  - tauto.
Qed.

(** X14.  The suspend flag: a row is suspended exactly when its cell in
    column G is a text made of the single letter [y] between white space;
    the capital [Y], a longer word, a number or an absent cell do not
    suspend the row. *)
Theorem suspended_iff (cells : row) :
  suspended cells = true <->
  exists a b, all_space a = true /\ all_space b = true
              /\ nth_error cells 6 = Some (Some (RawStr (a ++ "y" ++ b))).
Proof.
  unfold suspended. split.
  - destruct (row_cell cells 7) as [|x|w] eqn:E; cbn [JS.eq_y]; try discriminate.
    intros H. apply String.eqb_eq in H. subst w.
    apply row_cell_text in E as (s & Hs & Hy). cbn [Nat.sub] in Hs.
    destruct (trimStart_decomposition s) as (a & Ha & Hsa).
    destruct (trimEnd_decomposition (JS.trimStart s)) as (b & Hb & Hsb).
    exists a, b. split; [exact Ha|]. split; [exact Hb|].
    rewrite Hs. do 3 f_equal. unfold JS.trim in Hy. rewrite <- Hy in Hsb.
    now rewrite <- Hsb.
  - intros (a & b & Ha & Hb & Hs). unfold row_cell. cbn [Nat.sub]. rewrite Hs.
    cbn [JS.eq_y]. now rewrite trim_y.
Qed.

(** X15.  A text cell can be read back from its field: the cell holds a
    trimmed text, the alphanumeric field is this text followed by spaces,
    and trimming the field gives the text again. *)
Theorem text_field_round_trip (cells : row) (col : nat) (w : string) (n : Z)
    (field : string) :
  row_cell cells col = Str w ->
  Formatter.alphanumeric (row_cell cells col) n = Ok field ->
  JS.trimEnd field = w /\ JS.trim field = w.
Proof.
  intros Hcell Hfield. rewrite Hcell in Hfield.
  apply row_cell_text in Hcell as (s & _ & ->).
  apply alphanumeric_form in Hfield as (w & Hw & _ & ->).
  injection Hw as <-. destruct (trim_ends s) as [Hf Hl].
  assert (Hend : JS.trimEnd (JS.trim s ++ JS.replicate " " (Z.to_nat (n - JS.length (JS.trim s))))
                 = JS.trim s).
  { rewrite trimEnd_spaces by apply all_space_replicate. now apply trimEnd_fixed. }
  split; [exact Hend|]. unfold JS.trim at 1.
  destruct (JS.trim s) as [|c t] eqn:E.
  - apply trim_empty_iff. apply all_space_replicate.
  - rewrite trimStart_fixed by exact Hf. exact Hend.
Qed.

Lemma text_field_round_trip_witness :
  JS.trimEnd "Alice Martin                  " = "Alice Martin"
  /\ JS.trim "Alice Martin                  " = "Alice Martin".
Proof.
  apply (text_field_round_trip [None; Some (RawStr "  Alice Martin ")] 2 "Alice Martin" 30);
    reflexivity.
Defined.

(** ** The Tauri window: the list of input files *)

Local Abbreviation push_unique :=
  (fun (unique : list string) (s : string) =>
     if existsb (String.eqb s) unique then unique else unique ++ [s]).

Local Abbreviation absent_from :=
  (fun (unique : list string) (s : string) => negb (existsb (String.eqb s) unique)).

Lemma existsb_eqb_In (s : string) (l : list string) :
  existsb (String.eqb s) l = true <-> In s l.
Proof.
  rewrite existsb_exists. split.
  - intros (x & Hx & E). apply String.eqb_eq in E. now subst.
  - intros H. exists s. split; [exact H | apply String.eqb_refl].
Qed.

Lemma existsb_eqb_not_In (s : string) (l : list string) :
  existsb (String.eqb s) l = false <-> ~ In s l.
Proof.
  rewrite <- existsb_eqb_In. destruct (existsb (String.eqb s) l); split; congruence.
Qed.

Lemma push_unique_invariant (L u : list string) :
  NoDup u ->
  NoDup (fold_left push_unique L u)
  /\ forall s, In s (fold_left push_unique L u) <-> In s u \/ In s L.
Proof.
  revert u. induction L as [|x L IH]; intros u Hu; cbn [fold_left].
  - split; [exact Hu|]. intros s. cbn [In]. tauto.
  - destruct (existsb (String.eqb x) u) eqn:E.
    + destruct (IH u Hu) as [Hn Hin]. split; [exact Hn|].
      intros s. rewrite Hin. cbn [In]. apply existsb_eqb_In in E.
      split; [tauto|]. intros [H|[<-|H]]; tauto.
    + apply existsb_eqb_not_In in E.
      assert (Hu' : NoDup (u ++ [x])).
      { apply NoDup_app; [exact Hu | repeat constructor; intros [] |].
        intros a Ha [<-|[]]. exact (E Ha). }
      destruct (IH _ Hu') as [Hn Hin]. split; [exact Hn|].
      intros s. rewrite Hin, in_app_iff. cbn [In]. tauto.
Qed.

Lemma filter_absent_app (u v L : list string) :
  filter (absent_from v) (filter (absent_from u) L) = filter (absent_from (u ++ v)) L.
Proof.
  induction L as [|x L IH]; [reflexivity|]. cbn [filter].
  rewrite existsb_app. destruct (existsb (String.eqb x) u); cbn [negb orb filter].
  - exact IH.
  - destruct (existsb (String.eqb x) v); cbn [negb]; now rewrite IH.
Qed.

Lemma filter_length_le {A : Type} (p : A -> bool) (l : list A) :
  (List.length (filter p l) <= List.length l)%nat.
Proof.
  induction l as [|x l IH]; [apply Nat.le_refl|].
  cbn [filter]. destruct (p x); cbn [List.length]; lia.
Qed.

Lemma push_unique_filter (n : nat) :
  forall L u, (List.length L <= n)%nat ->
    fold_left push_unique L u = u ++ fold_left push_unique (filter (absent_from u) L) [].
Proof.
  induction n as [|n IH]; intros L u Hlen.
  - destruct L; [|cbn [List.length] in Hlen; lia]. cbn. now rewrite app_nil_r.
  - destruct L as [|x L]; [cbn; now rewrite app_nil_r|].
    cbn [List.length] in Hlen. cbn [fold_left filter].
    destruct (existsb (String.eqb x) u) eqn:E; cbn [negb].
    + apply IH. lia.
    + cbn [fold_left existsb app]. rewrite (IH L (u ++ [x])) by lia.
      rewrite (IH (filter (absent_from u) L) [x])
        by (pose proof (filter_length_le (absent_from u) L); lia).
      rewrite filter_absent_app. now rewrite <- app_assoc.
Qed.

Lemma push_unique_fresh (L u : list string) :
  NoDup (u ++ L) -> fold_left push_unique L u = u ++ L.
Proof.
  revert u. induction L as [|x L IH]; intros u H; cbn [fold_left].
  - now rewrite app_nil_r.
  - assert (E : existsb (String.eqb x) u = false).
    { apply existsb_eqb_not_In. intros Hin.
      apply NoDup_remove_2 in H. apply H. apply in_or_app. now left. }
    rewrite E. rewrite IH; rewrite <- app_assoc; [reflexivity | exact H].
Qed.

Lemma filter_absent_ext (u v L : list string) :
  (forall s, In s u <-> In s v) -> filter (absent_from u) L = filter (absent_from v) L.
Proof.
  intros H. apply filter_ext. intros s. f_equal.
  destruct (existsb (String.eqb s) u) eqn:Eu, (existsb (String.eqb s) v) eqn:Ev;
    try reflexivity.
  - apply existsb_eqb_In in Eu. apply existsb_eqb_not_In in Ev. now apply H in Eu.
  - apply existsb_eqb_In in Ev. apply existsb_eqb_not_In in Eu. now apply H in Ev.
Qed.

Lemma removeDuplicates_NoDup (L : list string) : NoDup (TauriApp.removeDuplicates L).
Proof. apply push_unique_invariant. constructor. Qed.

Lemma removeDuplicates_In (L : list string) (s : string) :
  In s (TauriApp.removeDuplicates L) <-> In s L.
Proof.
  unfold TauriApp.removeDuplicates.
  destruct (push_unique_invariant L [] (NoDup_nil _)) as [_ H]. rewrite H. cbn [In]. tauto.
Qed.

Lemma removeDuplicates_app (L L' : list string) :
  TauriApp.removeDuplicates (L ++ L')
  = TauriApp.removeDuplicates L ++ TauriApp.removeDuplicates (filter (absent_from L) L').
Proof.
  unfold TauriApp.removeDuplicates. rewrite fold_left_app.
  rewrite (push_unique_filter (List.length L') L' _ (Nat.le_refl _)).
  f_equal. f_equal. apply filter_absent_ext. apply removeDuplicates_In.
Qed.

Lemma removeDuplicates_fixed (L : list string) :
  NoDup L -> TauriApp.removeDuplicates L = L.
Proof. intros H. unfold TauriApp.removeDuplicates. now rewrite push_unique_fresh. Qed.

(** X16.  [removeDuplicates] keeps the first occurrence of every string,
    in order: the result has no duplicate and the same members as the
    list; a list without duplicates is returned as it is; and the result
    for a list followed by a second one is the result for the first
    followed by the result for the strings of the second that are not in
    the first. *)
Theorem removeDuplicates_spec (L : list string) :
  NoDup (TauriApp.removeDuplicates L)
  /\ (forall s, In s (TauriApp.removeDuplicates L) <-> In s L)
  /\ (NoDup L -> TauriApp.removeDuplicates L = L)
  /\ TauriApp.removeDuplicates (TauriApp.removeDuplicates L) = TauriApp.removeDuplicates L
  /\ forall L', TauriApp.removeDuplicates (L ++ L')
                = TauriApp.removeDuplicates L
                  ++ TauriApp.removeDuplicates
                       (filter (fun s => negb (existsb (String.eqb s) L)) L').
Proof.
  split; [apply removeDuplicates_NoDup|].
  split; [apply removeDuplicates_In|].
  split; [apply removeDuplicates_fixed|].
  split; [apply removeDuplicates_fixed, removeDuplicates_NoDup|].
  apply removeDuplicates_app.
Qed.

(** X17.  Selecting input files: the files already listed keep their
    places, and the selected files that are not yet listed are added
    after them, each once, in the order of the selection; the new list
    has no duplicate. *)
Theorem onInputSelect_appends (inputFiles selected : list string) :
  NoDup inputFiles ->
  exists added,
    TauriApp.onInputSelect inputFiles (Some selected) = Ok (inputFiles ++ added)
    /\ added = TauriApp.removeDuplicates
                 (filter (fun s => negb (existsb (String.eqb s) inputFiles)) selected)
    /\ NoDup (inputFiles ++ added)
    /\ forall s, In s added <-> In s selected /\ ~ In s inputFiles.
Proof.
  intros Hn. eexists. split; [|split; [reflexivity|split]].
  - unfold TauriApp.onInputSelect. rewrite removeDuplicates_app.
    now rewrite removeDuplicates_fixed.
  - rewrite <- (removeDuplicates_fixed inputFiles Hn) at 1.
    rewrite <- removeDuplicates_app. apply removeDuplicates_NoDup.
  - intros s. rewrite removeDuplicates_In, filter_In, negb_true_iff.
    now rewrite existsb_eqb_not_In.
Qed.

Lemma onInputSelect_appends_witness :
  exists added,
    TauriApp.onInputSelect ["a.xlsx"; "b.xlsx"] (Some ["c.xlsx"; "a.xlsx"; "c.xlsx"])
    = Ok (["a.xlsx"; "b.xlsx"] ++ added)
    /\ added = TauriApp.removeDuplicates
                 (filter (fun s => negb (existsb (String.eqb s) ["a.xlsx"; "b.xlsx"]))
                    ["c.xlsx"; "a.xlsx"; "c.xlsx"])
    /\ NoDup (["a.xlsx"; "b.xlsx"] ++ added)
    /\ forall s, In s added <->
                 In s ["c.xlsx"; "a.xlsx"; "c.xlsx"] /\ ~ In s ["a.xlsx"; "b.xlsx"].
Proof.
  apply (onInputSelect_appends ["a.xlsx"; "b.xlsx"] ["c.xlsx"; "a.xlsx"; "c.xlsx"]).
  repeat constructor; simpl; intuition discriminate.
Defined.

Lemma handle_In (inputFiles : list string) (e : TauriApp.event) (f : string) :
  In f (TauriApp.handle inputFiles e) <->
  match e with
  | TauriApp.Select (Some selected) => In f inputFiles \/ In f selected
  | TauriApp.Select None => In f inputFiles
  | TauriApp.Remove file => In f inputFiles /\ f <> file
  end.
Proof.
  destruct e as [[selected|]|file]; cbn [TauriApp.handle TauriApp.onInputSelect].
  - now rewrite removeDuplicates_In, in_app_iff.
  - tauto.
  - unfold TauriApp.onRemoveInputFile. rewrite filter_In, negb_true_iff.
    now rewrite String.eqb_neq.
Qed.

Lemma handle_NoDup (inputFiles : list string) (e : TauriApp.event) :
  NoDup inputFiles -> NoDup (TauriApp.handle inputFiles e).
Proof.
  intros H. destruct e as [[selected|]|file]; cbn [TauriApp.handle TauriApp.onInputSelect].
  - apply removeDuplicates_NoDup.
  - exact H.
  - now apply NoDup_filter.
Qed.

Lemma handled_NoDup (events : list TauriApp.event) (inputFiles : list string) :
  NoDup inputFiles -> NoDup (fold_left TauriApp.handle events inputFiles).
Proof.
  revert inputFiles. induction events as [|e events IH]; intros st H; [exact H|].
  cbn [fold_left]. now apply IH, handle_NoDup.
Qed.

Lemma handled_origin (events : list TauriApp.event) (inputFiles : list string) (f : string) :
  In f (fold_left TauriApp.handle events inputFiles) ->
  In f inputFiles
  \/ exists selected, In (TauriApp.Select (Some selected)) events /\ In f selected.
Proof.
  revert inputFiles. induction events as [|e events IH]; intros st H; [now left|].
  cbn [fold_left] in H. apply IH in H as [H|(selected & He & Hf)].
  - apply handle_In in H. destruct e as [[selected|]|file].
    + destruct H as [H|H]; [now left|]. right. exists selected. split; [now left | exact H].
    + now left.
    + left. apply H.
  - right. exists selected. split; [now right | exact Hf].
Qed.

Lemma handled_keeps (events : list TauriApp.event) (inputFiles : list string) (f : string) :
  In f inputFiles -> ~ In (TauriApp.Remove f) events ->
  In f (fold_left TauriApp.handle events inputFiles).
Proof.
  revert inputFiles. induction events as [|e events IH]; intros st H Hno; [exact H|].
  cbn [fold_left]. apply IH.
  - apply handle_In. destruct e as [[selected|]|file].
    + now left.
    + exact H.
    + split; [exact H|]. intros ->. apply Hno. now left.
  - intros Hin. apply Hno. now right.
Qed.

(** X18.  The list of input files through a session of selections and
    removals, from the empty list: it never holds a file twice; every file
    it holds was in a selection; a file is absent right after its removal;
    and a listed file stays listed for as long as it is not removed (a
    dismissed dialog changes nothing). *)
Theorem inputFiles_invariant (events : list TauriApp.event) :
  NoDup (TauriApp.inputFiles_after events)
  /\ (forall f, In f (TauriApp.inputFiles_after events) ->
        exists selected, In (TauriApp.Select (Some selected)) events /\ In f selected)
  /\ (forall f, ~ In f (TauriApp.inputFiles_after (events ++ [TauriApp.Remove f])))
  /\ (forall f events', In f (TauriApp.inputFiles_after events) ->
        ~ In (TauriApp.Remove f) events' ->
        In f (TauriApp.inputFiles_after (events ++ events'))).
Proof.
  unfold TauriApp.inputFiles_after. split; [apply handled_NoDup; constructor|].
  split; [|split].
  - intros f H. apply handled_origin in H as [[]|H]. exact H.
  - intros f. rewrite fold_left_app. cbn [fold_left]. rewrite handle_In. tauto.
  - intros f events' H Hno. rewrite fold_left_app. now apply handled_keeps.
Qed.

(** ** The Tauri window: the Convert button *)

Lemma blank_iff (dir : string) : (JS.length (JS.trim dir) =? 0) = all_space dir.
Proof.
  destruct (all_space dir) eqn:E.
  - apply trim_empty_iff in E. now rewrite E.
  - apply Z.eqb_neq. intros H. unfold JS.length in H.
    destruct (JS.trim dir) eqn:Et; [|cbn in H; lia].
    apply trim_empty_iff in Et. congruence.
Qed.

(** X19.  The Convert button (first version): the backend is invoked
    exactly when at least one input file is listed and the output
    directory is not blank, and then with the list, the record type and
    the directory as they are; for a directory text that is blank or a
    list that is empty, the handler shows one message or two and invokes
    nothing. *)
Theorem onConvert_invokes (inputFiles : list string) (recordType : string)
    (outputDir : option string) :
  (forall inv,
     TauriApp.ended (TauriApp.onConvert inputFiles recordType outputDir) = Ok (Some inv)
     <-> inputFiles <> []
         /\ exists dir, outputDir = Some dir /\ all_space dir = false
                        /\ inv = TauriApp.mkInvocation inputFiles recordType dir)
  /\ (forall dir, outputDir = Some dir -> inputFiles = [] \/ all_space dir = true ->
        exists message messages,
          TauriApp.onConvert inputFiles recordType outputDir
          = TauriApp.mkHandled (Some (message :: messages)) (Ok None)
          /\ (List.length messages <= 1)%nat).
Proof.
  unfold TauriApp.onConvert. split.
  - intros inv. destruct outputDir as [dir|]; cbn [TauriApp.ended].
    + rewrite blank_iff.
      destruct inputFiles as [|f files], (all_space dir) eqn:E; cbn; split;
        try discriminate.
      * now intros [H _].
      * now intros [H _].
      * intros (_ & d & Hd & Hs & _). injection Hd as <-. congruence.
      * intros H. injection H as <-. split; [discriminate|]. now exists dir.
      * intros (_ & d & Hd & _ & ->). now injection Hd as <-.
    + split; [discriminate|]. now intros (_ & d & Hd & _).
  - intros dir -> H. rewrite blank_iff.
    destruct inputFiles as [|f files], (all_space dir) eqn:E; cbn.
    + eexists _, _. split; [reflexivity | cbn; lia].
    + eexists _, _. split; [reflexivity | cbn; lia].
    + eexists _, _. split; [reflexivity | cbn; lia].
    + destruct H; discriminate.
Qed.

(** X20.  The Convert button (second version): only an empty list of
    input files stops the handler.  With a file listed and a blank output
    directory, the handler shows the message about the directory and
    invokes the backend all the same, with the blank directory, where the
    first version invokes nothing. *)
Theorem onConvert_v2_blank_directory (inputFiles : list string) (recordType dir : string) :
  inputFiles <> [] ->
  (forall inv,
     TauriApp.ended (TauriApp.onConvert_v2 inputFiles recordType (Some dir)) = Ok (Some inv)
     <-> inv = TauriApp.mkInvocation inputFiles recordType dir)
  /\ (all_space dir = true ->
        TauriApp.onConvert_v2 inputFiles recordType (Some dir)
        = TauriApp.mkHandled
            (Some ("Must select an output directory." ++ String "010" "")%string)
            (Ok (Some (TauriApp.mkInvocation inputFiles recordType dir)))
        /\ TauriApp.ended (TauriApp.onConvert inputFiles recordType (Some dir)) = Ok None).
Proof.
  intros Hne. destruct inputFiles as [|f files]; [congruence|].
  unfold TauriApp.onConvert_v2, TauriApp.onConvert. rewrite !blank_iff. split.
  - intros inv. cbn. split; [intros H; now injection H as <- | now intros ->].
  - intros ->. cbn. split; reflexivity.
Qed.

Lemma onConvert_v2_blank_directory_witness :
  (forall inv,
     TauriApp.ended (TauriApp.onConvert_v2 ["a.xlsx"] "PDS" (Some "  ")) = Ok (Some inv)
     <-> inv = TauriApp.mkInvocation ["a.xlsx"] "PDS" "  ")
  /\ (all_space "  " = true ->
        TauriApp.onConvert_v2 ["a.xlsx"] "PDS" (Some "  ")
        = TauriApp.mkHandled
            (Some ("Must select an output directory." ++ String "010" "")%string)
            (Ok (Some (TauriApp.mkInvocation ["a.xlsx"] "PDS" "  ")))
        /\ TauriApp.ended (TauriApp.onConvert ["a.xlsx"] "PDS" (Some "  ")) = Ok None).
Proof.
  apply (onConvert_v2_blank_directory ["a.xlsx"] "PDS" "  "). discriminate.
Defined.

(** ** The Electron window: the Convert button *)

Lemma removed_extension_no_dot (name : string) :
  ElectronApp.has_dot (ElectronApp.removed_extension name) = false.
Proof.
  induction name as [|c name IH]; [reflexivity|]. cbn.
  destruct (Ascii.eqb c ".") eqn:E; [reflexivity|]. cbn. now rewrite E.
Qed.

Lemma removed_extension_stem (stem rest : string) :
  ElectronApp.has_dot stem = false ->
  rest = "" \/ first_char rest = Some "."%char ->
  ElectronApp.removed_extension (stem ++ rest) = stem.
Proof.
  intros Hs Hr. induction stem as [|c stem IH].
  - cbn. destruct Hr as [->|Hr]; [reflexivity|].
    destruct rest as [|d rest]; [discriminate|]. cbn in Hr. injection Hr as ->.
    reflexivity.
  - cbn in Hs |- *. apply orb_false_iff in Hs as [-> Hs]. now rewrite IH.
Qed.

Lemma removed_extension_prefix (name : string) :
  exists rest, name = (ElectronApp.removed_extension name ++ rest)%string
               /\ (rest = "" \/ first_char rest = Some "."%char).
Proof.
  induction name as [|c name IH]; [exists ""; now split; [|left]|].
  cbn. destruct (Ascii.eqb c ".") eqn:E.
  - apply Ascii.eqb_eq in E. subst c. exists (String "." name). split; [reflexivity|].
    now right.
  - destruct IH as (rest & Hn & Hr). exists rest. split; [|exact Hr].
    cbn. now rewrite <- Hn.
Qed.

(** X21.  The name of the output file is the part of the base name before
    its first dot, followed by [.txt]: every base name is such a part
    without dot, followed by nothing or by a dot and more; so two input
    files whose names differ only after the first dot are written to the
    same output file. *)
Theorem out_name_stem (name : string) :
  (exists stem rest,
     name = (stem ++ rest)%string /\ ElectronApp.has_dot stem = false
     /\ (rest = "" \/ first_char rest = Some "."%char)
     /\ ElectronApp.out_name name = (stem ++ ".txt")%string)
  /\ (forall stem rest,
        name = (stem ++ rest)%string -> ElectronApp.has_dot stem = false ->
        rest = "" \/ first_char rest = Some "."%char ->
        ElectronApp.out_name name = (stem ++ ".txt")%string
        /\ forall ext, ElectronApp.out_name (stem ++ "." ++ ext) = ElectronApp.out_name name).
Proof.
  split.
  - destruct (removed_extension_prefix name) as (rest & Hn & Hr).
    exists (ElectronApp.removed_extension name), rest.
    split; [exact Hn|]. split; [apply removed_extension_no_dot|]. now split.
  - intros stem rest -> Hs Hr. unfold ElectronApp.out_name.
    rewrite removed_extension_stem by assumption. split; [reflexivity|].
    intros ext. rewrite removed_extension_stem; [reflexivity | exact Hs | now right].
Qed.

Local Abbreviation run_of :=
  (fun (export_type : string) (f : ElectronApp.input) =>
     writeACHFile (ElectronApp.time f) (ElectronApp.payment f) (ElectronApp.sheet f)
       export_type).

Local Abbreviation output_of :=
  (fun (export_type : string) (f : ElectronApp.input) =>
     (ElectronApp.out_name (ElectronApp.xl_basename f), written (run_of export_type f))).

Lemma assemble_throws_run (now payment_moment : Moment.t) (ws : worksheet) (mode : string)
    (e : exn) :
  assemble now payment_moment ws mode = Throw e ->
  writeACHFile now payment_moment ws mode = mkRun [] (Some e).
Proof. intros H. unfold writeACHFile. now rewrite H. Qed.

Lemma convert_files_prefix (o : string) (os : list string) (export_type : string)
    (pre rest : list ElectronApp.input) :
  (forall g, In g pre -> thrown (run_of export_type g) = None) ->
  forall dir,
    ElectronApp.convert_files (o :: os) export_type (pre ++ rest) dir
    = ElectronApp.convert_files (o :: os) export_type rest
        (rev (map (output_of export_type) pre) ++ dir).
Proof.
  induction pre as [|f pre IH]; intros Hpre dir; [reflexivity|].
  assert (Hf : thrown (run_of export_type f) = None) by (apply Hpre; now left).
  cbn [app ElectronApp.convert_files].
  destruct (run_completes _ _ _ _ Hf) as (header & recs & t & _ & _ & Ha & _).
  rewrite Ha, Hf. rewrite IH by (intros g Hg; apply Hpre; now right).
  cbn [map rev]. now rewrite <- app_assoc.
Qed.

Lemma lookup_outputs (export_type name : string) (files : list ElectronApp.input)
    (dir : ElectronApp.directory) :
  ElectronApp.lookup name (map (output_of export_type) files ++ dir)
  = match find (fun f => String.eqb (ElectronApp.out_name (ElectronApp.xl_basename f)) name)
            files with
    | Some f => Some (written (run_of export_type f))
    | None => ElectronApp.lookup name dir
    end.
Proof.
  unfold ElectronApp.lookup. induction files as [|f files IH]; [reflexivity|].
  cbn [map app find fst].
  destruct (String.eqb (ElectronApp.out_name (ElectronApp.xl_basename f)) name);
    [reflexivity | exact IH].
Qed.

(** X22.  A batch in which every conversion ends without exception: each
    input file is converted, in order, and written under its output name;
    the batch ends without exception; and afterwards a file of the output
    directory holds the output of the last input file with that output
    name (an earlier one is overwritten), or what it held before when no
    input file has the name. *)
Theorem convert_files_completed (o : string) (os : list string) (export_type : string)
    (files : list ElectronApp.input) (dir : ElectronApp.directory) :
  (forall f, In f files ->
     thrown (writeACHFile (ElectronApp.time f) (ElectronApp.payment f) (ElectronApp.sheet f)
               export_type) = None) ->
  ElectronApp.convert_files (o :: os) export_type files dir
  = (rev (map (fun f => (ElectronApp.out_name (ElectronApp.xl_basename f),
                         written (writeACHFile (ElectronApp.time f) (ElectronApp.payment f)
                                    (ElectronApp.sheet f) export_type))) files) ++ dir,
     None)
  /\ forall name,
       ElectronApp.lookup name
         (fst (ElectronApp.convert_files (o :: os) export_type files dir))
       = match find (fun f => String.eqb (ElectronApp.out_name (ElectronApp.xl_basename f))
                                name) (rev files) with
         | Some f => Some (written (writeACHFile (ElectronApp.time f) (ElectronApp.payment f)
                                      (ElectronApp.sheet f) export_type))
         | None => ElectronApp.lookup name dir
         end.
Proof.
  intros Hall.
  assert (E : ElectronApp.convert_files (o :: os) export_type files dir
              = (rev (map (output_of export_type) files) ++ dir, None)).
  { rewrite <- (app_nil_r files) at 1. now rewrite convert_files_prefix. }
  split; [exact E|]. intros name. rewrite E. cbn [fst].
  rewrite <- map_rev. apply lookup_outputs.
Qed.

(** X23.  The batch stops at the first exception.  Without an output
    directory nothing is converted and the handler ends with a
    [TypeError].  With one, when the conversions of the first files end
    without exception and the next one ends with an exception, the files
    after it are not converted, whatever they are: the directory holds the
    outputs of the first files and, when the failing conversion came to
    open its output file, what it wrote of it. *)
Theorem convert_files_stops (o : string) (os : list string) (export_type : string)
    (pre : list ElectronApp.input) (f : ElectronApp.input) (rest : list ElectronApp.input)
    (dir : ElectronApp.directory) (e : exn) :
  (forall g, In g pre ->
     thrown (writeACHFile (ElectronApp.time g) (ElectronApp.payment g) (ElectronApp.sheet g)
               export_type) = None) ->
  thrown (writeACHFile (ElectronApp.time f) (ElectronApp.payment f) (ElectronApp.sheet f)
            export_type) = Some e ->
  ElectronApp.convert_files [] export_type (pre ++ f :: rest) dir = (dir, Some TypeError)
  /\ ElectronApp.convert_files (o :: os) export_type (pre ++ f :: rest) dir
     = ((if JS.is_ok (assemble (ElectronApp.time f) (ElectronApp.payment f)
                        (ElectronApp.sheet f) export_type)
         then [(ElectronApp.out_name (ElectronApp.xl_basename f),
                written (writeACHFile (ElectronApp.time f) (ElectronApp.payment f)
                           (ElectronApp.sheet f) export_type))]
         else [])
        ++ rev (map (fun g => (ElectronApp.out_name (ElectronApp.xl_basename g),
                               written (writeACHFile (ElectronApp.time g)
                                          (ElectronApp.payment g) (ElectronApp.sheet g)
                                          export_type))) pre)
        ++ dir,
        Some e).
Proof.
  intros Hpre Hf. split; [now destruct pre|].
  rewrite convert_files_prefix by exact Hpre. cbn [ElectronApp.convert_files].
  destruct (assemble (ElectronApp.time f) (ElectronApp.payment f) (ElectronApp.sheet f)
              export_type) as [file|e'] eqn:Ea; cbn [JS.is_ok].
  - now rewrite Hf.
  - rewrite (assemble_throws_run _ _ _ _ _ Ea) in Hf. cbn in Hf. now injection Hf as <-.
Qed.

(** Witness of X22: two input files with the output name [pay.txt]; the
    file holds the output of the second. *)
Lemma convert_files_completed_witness :
  ElectronApp.lookup "pay.txt"
    (fst (ElectronApp.convert_files ["out"] "D" [Batch.pay_2021; Batch.pay_2022] []))
  = Some (written (writeACHFile Sample.now Sample.payment_moment Sample.scenario "D")).
Proof.
  assert (H : forall f, In f [Batch.pay_2021; Batch.pay_2022] ->
                thrown (writeACHFile (ElectronApp.time f) (ElectronApp.payment f)
                          (ElectronApp.sheet f) "D") = None).
  { intros f [<-|[<-|[]]]; vm_compute; reflexivity. }
  destruct (convert_files_completed "out" [] "D" [Batch.pay_2021; Batch.pay_2022] [] H)
    as [_ E].
  rewrite (E "pay.txt"). reflexivity.
Defined.

(** Witness of X23: in the mode [PDS] the second file, which has an
    accepted row, fails once its header is written; the third file is not
    converted. *)
Lemma convert_files_stops_witness :
  ElectronApp.convert_files ["out"] "PDS" [Batch.nothing; Batch.pay_2021; Batch.pay_2022] []
  = ([("pay.txt", ["A00000000112345678901   00320                    CAD"; newlines]);
      ("nothing.txt", written (writeACHFile Sample.now Sample.payment_moment Sample.top
                                 "PDS"))],
     Some RangeError).
Proof.
  assert (Hpre : forall g, In g [Batch.nothing] ->
                   thrown (writeACHFile (ElectronApp.time g) (ElectronApp.payment g)
                             (ElectronApp.sheet g) "PDS") = None).
  { intros g [<-|[]]. vm_compute. reflexivity. }
  assert (Hf : thrown (writeACHFile (ElectronApp.time Batch.pay_2021)
                         (ElectronApp.payment Batch.pay_2021)
                         (ElectronApp.sheet Batch.pay_2021) "PDS") = Some RangeError).
  { vm_compute. reflexivity. }
  destruct (convert_files_stops "out" [] "PDS" [Batch.nothing] Batch.pay_2021
              [Batch.pay_2022] [] RangeError Hpre Hf) as [_ E].
  cbn [app] in E. rewrite E. vm_compute. reflexivity.
Defined.

(** ** The payment date of a segment *)

Lemma append_inj (a a' b b' : string) :
  String.length a = String.length a' -> (a ++ b)%string = (a' ++ b')%string ->
  a = a' /\ b = b'.
Proof.
  revert a'. induction a as [|c a IH]; intros [|c' a'] Hlen H; try discriminate.
  - now split.
  - cbn in Hlen, H. injection Hlen as Hlen. injection H as -> H.
    destruct (IH a' Hlen H) as [-> ->]. now split.
Qed.

Local Abbreviation read_number :=
  (fun s : string =>
     match NilEmpty.uint_of_string s with
     | Some u => N.of_uint u
     | None => 0%N
     end).

Lemma zeroFill_read :
  forallb (fun i => (read_number (Moment.zeroFill (N.of_nat i) 3) =? N.of_nat i)%N
                    && ((100 <=? i)%nat
                        || (read_number (Moment.zeroFill (N.of_nat i) 2) =? N.of_nat i)%N))
    (seq 0 1000) = true.
Proof. vm_compute. reflexivity. Qed.

Lemma zeroFill_read_3 (n : N) :
  (n < 1000)%N -> read_number (Moment.zeroFill n 3) = n.
Proof.
  intros H. pose proof zeroFill_read as D. rewrite forallb_forall in D.
  specialize (D (N.to_nat n)). rewrite in_seq, N2Nat.id in D.
  assert (D' : (0 <= N.to_nat n < 0 + 1000)%nat) by lia.
  apply D in D'. apply andb_prop in D' as [D' _]. now apply N.eqb_eq in D'.
Qed.

Lemma zeroFill_read_2 (n : N) :
  (n < 100)%N -> read_number (Moment.zeroFill n 2) = n.
Proof.
  intros H. pose proof zeroFill_read as D. rewrite forallb_forall in D.
  specialize (D (N.to_nat n)). rewrite in_seq, N2Nat.id in D.
  assert (D' : (0 <= N.to_nat n < 0 + 1000)%nat) by lia.
  apply D in D'. apply andb_prop in D' as [_ D'].
  apply orb_prop in D' as [D'|D']; [apply Nat.leb_le in D'; lia | now apply N.eqb_eq in D'].
Qed.

Lemma daysInMonth_leap (y y' m : N) :
  Moment.isLeapYear y = Moment.isLeapYear y' ->
  Moment.daysInMonth y m = Moment.daysInMonth y' m.
Proof. intros H. unfold Moment.daysInMonth. now rewrite H. Qed.

Lemma daysBefore_leap (y y' m : N) :
  Moment.isLeapYear y = Moment.isLeapYear y' ->
  Moment.daysBefore y m = Moment.daysBefore y' m.
Proof.
  intros H. unfold Moment.daysBefore. f_equal. apply map_ext.
  intros k. now apply daysInMonth_leap.
Qed.

(** The months of a year follow one another: a month ends before a later
    one begins (on a leap year, 2020, and on another, 2021). *)
Lemma months_table :
  forallb (fun y =>
    forallb (fun a =>
      forallb (fun b =>
        (b <=? a)%nat
        || (Moment.daysBefore y (N.of_nat a) + Moment.daysInMonth y (N.of_nat a)
            <=? Moment.daysBefore y (N.of_nat b))%N)
        (seq 1 12))
      (seq 1 12))
    [2020; 2021]%N = true.
Proof. vm_compute. reflexivity. Qed.

Lemma months_ordered (y a b : N) :
  (1 <= a)%N -> (a < b)%N -> (b <= 12)%N ->
  (Moment.daysBefore y a + Moment.daysInMonth y a <= Moment.daysBefore y b)%N.
Proof.
  intros H1 Hab H12.
  assert (Hy : exists y', In y' [2020; 2021]%N /\ Moment.isLeapYear y = Moment.isLeapYear y').
  { destruct (Moment.isLeapYear y).
    - exists 2020%N. split; [now left | reflexivity].
    - exists 2021%N. split; [right; now left | reflexivity]. }
  destruct Hy as (y' & Hin & Hy).
  rewrite (daysBefore_leap y y' a Hy), (daysBefore_leap y y' b Hy),
    (daysInMonth_leap y y' a Hy).
  pose proof months_table as T. rewrite forallb_forall in T.
  specialize (T y' Hin). rewrite forallb_forall in T.
  specialize (T (N.to_nat a)). rewrite in_seq, forallb_forall in T.
  assert (Ha : (1 <= N.to_nat a < 1 + 12)%nat) by lia.
  specialize (T Ha (N.to_nat b)). rewrite in_seq, !N2Nat.id in T.
  assert (Hb : (1 <= N.to_nat b < 1 + 12)%nat) by lia.
  apply T in Hb. apply orb_prop in Hb as [Hb|Hb].
  - apply Nat.leb_le in Hb. lia.
  - now apply N.leb_le in Hb.
Qed.

Lemma isValid_bounds (m : Moment.t) :
  Moment.isValid m = true ->
  (1 <= Moment.month m <= 12
   /\ 1 <= Moment.date m <= Moment.daysInMonth (Moment.year m) (Moment.month m))%N.
Proof.
  unfold Moment.isValid. intros H. repeat (apply andb_prop in H as [H ?]).
  repeat match goal with
         | E : (_ <=? _)%N = true |- _ => apply N.leb_le in E
         end.
  lia.
Qed.

Lemma dayOfYear_inj (m1 m2 : Moment.t) :
  Moment.isValid m1 = true -> Moment.isValid m2 = true ->
  Moment.year m1 = Moment.year m2 -> Moment.dayOfYear m1 = Moment.dayOfYear m2 ->
  m1 = m2.
Proof.
  intros V1 V2 Hy Hd. apply isValid_bounds in V1, V2.
  destruct m1 as [y a d], m2 as [y' b d']. unfold Moment.dayOfYear in Hd.
  cbn [Moment.year Moment.month Moment.date] in *. subst y'.
  destruct (N.lt_trichotomy a b) as [Hab|[->|Hab]].
  - pose proof (months_ordered y a b). lia.
  - f_equal. lia.
  - pose proof (months_ordered y b a). lia.
Qed.

Lemma format_fields (m1 m2 : Moment.t) :
  Moment.isValid m1 = true -> Moment.isValid m2 = true ->
  Moment.format_0YYDDDD m1 = Moment.format_0YYDDDD m2 <->
  (Moment.year m1 mod 100 = Moment.year m2 mod 100)%N
  /\ Moment.dayOfYear m1 = Moment.dayOfYear m2.
Proof.
  intros V1 V2. rewrite !format_valid by assumption. split.
  - intros H. cbn [append] in H. injection H as H.
    pose proof (dayOfYear_bounds m1 V1) as B1. pose proof (dayOfYear_bounds m2 V2) as B2.
    assert (Y1 : (Moment.year m1 mod 100 < 100)%N) by (apply N.mod_lt; lia).
    assert (Y2 : (Moment.year m2 mod 100 < 100)%N) by (apply N.mod_lt; lia).
    apply append_inj in H as [Hy Hd].
    + split.
      * rewrite <- (zeroFill_read_2 _ Y1), <- (zeroFill_read_2 _ Y2). now rewrite Hy.
      * rewrite <- (zeroFill_read_3 (Moment.dayOfYear m1)),
          <- (zeroFill_read_3 (Moment.dayOfYear m2)) by lia.
        now rewrite Hd.
    + rewrite !zeroFill_length; [reflexivity | now apply digits_2 | now apply digits_2].
  - intros [-> ->]. reflexivity.
Qed.

(** X24.  What the payment date field tells.  For two dates of the
    calendar the fields are the same exactly when the years agree in their
    last two digits and the days have the same rank in their years: within
    one year the field determines the date, and the century is lost (14
    February 1921 and 14 February 2021 are both written [021045]). *)
Theorem payment_date_field (m1 m2 : Moment.t) :
  Moment.isValid m1 = true -> Moment.isValid m2 = true ->
  (Moment.format_0YYDDDD m1 = Moment.format_0YYDDDD m2 <->
   (Moment.year m1 mod 100 = Moment.year m2 mod 100)%N
   /\ Moment.dayOfYear m1 = Moment.dayOfYear m2)
  /\ (Moment.year m1 = Moment.year m2 ->
      Moment.format_0YYDDDD m1 = Moment.format_0YYDDDD m2 -> m1 = m2).
Proof.
  intros V1 V2. split; [now apply format_fields|].
  intros Hy H. apply format_fields in H as [_ Hd]; try assumption.
  now apply dayOfYear_inj.
Qed.

(** Witness of X24: the same day of February, a century apart. *)
Lemma payment_date_field_witness :
  Moment.format_0YYDDDD (Moment.mk 1921 2 14) = Moment.format_0YYDDDD (Moment.mk 2021 2 14)
  /\ Moment.format_0YYDDDD (Moment.mk 2021 2 14) = "021045".
Proof.
  split; [|reflexivity].
  destruct (payment_date_field (Moment.mk 1921 2 14) (Moment.mk 2021 2 14)) as [[_ H] _];
    [reflexivity | reflexivity |].
  apply H. split; reflexivity.
Defined.

(** ** Negative amounts *)

Lemma toFixed2_negative (x : float) :
  mantissa x < 0 -> exists rest, JS.Number_toFixed2 x = ("-" ++ rest)%string.
Proof.
  unfold mantissa, JS.Number_toFixed2, JS.Number_toString.
  destruct (Prim2SF x) as [sign|sign| |sign m e]; try lia.
  destruct sign; [intros _|lia].
  destruct (JS.cmp10_2 1 21 (Z.pos m) e).
  - destruct (JS.shortest 17 (Z.pos m) e _ 1) as [[s k] n]. eexists. reflexivity.
  - destruct (JS.shortest 17 (Z.pos m) e _ 1) as [[s k] n]. eexists. reflexivity.
  - eexists. reflexivity.
Qed.

(** X25.  A negative amount is not refused: its money field, when it
    fits, is the zero filling followed by a minus sign and the digits, so
    the field is not made of digits only. *)
Theorem negative_amount_field (x : float) (width : Z) (s : string) :
  mantissa x < 0 ->
  Formatter.money (Num x) width = Ok s ->
  exists zeros rest,
    s = (JS.replicate "0" zeros ++ "-" ++ rest)%string
    /\ JS.length s = width.
Proof.
  intros Hx H. pose proof (money_width _ _ _ H) as W.
  unfold Formatter.money, JS.bind in H. cbn [JS.toFixed2] in H.
  destruct (toFixed2_negative x Hx) as (rest & E). rewrite E in H.
  cbn [append JS.remove_first_dot Ascii.eqb Bool.eqb] in H.
  destruct (JS.repeat "0" _) as [pad|e] eqn:P; [|discriminate].
  injection H as <-. apply repeat_form in P as [_ ->].
  eexists _, _. split; [reflexivity | exact W].
Qed.

(** Witness of X25: the amount -5 in the field of a segment. *)
Lemma negative_amount_field_witness :
  Formatter.money (Num (-5)%float) 10 = Ok "000000-500"
  /\ exists zeros rest,
       "000000-500" = (JS.replicate "0" zeros ++ "-" ++ rest)%string
       /\ JS.length "000000-500" = 10.
Proof.
  split; [reflexivity|].
  apply (negative_amount_field (-5)%float 10 "000000-500"); [reflexivity | reflexivity].
Defined.

(** ** The texts [cell] returns *)

(** X12.  A text that [cell] returns is the text of the sheet without the
    white space around it: the text of the sheet is the returned text
    between two runs of white space, and the returned text neither starts
    nor ends with white space (so trimming it again changes nothing); it
    is empty exactly when the text of the sheet is white space only. *)
Theorem cell_text_trimmed (ws : worksheet) (r col : nat) (w : string) :
  cell ws r col = Str w ->
  exists s a b,
    nth_error (nth (r - 1) ws []) (col - 1) = Some (Some (RawStr s))
    /\ s = (a ++ w ++ b)%string /\ all_space a = true /\ all_space b = true
    /\ not_space (first_char w) /\ not_space (last_char w)
    /\ JS.trim w = w
    /\ (w = "" <-> all_space s = true).
Proof.
  unfold cell. intros H. apply row_cell_text in H as (s & Hs & ->).
  destruct (trimStart_decomposition s) as (a & Ha & Hsa).
  destruct (trimEnd_decomposition (JS.trimStart s)) as (b & Hb & Hsb).
  destruct (trim_ends s) as [Hf Hl].
  exists s, a, b. split; [exact Hs|].
  split; [unfold JS.trim; now rewrite <- Hsb|].
  split; [exact Ha|]. split; [exact Hb|]. split; [exact Hf|]. split; [exact Hl|].
  split; [now apply trim_fixed | apply trim_empty_iff].
Qed.

(** Witness of X12: the client name of the sheet, with white space
    around it. *)
Lemma cell_text_trimmed_witness :
  exists s a b,
    nth_error (nth (1 - 1) [[None; Some (RawStr "  ACME LTD ")]] []) (2 - 1)
    = Some (Some (RawStr s))
    /\ s = (a ++ "ACME LTD" ++ b)%string /\ all_space a = true /\ all_space b = true
    /\ not_space (first_char "ACME LTD") /\ not_space (last_char "ACME LTD")
    /\ JS.trim "ACME LTD" = "ACME LTD"
    /\ ("ACME LTD" = "" <-> all_space s = true).
Proof.
  apply (cell_text_trimmed [[None; Some (RawStr "  ACME LTD ")]] 1 2 "ACME LTD").
  reflexivity.
Defined.

(** ** When the records are assembled *)

Lemma Forall2_left {A B : Type} (R : A -> B -> Prop) (P : A -> Prop)
    (l : list A) (l' : list B) :
  Forall2 R l l' -> (forall a b, R a b -> P a) -> Forall P l.
Proof.
  intros H HP. induction H as [|a b l l' Hab _ IH]; constructor; [|exact IH].
  exact (HP a b Hab).
Qed.

(** X26.  The first phase of a run (reading the rows and building the
    header, the Detail records and the trailer) can only fail on a transit
    number: it returns the records exactly when, for every accepted row,
    the bank number fits 4 characters and the branch number 5; the rows
    that are suspended or come after the end of the data play no part. *)
Theorem assemble_returns_iff (now payment_moment : Moment.t) (ws : worksheet)
    (mode : string) :
  (exists file, assemble now payment_moment ws mode = Ok file)
  <-> Forall (fun cells => fits (row_cell cells 3) 4 /\ fits (row_cell cells 4) 5)
        (accepted (data_rows ws)).
Proof.
  split.
  - intros ([[header recs] t] & Ha).
    destruct (assemble_returns _ _ _ _ _ _ _ Ha) as (_ & Hrecs & _).
    apply (Forall2_left _ _ _ _ Hrecs).
    intros cells b (_ & seg & _ & _ & _ & _ & _ & _ & bank4 & branch5 & Hb & Hr & _).
    split; apply numeric_ok_fits; [now rewrite Hb | now rewrite Hr].
  - intros H.
    destruct (assemble_total now payment_moment ws mode) as (header & recs & t & Ha).
    + apply Forall_forall. rewrite Forall_forall in H. intros cells Hin.
      destruct (H cells Hin) as [Hb Hr]. split; now apply numeric_ok_fits.
    + now exists (header, recs, t).
Qed.
